(** * FilterStore: the reactive filter / sort / search / pagination store

    A shallow embedding of the store singleton (store.ts: class [FilterStore])
    and of the widget functions that sit at its boundary: the pagination
    slice of DisplayGrid and Broadcaster, the Broadcaster's scan, the range
    slider's bounds, apply handler and sync effect, the tag bar's [removeTag]
    and the pagination widget's click handler.

    Conventions of the embedding.
    - JavaScript objects that the code mutates or compares by identity live
      in an explicit heap ([list obj], addressed by [loc]); a field that holds
      such an object holds its address.  Reading the container behind a
      snapshot is therefore a heap lookup, and aliasing is visible.
    - Numbers are exact rationals ([Q]) for item data and integers ([Z]) for
      pagination counters; NaN is [None]; rounding of doubles and the
      infinities are not modelled.
    - A string is the sequence of bytes of its UTF-8 encoding.
    - Built-ins of the JavaScript runtime whose behaviour depends on Unicode
      tables, the locale or the storage quota are fields of [JSRuntime]; so
      is [JSON.parse].
    - The fields of the state have the types the source declares, with one
      exception the code itself allows: [sortConfig] may hold whatever
      [JSON.parse] returned for the saved text ([OOther]).
    - The code runs in a browser: [typeof window !== "undefined"]. *)

From Stdlib Require Import Ascii String QArith Sorted Lqa.
From stdpp Require Import gmap strings list fin_maps.

Local Open Scope string_scope.
Local Open Scope Z_scope.

(** ** Values *)

Set Warnings "-register-all".

Definition loc := nat.

(** A JavaScript value as the store meets it.  Arrays held as filter values
    are treated as immutable values. *)
Inductive value :=
| VUndef
| VNull
| VBool (b : bool)
| VNum (q : Q)
| VStr (s : string)
| VArr (l : list value)
| VObj (fields : list (string * value)).

Inductive Direction := Asc | Desc.
Inductive SortType := TString | TNumber | TDate.
Inductive Mode := ModePagination | ModeLoadMore | ModeAutoScroll.

Record SortConfig := {
  field : option string;
  direction : Direction;
  type : SortType
}.

Record Pagination := {
  currentPage : Z;
  itemsPerPage : Z;
  totalItems : Z;
  isEnabled : bool;
  mode : Mode;
  persistPage : bool
}.

(** Built-ins the store calls and that are not re-implemented here. *)
Class JSRuntime := {
  (** [String.prototype.toLowerCase] *)
  toLowerCase : string -> string;
  (** [s.normalize("NFD")] with the combining marks U+0300 to U+036F removed *)
  stripMarks : string -> string;
  (** [String(n)] for a number *)
  numberToString : Q -> string;
  (** [a.localeCompare(b)] *)
  localeCompare : string -> string -> Z;
  (** [new Date(v).getTime()], [None] for NaN *)
  dateGetTime : value -> option Q;
  (** [parseInt(s)], [None] for NaN *)
  parseInt : string -> option Z;
  (** [JSON.stringify(Object.fromEntries(map))] *)
  jsonOfFilters : list (string * value) -> string;
  (** [JSON.stringify(sortConfig)] *)
  jsonOfSort : SortConfig -> string;
  (** [JSON.stringify(v)] for a filter value *)
  jsonOfValue : value -> string;
  (** [Object.entries(JSON.parse(s))], [None] when it throws *)
  parseFilters : string -> option (list (string * value));
  (** [JSON.parse(s)], [None] when it throws *)
  parseJSON : string -> option value;
  (** whether [sessionStorage.setItem(k, v)] throws (quota, privacy mode) *)
  setItemThrows : string -> string -> bool
}.

(** ** Strings *)

Definition isDigit (c : ascii) : bool :=
  let n := nat_of_ascii c in (48 <=? n)%nat && (n <=? 57)%nat.

Definition digitVal (c : ascii) : Z := Z.of_nat (nat_of_ascii c) - 48.

Fixpoint keep (p : ascii -> bool) (s : string) : string :=
  match s with
  | EmptyString => EmptyString
  | String c r => if p c then String c (keep p r) else keep p r
  end.

Definition ascii_eqb (a b : ascii) : bool := (nat_of_ascii a =? nat_of_ascii b)%nat.

(** [s.replace(/[^0-9.-]/g, "")] *)
Definition cleanNumeric (s : string) : string :=
  keep (fun c => isDigit c || ascii_eqb c "."%char || ascii_eqb c "-"%char) s.

(** [s.replace(/[^0-9.,-]/g, "")] *)
Definition cleanNumericComma (s : string) : string :=
  keep (fun c => isDigit c || ascii_eqb c "."%char || ascii_eqb c ","%char
                 || ascii_eqb c "-"%char) s.

(** [s.replace(",", ".")]: a string pattern replaces the first match only. *)
Fixpoint replaceFirstComma (s : string) : string :=
  match s with
  | EmptyString => EmptyString
  | String c r => if ascii_eqb c ","%char then String "."%char r
                  else String c (replaceFirstComma r)
  end.

(** every comma turned into a dot *)
Fixpoint replaceCommas (s : string) : string :=
  match s with
  | EmptyString => EmptyString
  | String c r => String (if ascii_eqb c ","%char then "."%char else c) (replaceCommas r)
  end.

(** Leading decimal digits of [s] and the rest. *)
Fixpoint takeDigits (s : string) : list Z * string :=
  match s with
  | EmptyString => ([], EmptyString)
  | String c r =>
      if isDigit c then let '(ds, rest) := takeDigits r in (digitVal c :: ds, rest)
      else ([], s)
  end.

Definition digitsToZ (ds : list Z) : Z := fold_left (fun acc d => 10 * acc + d) ds 0.

(** [parseFloat] on a string without leading white space, exponent marker or
    [Infinity] (none of which survives the cleaning regular expressions): the
    longest prefix [sign? digits (. digits?)?] or [sign? . digits]; NaN when
    that prefix has no digit. *)
Definition parseFloat (s : string) : option Q :=
  let '(neg, s1) :=
    match s with
    | String c r =>
        if ascii_eqb c "-"%char then (true, r)
        else if ascii_eqb c "+"%char then (false, r)
        else (false, s)
    | EmptyString => (false, s)
    end in
  let '(ip, s2) := takeDigits s1 in
  let fp :=
    match s2 with
    | String c r => if ascii_eqb c "."%char then fst (takeDigits r) else []
    | EmptyString => []
    end in
  match ip, fp with
  | [], [] => None
  | _, _ =>
      let m := (inject_Z (digitsToZ ip)
                + inject_Z (digitsToZ fp) / inject_Z (10 ^ Z.of_nat (length fp)))%Q in
      Some (if neg then (- m)%Q else m)
  end.

Fixpoint joinWith (sep : string) (l : list string) : string :=
  match l with
  | [] => ""
  | [s] => s
  | s :: r => s ++ sep ++ joinWith sep r
  end.

Fixpoint startsWith (p s : string) : bool :=
  match p, s with
  | EmptyString, _ => true
  | String a p', String b s' => ascii_eqb a b && startsWith p' s'
  | String _ _, EmptyString => false
  end.

Fixpoint dropChars (n : nat) (s : string) : string :=
  match n, s with
  | O, _ => s
  | S n', String _ r => dropChars n' r
  | S _, EmptyString => EmptyString
  end.

(** [s.includes(t)] *)
Fixpoint includes (t s : string) : bool :=
  startsWith t s ||
  match s with
  | EmptyString => false
  | String _ r => includes t r
  end.

(** [s.split(c)] for a one-character separator *)
Fixpoint splitOn (c : ascii) (s : string) : list string :=
  match s with
  | EmptyString => [""]
  | String a r =>
      if ascii_eqb a c then "" :: splitOn c r
      else match splitOn c r with
           | w :: ws => String a w :: ws
           | [] => [String a ""]
           end
  end.

Definition bytes (l : list Z) : string :=
  fold_right (fun n r => String (ascii_of_nat (Z.to_nat n)) r) EmptyString l.

(** The characters [String.prototype.trim] removes, in UTF-8: the white
    space of ECMAScript (TAB, VT, FF, U+FEFF and the space separators U+0020,
    U+00A0, U+1680, U+2000 to U+200A, U+202F, U+205F, U+3000) and its line
    terminators (LF, CR, U+2028, U+2029). *)
Definition whiteSpace : list string :=
  map bytes
      [[9]; [10]; [11]; [12]; [13]; [32];
       [194; 160];
       [225; 154; 128];
       [226; 128; 128]; [226; 128; 129]; [226; 128; 130]; [226; 128; 131];
       [226; 128; 132]; [226; 128; 133]; [226; 128; 134]; [226; 128; 135];
       [226; 128; 136]; [226; 128; 137]; [226; 128; 138];
       [226; 128; 168]; [226; 128; 169]; [226; 128; 175];
       [226; 129; 159];
       [227; 128; 128];
       [239; 187; 191]].

Fixpoint revString (s acc : string) : string :=
  match s with
  | EmptyString => acc
  | String c r => revString r (String c acc)
  end.

(** [s] without the first of the words [ws] it starts with, if any. *)
Definition dropWord (ws : list string) (s : string) : option string :=
  match List.find (fun w => startsWith w s) ws with
  | Some w => Some (dropChars (String.length w) s)
  | None => None
  end.

Fixpoint dropWords (fuel : nat) (ws : list string) (s : string) : string :=
  match fuel with
  | O => s
  | S f => match dropWord ws s with
           | Some r => dropWords f ws r
           | None => s
           end
  end.

Definition trimStart (s : string) : string :=
  dropWords (String.length s) whiteSpace s.

Definition trimEnd (s : string) : string :=
  revString (dropWords (String.length s) (map (fun w => revString w "") whiteSpace)
                       (revString s "")) "".

(** [s.trim()] *)
Definition trim (s : string) : string := trimEnd (trimStart s).

Definition nonEmpty (s : string) : bool :=
  match s with EmptyString => false | _ => true end.

(** ** Property lists: plain objects and the [Map] of active filters *)

Section Assoc.
Context {A : Type}.

Fixpoint assocGet (k : string) (o : list (string * A)) : option A :=
  match o with
  | [] => None
  | (k', v) :: r => if String.eqb k k' then Some v else assocGet k r
  end.

(** [o[k] = v] / [map.set(k, v)]: an existing key keeps its position. *)
Fixpoint assocSet (k : string) (v : A) (o : list (string * A)) : list (string * A) :=
  match o with
  | [] => [(k, v)]
  | (k', v') :: r => if String.eqb k k' then (k, v) :: r else (k', v') :: assocSet k v r
  end.

(** [map.delete(k)] *)
Fixpoint assocDelete (k : string) (o : list (string * A)) : list (string * A) :=
  match o with
  | [] => []
  | (k', v') :: r => if String.eqb k k' then assocDelete k r else (k', v') :: assocDelete k r
  end.
End Assoc.

(** [o[k]]: a missing property reads as [undefined]. *)
Definition getProp (k : string) (o : list (string * value)) : value :=
  default VUndef (assocGet k o).

(** JavaScript truthiness *)
Definition truthy (v : value) : bool :=
  match v with
  | VUndef | VNull => false
  | VBool b => b
  | VNum q => negb (Qeq_bool q 0)
  | VStr s => nonEmpty s
  | VArr _ | VObj _ => true
  end.

Definition isNullish (v : value) : bool :=
  match v with VUndef | VNull => true | _ => false end.

(** [typeof v === "object" && v !== null && !Array.isArray(v)] *)
Definition isObject (v : value) : bool :=
  match v with VObj _ => true | _ => false end.

(** [Array.isArray(v) && v.length === 0] *)
Definition isEmptyArray (v : value) : bool :=
  match v with VArr [] => true | _ => false end.

(** The string elements of an array value (the source types them [string[]]). *)
Definition asStrings (v : value) : list string :=
  match v with
  | VArr l => omap (fun e => match e with VStr s => Some s | _ => None end) l
  | _ => []
  end.

(** A filter value read as [[number, number]]; bounds that are not numbers
    (which JavaScript would coerce) are outside the model. *)
Definition asRange (v : value) : option (Q * Q) :=
  match v with
  | VArr (VNum lo :: VNum hi :: _) => Some (lo, hi)
  | _ => None
  end.

(** ** Predicate engine (store.ts, [checkMultiMatch], [checkSliderMatch],
    [compareValues]) *)

Section Predicates.
Context `{RT : JSRuntime}.

(** [String(v)] *)
Fixpoint toStr (v : value) : string :=
  match v with
  | VUndef => "undefined"
  | VNull => "null"
  | VBool true => "true"
  | VBool false => "false"
  | VNum q => numberToString q
  | VStr s => s
  | VArr l =>
      joinWith "," (map (fun e => match e with
                                  | VUndef | VNull => ""
                                  | _ => toStr e
                                  end) l)
  | VObj _ => "[object Object]"
  end.

(** [text.toLowerCase().normalize("NFD")] without combining marks *)
Definition normalizeText (text : string) : string := stripMarks (toLowerCase text).

Definition checkMultiMatch (filterValues itemValues : value) : bool :=
  if negb (truthy filterValues) || isEmptyArray filterValues then true
  else if negb (truthy itemValues) then false
  else
    let items := asStrings itemValues in
    existsb (fun opt =>
               let optLower := toLowerCase opt in
               existsb (String.eqb optLower) items
               || existsb (fun itemOpt => includes optLower itemOpt) items)
            (asStrings filterValues).

Definition checkSliderMatch (filterRange : Q * Q) (itemValue : value) : bool :=
  let cleanStr := cleanNumeric (toStr itemValue) in
  match parseFloat cleanStr with
  | None => false
  | Some val => Qle_bool (fst filterRange) val && Qle_bool val (snd filterRange)
  end.

(** [typeof a === "number" ? a : parseFloat(String(a).replace(...)) || 0] *)
Definition sortNumber (a : value) : Q :=
  match a with
  | VNum q => q
  | _ => default 0%Q (parseFloat (cleanNumeric (toStr a)))
  end.

Definition compareValues (a b : value) (ty : SortType) (dir : Direction) : Q :=
  if isNullish a then 1%Q
  else if isNullish b then (-1)%Q
  else
    let res :=
      match ty with
      | TNumber => (sortNumber a - sortNumber b)%Q
      | TDate => (default 0%Q (dateGetTime a) - default 0%Q (dateGetTime b))%Q
      | TString => inject_Z (localeCompare (toStr a) (toStr b))
      end in
    match dir with Asc => res | Desc => (- res)%Q end.

(** The range slider widget's reading of an item value
    (RangeSliderFilterStore_1.tsx, bounds and histogram scan). *)
Definition sliderItemValue (rawVal : value) : option Q :=
  parseFloat (replaceFirstComma (cleanNumericComma (toStr rawVal))).
End Predicates.

(** Range match as the specification words it: keep digits, dot, minus and
    comma, turn the comma into a dot, parse, compare inclusively. *)
Definition specRangeMatch `{RT : JSRuntime} (lo hi : Q) (itemValue : value) : bool :=
  match parseFloat (replaceCommas (cleanNumericComma (toStr itemValue))) with
  | None => false
  | Some val => Qle_bool lo val && Qle_bool val hi
  end.

(** ** Pagination slicer (DisplayGrid.tsx [handleStoreUpdate], Broadcaster
    [updateUI]) *)

(** [Array.prototype.slice(start, end)] on integer arguments. *)
Definition jsSlice {A : Type} (l : list A) (start stop : Z) : list A :=
  let len := Z.of_nat (length l) in
  let k := if start <? 0 then Z.max (len + start) 0 else Z.min start len in
  let final := if stop <? 0 then Z.max (len + stop) 0 else Z.min stop len in
  take (Z.to_nat (final - k)) (drop (Z.to_nat k) l).

(** DisplayGrid: [const end = start + itemsPerPage] *)
Definition handleStoreUpdate {A : Type} (filteredItems : list A) (pagination : Pagination)
  : list A :=
  if isEnabled pagination then
    match mode pagination with
    | ModePagination =>
        let start := (currentPage pagination - 1) * itemsPerPage pagination in
        let stop := start + itemsPerPage pagination in
        jsSlice filteredItems start stop
    | ModeLoadMore | ModeAutoScroll =>
        jsSlice filteredItems 0 (currentPage pagination * itemsPerPage pagination)
    end
  else filteredItems.

(** Broadcaster: the same slice, computed before the visibility pass. *)
Definition updateUI {A : Type} (filteredItems : list A) (pagination : Pagination)
  : list A :=
  if isEnabled pagination then
    match mode pagination with
    | ModePagination =>
        let start := (currentPage pagination - 1) * itemsPerPage pagination in
        jsSlice filteredItems start (start + itemsPerPage pagination)
    | ModeLoadMore | ModeAutoScroll =>
        jsSlice filteredItems 0 (currentPage pagination * itemsPerPage pagination)
    end
  else filteredItems.

(** The window [[a, b)] of a list, by index. *)
Definition window {A : Type} (l : list A) (a b : nat) : list A :=
  take (b - a) (drop a l).

(** ** The store: heap, state, session storage *)

(** Objects the store creates, mutates in place or compares by identity.
    [OOther] is any other value found where one of them is expected: the
    restoration from the session assigns what [JSON.parse] returns to
    [sortConfig] without looking at it. *)
Inductive obj :=
| OMap (m : list (string * value))      (* Map<string, any>, insertion order *)
| OArr (a : list loc)                   (* array of item references *)
| OPag (p : Pagination)
| OSort (c : SortConfig)                (* { field, direction, type } *)
| OItem (f : list (string * value))     (* an item record *)
| OOther (v : value).

Definition defaultSort : SortConfig :=
  {| field := None; direction := Asc; type := TString |}.

Definition defaultPagination : Pagination :=
  {| currentPage := 1; itemsPerPage := 12; totalItems := 0;
     isEnabled := true; mode := ModePagination; persistPage := false |}.

(** A parsed JSON value read as a sort configuration: an object with the
    keys [field], [direction] and [type], in the order in which the store
    writes them, and values of the declared types. *)
Definition asSortConfig (v : value) : option SortConfig :=
  match v with
  | VObj [(k1, f); (k2, VStr d); (k3, VStr t)] =>
      if String.eqb k1 "field" && String.eqb k2 "direction" && String.eqb k3 "type"
      then
        match (match f with
               | VNull => Some None
               | VStr x => Some (Some x)
               | _ => None
               end),
              (if String.eqb d "asc" then Some Asc
               else if String.eqb d "desc" then Some Desc else None),
              (if String.eqb t "string" then Some TString
               else if String.eqb t "number" then Some TNumber
               else if String.eqb t "date" then Some TDate else None)
        with
        | Some f', Some d', Some t' =>
            Some {| field := f'; direction := d'; type := t' |}
        | _, _, _ => None
        end
      else None
  | _ => None
  end.

(** The object behind [sortConfig] after [sortConfig = JSON.parse(...)]. *)
Definition sortObject (v : value) : obj :=
  match asSortConfig v with
  | Some c => OSort c
  | None => OOther v
  end.

(** The readers below are total; on a reference that does not hold an
    object of the expected kind they return a default, and [wf] below
    singles out the stores on which this never happens. *)
Definition getMap (h : list obj) (l : loc) : list (string * value) :=
  match h !! l with Some (OMap m) => m | _ => [] end.
Definition getArr (h : list obj) (l : loc) : list loc :=
  match h !! l with Some (OArr a) => a | _ => [] end.
Definition getPag (h : list obj) (l : loc) : Pagination :=
  match h !! l with Some (OPag p) => p | _ => defaultPagination end.
Definition getSort (h : list obj) (l : loc) : SortConfig :=
  match h !! l with Some (OSort c) => c | _ => defaultSort end.
Definition getItem (h : list obj) (l : loc) : list (string * value) :=
  match h !! l with Some (OItem f) => f | _ => [] end.

(** [interface FilterState]: container fields hold references. *)
Record FilterState := {
  activeFilters : loc;
  searchQuery : string;
  sortConfig : loc;
  items : loc;
  filteredItems : loc;
  pagination : loc
}.

(** What an observer reads through a [FilterState] at a given heap. *)
Record StateView := {
  vFilters : list (string * value);
  vSearch : string;
  vSort : SortConfig;
  vItems : list (list (string * value));
  vFiltered : list (list (string * value));
  vPagination : Pagination
}.

Definition viewOf (h : list obj) (st : FilterState) : StateView :=
  {| vFilters := getMap h (activeFilters st);
     vSearch := searchQuery st;
     vSort := getSort h (sortConfig st);
     vItems := map (getItem h) (getArr h (items st));
     vFiltered := map (getItem h) (getArr h (filteredItems st));
     vPagination := getPag h (pagination st) |}.

Definition listener := nat.

(** Calls the store makes to its observers, in order; [content] is what the
    snapshot shows at the moment of the call. *)
Inductive event :=
| EvInitial (to : listener) (snapshot : FilterState) (content : StateView)
| EvNotify (snapshot : FilterState) (content : StateView) (to : list listener)
| EvDeferred.

Record Store := {
  heap : list obj;
  state : FilterState;
  initialized : bool;
  listeners : list listener;
  isBatching : bool;
  pendingNotify : bool;
  sessionStorage : gmap string string;
  trace : list event
}.

Definition withHeap (h : list obj) (s : Store) : Store :=
  {| heap := h; state := state s; initialized := initialized s;
     listeners := listeners s; isBatching := isBatching s;
     pendingNotify := pendingNotify s; sessionStorage := sessionStorage s;
     trace := trace s |}.
Definition withState (st : FilterState) (s : Store) : Store :=
  {| heap := heap s; state := st; initialized := initialized s;
     listeners := listeners s; isBatching := isBatching s;
     pendingNotify := pendingNotify s; sessionStorage := sessionStorage s;
     trace := trace s |}.
Definition withInitialized (b : bool) (s : Store) : Store :=
  {| heap := heap s; state := state s; initialized := b;
     listeners := listeners s; isBatching := isBatching s;
     pendingNotify := pendingNotify s; sessionStorage := sessionStorage s;
     trace := trace s |}.
Definition withListeners (ls : list listener) (s : Store) : Store :=
  {| heap := heap s; state := state s; initialized := initialized s;
     listeners := ls; isBatching := isBatching s;
     pendingNotify := pendingNotify s; sessionStorage := sessionStorage s;
     trace := trace s |}.
Definition withIsBatching (b : bool) (s : Store) : Store :=
  {| heap := heap s; state := state s; initialized := initialized s;
     listeners := listeners s; isBatching := b;
     pendingNotify := pendingNotify s; sessionStorage := sessionStorage s;
     trace := trace s |}.
Definition withPendingNotify (b : bool) (s : Store) : Store :=
  {| heap := heap s; state := state s; initialized := initialized s;
     listeners := listeners s; isBatching := isBatching s;
     pendingNotify := b; sessionStorage := sessionStorage s;
     trace := trace s |}.
Definition withSession (m : gmap string string) (s : Store) : Store :=
  {| heap := heap s; state := state s; initialized := initialized s;
     listeners := listeners s; isBatching := isBatching s;
     pendingNotify := pendingNotify s; sessionStorage := m;
     trace := trace s |}.
Definition emit (e : event) (s : Store) : Store :=
  {| heap := heap s; state := state s; initialized := initialized s;
     listeners := listeners s; isBatching := isBatching s;
     pendingNotify := pendingNotify s; sessionStorage := sessionStorage s;
     trace := trace s ++ [e] |}.

(** A fresh object: its address is the next free one. *)
Definition alloc (o : obj) (s : Store) : loc * Store :=
  (length (heap s), withHeap (heap s ++ [o]) s).

(** In-place mutation of the object at [l]. *)
Definition mutate (l : loc) (o : obj) (s : Store) : Store :=
  withHeap (<[l := o]> (heap s)) s.

Definition setActiveFilters (l : loc) (st : FilterState) : FilterState :=
  {| activeFilters := l; searchQuery := searchQuery st; sortConfig := sortConfig st;
     items := items st; filteredItems := filteredItems st; pagination := pagination st |}.
Definition setSearchQuery (q : string) (st : FilterState) : FilterState :=
  {| activeFilters := activeFilters st; searchQuery := q; sortConfig := sortConfig st;
     items := items st; filteredItems := filteredItems st; pagination := pagination st |}.
Definition setSortConfig (l : loc) (st : FilterState) : FilterState :=
  {| activeFilters := activeFilters st; searchQuery := searchQuery st; sortConfig := l;
     items := items st; filteredItems := filteredItems st; pagination := pagination st |}.
Definition setItemsRef (l : loc) (st : FilterState) : FilterState :=
  {| activeFilters := activeFilters st; searchQuery := searchQuery st;
     sortConfig := sortConfig st;
     items := l; filteredItems := filteredItems st; pagination := pagination st |}.
Definition setFilteredItems (l : loc) (st : FilterState) : FilterState :=
  {| activeFilters := activeFilters st; searchQuery := searchQuery st;
     sortConfig := sortConfig st;
     items := items st; filteredItems := l; pagination := pagination st |}.
Definition setPaginationRef (l : loc) (st : FilterState) : FilterState :=
  {| activeFilters := activeFilters st; searchQuery := searchQuery st;
     sortConfig := sortConfig st;
     items := items st; filteredItems := filteredItems st; pagination := l |}.

Definition setCurrentPage (n : Z) (p : Pagination) : Pagination :=
  {| currentPage := n; itemsPerPage := itemsPerPage p; totalItems := totalItems p;
     isEnabled := isEnabled p; mode := mode p; persistPage := persistPage p |}.
Definition setTotalItems (n : Z) (p : Pagination) : Pagination :=
  {| currentPage := currentPage p; itemsPerPage := itemsPerPage p; totalItems := n;
     isEnabled := isEnabled p; mode := mode p; persistPage := persistPage p |}.

(** [Partial<Pagination>] *)
Record PaginationPatch := {
  pCurrentPage : option Z;
  pItemsPerPage : option Z;
  pTotalItems : option Z;
  pIsEnabled : option bool;
  pMode : option Mode;
  pPersistPage : option bool
}.

(** [{ ...pagination, ...config }] *)
Definition applyPatch (c : PaginationPatch) (p : Pagination) : Pagination :=
  {| currentPage := default (currentPage p) (pCurrentPage c);
     itemsPerPage := default (itemsPerPage p) (pItemsPerPage c);
     totalItems := default (totalItems p) (pTotalItems c);
     isEnabled := default (isEnabled p) (pIsEnabled c);
     mode := default (mode p) (pMode c);
     persistPage := default (persistPage p) (pPersistPage c) |}.

(** The store as the class initialisers leave it: five objects, no listener. *)
Definition newStore : Store :=
  {| heap := [OMap []; OSort defaultSort; OArr []; OArr []; OPag defaultPagination];
     state := {| activeFilters := 0%nat; searchQuery := ""; sortConfig := 1%nat;
                 items := 2%nat; filteredItems := 3%nat; pagination := 4%nat |};
     initialized := false;
     listeners := [];
     isBatching := false;
     pendingNotify := false;
     sessionStorage := ∅;
     trace := [] |}.

Definition KEY_PAGE : string := "broadcast_current_page".
Definition KEY_FILTERS : string := "broadcast_active_filters".
Definition KEY_SEARCH : string := "broadcast_search_query".
Definition KEY_SORT : string := "broadcast_sort_config".

(** ** Operations of [FilterStore] *)

Inductive Outcome := Returned | Thrown.

Section Operations.
Context `{RT : JSRuntime}.

(** A [try { setItem; setItem; ... } catch {}] block: the writes happen in
    order until one throws; the rest is skipped. *)
Fixpoint tryWrites (ws : list (string * string)) (m : gmap string string)
  : gmap string string :=
  match ws with
  | [] => m
  | (k, v) :: r => if setItemThrows k v then m else tryWrites r (<[k := v]> m)
  end.

Definition updateStoragePage (page : Z) (s : Store) : Store :=
  withSession (tryWrites [(KEY_PAGE, numberToString (inject_Z page))] (sessionStorage s)) s.

(** *** lazyInit *)

Definition restorePage (s : Store) : Store :=
  match sessionStorage s !! KEY_PAGE with
  | Some savedPage =>
      if nonEmpty savedPage then
        match parseInt savedPage with
        | Some page =>
            if 0 <? page then
              mutate (pagination (state s))
                     (OPag (setCurrentPage page (getPag (heap s) (pagination (state s))))) s
            else s
        | None => s
        end
      else s
  | None => s
  end.

(** [None]: [JSON.parse] / [Object.entries] threw. *)
Definition restoreFilters (s : Store) : option Store :=
  match sessionStorage s !! KEY_FILTERS with
  | Some savedFilters =>
      if nonEmpty savedFilters then
        match parseFilters savedFilters with
        | Some entries =>
            let '(l, s1) := alloc (OMap entries) s in
            Some (withState (setActiveFilters l (state s1)) s1)
        | None => None
        end
      else Some s
  | None => Some s
  end.

Definition restoreSearch (s : Store) : Store :=
  match sessionStorage s !! KEY_SEARCH with
  | Some savedSearch =>
      if nonEmpty savedSearch then withState (setSearchQuery savedSearch (state s)) s
      else s
  | None => s
  end.

(** [this.state.sortConfig = JSON.parse(savedSort)]: the parsed value is
    assigned as it is, sort configuration or not. *)
Definition restoreSort (s : Store) : option Store :=
  match sessionStorage s !! KEY_SORT with
  | Some savedSort =>
      if nonEmpty savedSort then
        match parseJSON savedSort with
        | Some v =>
            let '(l, s1) := alloc (sortObject v) s in
            Some (withState (setSortConfig l (state s1)) s1)
        | None => None
        end
      else Some s
  | None => Some s
  end.

(** The registration of the global reset event is not part of the model. *)
Definition lazyInit (s : Store) : Store :=
  if initialized s then s
  else
    let s0 := withInitialized true s in
    let s1 := restorePage s0 in
    match restoreFilters s1 with
    | None => s1
    | Some s2 =>
        let s3 := restoreSearch s2 in
        match restoreSort s3 with
        | None => s3
        | Some s4 => s4
        end
    end.

(** *** Subscription *)

(** [Set.prototype.add] *)
Definition setAdd (l : listener) (ls : list listener) : list listener :=
  if bool_decide (l ∈ ls) then ls else ls ++ [l].

(** [listener({ ...this.state })]: the spread copies the six fields, that
    is, the references. *)
Definition subscribe (l : listener) (s : Store) : Store :=
  let s1 := lazyInit s in
  let s2 := withListeners (setAdd l (listeners s1)) s1 in
  let snapshot := state s2 in
  emit (EvInitial l snapshot (viewOf (heap s2) snapshot)) s2.

(** the disposer returned by [subscribe] *)
Definition unsubscribe (l : listener) (s : Store) : Store :=
  withListeners (filter (fun x => x ≠ l) (listeners s)) s.

(** *** notify *)

Definition persist (s : Store) : Store :=
  let st := state s in
  let p := getPag (heap s) (pagination st) in
  withSession
    (tryWrites
       ([(KEY_FILTERS, jsonOfFilters (getMap (heap s) (activeFilters st)));
         (KEY_SEARCH, searchQuery st);
         (KEY_SORT, jsonOfSort (getSort (heap s) (sortConfig st)))]
        ++ (if persistPage p
            then [(KEY_PAGE, numberToString (inject_Z (currentPage p)))]
            else []))
       (sessionStorage s)) s.

(** The snapshot literal: four fresh containers, [items] shared. *)
Definition makeSnapshot (s : Store) : FilterState * Store :=
  let st := state s in
  let '(lf, s1) := alloc (OMap (getMap (heap s) (activeFilters st))) s in
  let '(lp, s2) := alloc (OPag (getPag (heap s) (pagination st))) s1 in
  let '(lc, s3) := alloc (OSort (getSort (heap s) (sortConfig st))) s2 in
  let '(lr, s4) := alloc (OArr (getArr (heap s) (filteredItems st))) s3 in
  ({| activeFilters := lf; searchQuery := searchQuery st; sortConfig := lc;
      items := items st; filteredItems := lr; pagination := lp |}, s4).

Definition notify (s : Store) : Store :=
  if isBatching s then emit EvDeferred (withPendingNotify true s)
  else
    let '(snapshot, s1) := makeSnapshot s in
    let s2 := persist s1 in
    emit (EvNotify snapshot (viewOf (heap s2) snapshot) (listeners s2)) s2.

(** *** batch *)

Definition batch (fn : Store -> Store * Outcome) (s : Store) : Store * Outcome :=
  let '(s1, r) := fn (withIsBatching true s) in
  (* finally *)
  let s2 := withIsBatching false s1 in
  let s3 := if pendingNotify s2 then notify (withPendingNotify false s2) else s2 in
  (s3, r).
End Operations.

(** ** Recomputation and mutators *)

(** [Array.prototype.sort] is stable; for a comparator that is a consistent
    order its result is the stable insertion into the sorted tail. *)
Definition insertBy {A : Type} (cmp : A -> A -> Q) (x : A) : list A -> list A :=
  fix ins (l : list A) : list A :=
    match l with
    | [] => [x]
    | y :: r => if Qle_bool (cmp x y) 0 then x :: l else y :: ins r
    end.

Definition sortBy {A : Type} (cmp : A -> A -> Q) (l : list A) : list A :=
  foldr (insertBy cmp) [] l.

(** One precomputed entry of [filters] in [applyFilters]. *)
Record ActiveFilter := {
  fKey : string;
  fValue : value;
  isMulti : bool;
  isSlider : bool;
  layerName : string
}.

(** [key.replace(/^filter_(multi|slider)_/, "")] *)
Definition stripKind (key : string) : string :=
  if startsWith "filter_multi_" key then dropChars 13 key
  else if startsWith "filter_slider_" key then dropChars 14 key
  else key.

Definition mkFilter (e : string * value) : ActiveFilter :=
  {| fKey := fst e; fValue := snd e;
     isMulti := startsWith "filter_multi_" (fst e);
     isSlider := startsWith "filter_slider_" (fst e);
     layerName := stripKind (fst e) |}.

(** [item._multiIndex]; every normalised item has one. *)
Definition multiIndexOf (item : list (string * value)) : list (string * value) :=
  match getProp "_multiIndex" item with VObj f => f | _ => [] end.

(** [item._searchIndex || ""] *)
Definition searchIndexOf (item : list (string * value)) : string :=
  match getProp "_searchIndex" item with VStr s => s | _ => "" end.

(** [a._index || 0] *)
Definition indexOf (item : list (string * value)) : Q :=
  match getProp "_index" item with VNum q => q | _ => 0%Q end.

Inductive Call :=
| CSetItems (rawItems : list loc)
| CSetFilter (key : string) (v : value) (preventPageReset : bool)
| CRemoveFilter (key : string) (preventPageReset : bool)
| CSetSearch (query : string) (preventPageReset : bool)
| CSetSort (f : option string) (d : Direction) (t : SortType)
| CResetFilters
| CSetPagination (config : PaginationPatch)
| CSetPage (page : Z).

(** The body of a function handed to [batch], as the store sees it: store
    calls in sequence, nested [batch] calls, and possibly an exception. *)
Inductive Prog :=
| PDone
| PThrow
| PCall (c : Call) (k : Prog)
| PBatch (body : Prog) (k : Prog).

Section Mutators.
Context `{RT : JSRuntime}.

(** The callback of [items.filter] in [applyFilters]. *)
Definition itemPasses (filters : list ActiveFilter) (hasSearch : bool)
           (searchTerms : list string) (item : list (string * value)) : bool :=
  forallb (fun f =>
             let itemValue := getProp (layerName f) item in
             if isMulti f then
               checkMultiMatch (fValue f) (getProp (layerName f) (multiIndexOf item))
             else if isSlider f then
               match asRange (fValue f) with
               | Some r => checkSliderMatch r itemValue
               | None => false
               end
             else true) filters
  && (if hasSearch
      then forallb (fun term => includes term (searchIndexOf item)) searchTerms
      else true).

(** The comparator handed to [result.sort]. *)
Definition itemCompare (cfg : SortConfig) (a b : list (string * value)) : Q :=
  match field cfg with
  | Some f =>
      if nonEmpty f
      then compareValues (getProp f a) (getProp f b) (type cfg) (direction cfg)
      else (indexOf a - indexOf b)%Q
  | None => (indexOf a - indexOf b)%Q
  end.

Definition computeResult (h : list obj) (st : FilterState) : list loc :=
  let filters := map mkFilter (getMap h (activeFilters st)) in
  let hasSearch := nonEmpty (searchQuery st) in
  let normalizedQuery := if hasSearch then normalizeText (searchQuery st) else "" in
  let searchTerms :=
    if hasSearch then List.filter nonEmpty (splitOn " "%char normalizedQuery) else [] in
  let result :=
    List.filter (fun r => itemPasses filters hasSearch searchTerms (getItem h r))
                (getArr h (items st)) in
  sortBy (fun a b => itemCompare (getSort h (sortConfig st)) (getItem h a) (getItem h b))
         result.

Definition applyFilters (s : Store) : Store :=
  let result := computeResult (heap s) (state s) in
  let '(lr, s1) := alloc (OArr result) s in
  let s2 := withState (setFilteredItems lr (state s1)) s1 in
  let lp := pagination (state s2) in
  let s3 := mutate lp (OPag (setTotalItems (Z.of_nat (length result))
                                           (getPag (heap s2) lp))) s2 in
  notify s3.

(** *** setItems *)

Definition isPlainString (e : string * value) : bool :=
  negb (startsWith "_" (fst e)) && match snd e with VStr _ => true | _ => false end.

Definition searchableText (item : list (string * value)) : string :=
  joinWith " " (map (fun e => normalizeText (toStr (snd e)))
                    (List.filter isPlainString item)).

Definition multiIndex (item : list (string * value)) : list (string * value) :=
  fold_left
    (fun acc e =>
       match snd e with
       | VStr v =>
           if negb (startsWith "_" (fst e))
           then assocSet (fst e)
                  (VArr (map VStr (List.filter nonEmpty
                                     (map trim (splitOn ","%char (toLowerCase v))))))
                  acc
           else acc
       | _ => acc
       end) item [].

(** [{ ...item, _processed: true, _searchIndex, _multiIndex }] *)
Definition normalizeItem (item : list (string * value)) : list (string * value) :=
  assocSet "_multiIndex" (VObj (multiIndex item))
    (assocSet "_searchIndex" (VStr (searchableText item))
       (assocSet "_processed" (VBool true) item)).

(** [items.map(...)]: a marked item is passed through, any other item
    yields a new record. *)
Fixpoint processItems (rawItems : list loc) (s : Store) : list loc * Store :=
  match rawItems with
  | [] => ([], s)
  | r :: rest =>
      let item := getItem (heap s) r in
      if truthy (getProp "_processed" item) then
        let '(ps, s1) := processItems rest s in (r :: ps, s1)
      else
        let '(l, s1) := alloc (OItem (normalizeItem item)) s in
        let '(ps, s2) := processItems rest s1 in (l :: ps, s2)
  end.

(** [processedItems.length === items.length &&
     processedItems.every((val, index) => val === items[index])] *)
Definition sameItems (processedItems current : list loc) : bool :=
  (length processedItems =? length current)%nat
  && forallb (fun '(val, cur) => (val =? cur)%nat) (zip processedItems current).

Definition setItems (rawItems : list loc) (s : Store) : Store :=
  let '(processedItems, s1) := processItems rawItems s in
  if sameItems processedItems (getArr (heap s1) (items (state s1)))
  then s1
  else
    let '(l, s2) := alloc (OArr processedItems) s1 in
    applyFilters (withState (setItemsRef l (state s2)) s2).

(** *** Criteria mutators *)

Definition resetPage (preventPageReset : bool) (s : Store) : Store :=
  if preventPageReset then s
  else
    let lp := pagination (state s) in
    updateStoragePage 1 (mutate lp (OPag (setCurrentPage 1 (getPag (heap s) lp))) s).

Definition setFilter (key : string) (v : value) (preventPageReset : bool) (s : Store)
  : Store :=
  let lf := activeFilters (state s) in
  let m := getMap (heap s) lf in
  let s1 :=
    if isNullish v || isEmptyArray v
    then mutate lf (OMap (assocDelete key m)) s
    else mutate lf (OMap (assocSet key v m)) s in
  applyFilters (resetPage preventPageReset s1).

Definition removeFilter (key : string) (preventPageReset : bool) (s : Store) : Store :=
  let lf := activeFilters (state s) in
  let s1 := mutate lf (OMap (assocDelete key (getMap (heap s) lf))) s in
  applyFilters (resetPage preventPageReset s1).

Definition setSearch (query : string) (preventPageReset : bool) (s : Store) : Store :=
  let s1 := withState (setSearchQuery query (state s)) s in
  applyFilters (resetPage preventPageReset s1).

Definition setSort (f : option string) (d : Direction) (t : SortType) (s : Store)
  : Store :=
  let '(l, s1) := alloc (OSort {| field := f; direction := d; type := t |}) s in
  let s2 := withState (setSortConfig l (state s1)) s1 in
  applyFilters (resetPage false s2).

Definition resetFilters (s : Store) : Store :=
  let lf := activeFilters (state s) in
  let s1 := mutate lf (OMap []) s in
  let s2 := withState (setSearchQuery "" (state s1)) s1 in
  let '(l, s3) := alloc (OSort defaultSort) s2 in
  let s4 := withState (setSortConfig l (state s3)) s3 in
  let s5 := applyFilters (resetPage false s4) in
  withSession
    (delete KEY_PAGE (delete KEY_SORT (delete KEY_SEARCH
       (delete KEY_FILTERS (sessionStorage s5))))) s5.

Definition setPagination (config : PaginationPatch) (s : Store) : Store :=
  let '(l, s1) :=
    alloc (OPag (applyPatch config (getPag (heap s) (pagination (state s))))) s in
  let s2 := withState (setPaginationRef l (state s1)) s1 in
  let s3 :=
    match pCurrentPage config with
    | Some page =>
        if negb (page =? 0) && persistPage (getPag (heap s2) l)
        then updateStoragePage page s2 else s2
    | None => s2
    end in
  notify s3.

Definition setPage (page : Z) (s : Store) : Store :=
  let lp := pagination (state s) in
  let s1 := mutate lp (OPag (setCurrentPage page (getPag (heap s) lp))) s in
  let s2 := if persistPage (getPag (heap s1) lp) then updateStoragePage page s1 else s1 in
  notify s2.

Definition call (c : Call) (s : Store) : Store :=
  match c with
  | CSetItems rawItems => setItems rawItems s
  | CSetFilter key v flag => setFilter key v flag s
  | CRemoveFilter key flag => removeFilter key flag s
  | CSetSearch query flag => setSearch query flag s
  | CSetSort f d t => setSort f d t s
  | CResetFilters => resetFilters s
  | CSetPagination config => setPagination config s
  | CSetPage page => setPage page s
  end.

Fixpoint run (p : Prog) (s : Store) : Store * Outcome :=
  match p with
  | PDone => (s, Returned)
  | PThrow => (s, Thrown)
  | PCall c k => run k (call c s)
  | PBatch body k =>
      match batch (run body) s with
      | (s1, Returned) => run k s1
      | (s1, Thrown) => (s1, Thrown)
      end
  end.

(** Whether a call reaches [notify]: every mutator does, except [setItems]
    on its early return. *)
Definition callNotifies (c : Call) (s : Store) : bool :=
  match c with
  | CSetItems rawItems =>
      let '(processedItems, s1) := processItems rawItems s in
      negb (sameItems processedItems (getArr (heap s1) (items (state s1))))
  | _ => true
  end.

(** The number of calls of [p] that reach [notify]. *)
Fixpoint requests (p : Prog) (s : Store) : nat :=
  match p with
  | PCall c k => ((if callNotifies c s then 1 else 0) + requests k (call c s))%nat
  | _ => O
  end.

(** *** The range slider's [handleApply] (RangeSliderFilterStore_1.tsx) *)

(** The store side of the handler; the widget's own React state is not
    part of the model.  The handler's [sessionStorage.setItem] is not
    guarded, so it can throw. *)
Definition handleApply (filterKey : string) (minVal maxVal dataMin dataMax : Q)
           (persistState : bool) (s : Store) : Store * Outcome :=
  if Qeq_bool minVal dataMin && Qeq_bool maxVal dataMax then
    let s1 := removeFilter filterKey false s in
    if persistState
    then (withSession (delete filterKey (sessionStorage s1)) s1, Returned)
    else (s1, Returned)
  else
    let range := VArr [VNum minVal; VNum maxVal] in
    let s1 := setFilter filterKey range false s in
    if persistState then
      if setItemThrows filterKey (jsonOfValue range) then (s1, Thrown)
      else (withSession (<[filterKey := jsonOfValue range]> (sessionStorage s1)) s1,
            Returned)
    else (s1, Returned).
End Mutators.

(** ** A small runtime for evaluating the model on concrete inputs

    ASCII case folding, no combining marks, bytewise string comparison,
    finite decimals printed exactly, JSON printed without escapes, a date that
    is the number itself, a storage that never throws.  Its JSON reader
    covers the texts without escapes in strings and without exponents in
    numbers, and treats any other text as malformed. *)
Module Ascii_runtime.

Definition lowerChar (c : ascii) : ascii :=
  let n := nat_of_ascii c in
  if (65 <=? n)%nat && (n <=? 90)%nat then ascii_of_nat (n + 32) else c.

Fixpoint lower (s : string) : string :=
  match s with
  | EmptyString => EmptyString
  | String c r => String (lowerChar c) (lower r)
  end.

Definition digitChar (d : Z) : ascii := ascii_of_nat (48 + Z.to_nat d).

Fixpoint natDigits (fuel : nat) (n : Z) (acc : string) : string :=
  match fuel with
  | O => acc
  | S f =>
      let acc' := String (digitChar (n mod 10)) acc in
      if n / 10 =? 0 then acc' else natDigits f (n / 10) acc'
  end.

Definition showNat (n : Z) : string := natDigits (S (Z.to_nat (Z.log2 n))) n "".

Definition showZ (z : Z) : string :=
  if z <? 0 then "-" ++ showNat (- z) else showNat z.

Fixpoint fracDigits (fuel : nat) (r d : Z) : string :=
  match fuel with
  | O => ""
  | S f => if r =? 0 then ""
           else String (digitChar (10 * r / d)) (fracDigits f (10 * r mod d) d)
  end.

Definition showQ (q : Q) : string :=
  let n := Qnum q in
  let d := Z.pos (Qden q) in
  let a := Z.abs n in
  let fr := fracDigits 17 (a mod d) d in
  (if n <? 0 then "-" else "") ++ showNat (a / d)
    ++ (if nonEmpty fr then "." ++ fr else "").

Definition compareStrings (a b : string) : Z :=
  match String.compare a b with Lt => -1 | Eq => 0 | Gt => 1 end.

Definition readInt (s : string) : option Z :=
  match parseFloat s with
  | Some q => Some (Z.quot (Qnum q) (Z.pos (Qden q)))
  | None => None
  end.

Definition dq : string := String (ascii_of_nat 34) EmptyString.

Definition quoted (s : string) : string := dq ++ s ++ dq.

Fixpoint showValue (v : value) : string :=
  match v with
  | VUndef | VNull => "null"
  | VBool true => "true"
  | VBool false => "false"
  | VNum q => showQ q
  | VStr s => quoted s
  | VArr l => "[" ++ joinWith "," (map showValue l) ++ "]"
  | VObj f => "{" ++ joinWith "," (map (fun e => quoted (fst e) ++ ":" ++ showValue (snd e)) f)
                  ++ "}"
  end.

Definition showSort (c : SortConfig) : string :=
  "{" ++ quoted "field" ++ ":"
    ++ match field c with Some f => quoted f | None => "null" end
    ++ "," ++ quoted "direction" ++ ":"
    ++ quoted (match direction c with Asc => "asc" | Desc => "desc" end)
    ++ "," ++ quoted "type" ++ ":"
    ++ quoted (match type c with
               | TString => "string"
               | TNumber => "number"
               | TDate => "date"
               end) ++ "}".

Fixpoint skipSpaces (s : string) : string :=
  match s with
  | String c r =>
      let n := nat_of_ascii c in
      if (n =? 32)%nat || (n =? 9)%nat || (n =? 10)%nat || (n =? 13)%nat
      then skipSpaces r else s
  | EmptyString => s
  end.

(** The characters up to the closing quote, and what follows it. *)
Fixpoint readString (s : string) : option (string * string) :=
  match s with
  | EmptyString => None
  | String c r =>
      if ascii_eqb c (ascii_of_nat 34) then Some (EmptyString, r)
      else if ascii_eqb c (ascii_of_nat 92) || (nat_of_ascii c <? 32)%nat then None
      else match readString r with
           | Some (w, rest) => Some (String c w, rest)
           | None => None
           end
  end.

Definition readNumber (s : string) : option (Q * string) :=
  let '(neg, s1) :=
    match s with
    | String c r => if ascii_eqb c "-"%char then (true, r) else (false, s)
    | EmptyString => (false, s)
    end in
  let '(ip, s2) := takeDigits s1 in
  let '(fp, s3) :=
    match s2 with
    | String c r => if ascii_eqb c "."%char then takeDigits r else ([], s2)
    | EmptyString => ([], s2)
    end in
  match ip with
  | [] => None
  | d :: ds =>
      if (d =? 0) && negb (length ds =? 0)%nat then None
      else if startsWith "." s2 && (length fp =? 0)%nat then None
      else
        let m := (inject_Z (digitsToZ ip)
                  + inject_Z (digitsToZ fp) / inject_Z (10 ^ Z.of_nat (length fp)))%Q in
        Some (if neg then (- m)%Q else m, s3)
  end.

(** The number a property key stands for when it is an array index
    (canonical decimal digits, below 2^32 - 1). *)
Definition indexKey (k : string) : option Z :=
  match takeDigits k with
  | (d :: ds, EmptyString) =>
      if (d =? 0) && negb (length ds =? 0)%nat then None
      else if digitsToZ (d :: ds) <? 4294967295 then Some (digitsToZ (d :: ds))
      else None
  | _ => None
  end.

Fixpoint insertIndex (n : Z) (e : string * value)
         (l : list (Z * (string * value))) : list (Z * (string * value)) :=
  match l with
  | [] => [(n, e)]
  | (m, e') :: r => if n <? m then (n, e) :: l else (m, e') :: insertIndex n e r
  end.

(** The properties of a parsed object, in the order of enumeration: a key
    read twice is one property, with the last value; the keys that are
    array indices come first, in ascending order, the others follow in the
    order in which they were read. *)
Definition objectOf (members : list (string * value)) : value :=
  let props := fold_left (fun acc e => assocSet (fst e) (snd e) acc) members [] in
  let indexed :=
    fold_right (fun e acc => match indexKey (fst e) with
                             | Some n => insertIndex n e acc
                             | None => acc
                             end) [] props in
  VObj (map snd indexed
        ++ List.filter (fun e => match indexKey (fst e) with
                                 | Some _ => false
                                 | None => true
                                 end) props).

Fixpoint readValue (fuel : nat) (s : string) : option (value * string) :=
  match fuel with
  | O => None
  | S f =>
      let s := skipSpaces s in
      if startsWith "null" s then Some (VNull, dropChars 4 s)
      else if startsWith "true" s then Some (VBool true, dropChars 4 s)
      else if startsWith "false" s then Some (VBool false, dropChars 5 s)
      else
        match s with
        | String c r =>
            if ascii_eqb c (ascii_of_nat 34) then
              match readString r with
              | Some (w, rest) => Some (VStr w, rest)
              | None => None
              end
            else if ascii_eqb c "["%char then
              if startsWith "]" (skipSpaces r)
              then Some (VArr [], dropChars 1 (skipSpaces r))
              else match readElements f r with
                   | Some (l, rest) => Some (VArr l, rest)
                   | None => None
                   end
            else if ascii_eqb c "{"%char then
              if startsWith "}" (skipSpaces r)
              then Some (VObj [], dropChars 1 (skipSpaces r))
              else match readMembers f r with
                   | Some (l, rest) => Some (objectOf l, rest)
                   | None => None
                   end
            else
              match readNumber s with
              | Some (q, rest) => Some (VNum q, rest)
              | None => None
              end
        | EmptyString => None
        end
  end
with readElements (fuel : nat) (s : string) : option (list value * string) :=
  match fuel with
  | O => None
  | S f =>
      match readValue f s with
      | Some (v, rest) =>
          match skipSpaces rest with
          | String c r =>
              if ascii_eqb c ","%char then
                match readElements f r with
                | Some (l, rest') => Some (v :: l, rest')
                | None => None
                end
              else if ascii_eqb c "]"%char then Some ([v], r)
              else None
          | EmptyString => None
          end
      | None => None
      end
  end
with readMembers (fuel : nat) (s : string)
  : option (list (string * value) * string) :=
  match fuel with
  | O => None
  | S f =>
      match skipSpaces s with
      | String q r =>
          if ascii_eqb q (ascii_of_nat 34) then
            match readString r with
            | Some (k, rest) =>
                match skipSpaces rest with
                | String c r1 =>
                    if ascii_eqb c ":"%char then
                      match readValue f r1 with
                      | Some (v, rest1) =>
                          match skipSpaces rest1 with
                          | String c2 r2 =>
                              if ascii_eqb c2 ","%char then
                                match readMembers f r2 with
                                | Some (l, rest2) => Some ((k, v) :: l, rest2)
                                | None => None
                                end
                              else if ascii_eqb c2 "}"%char then Some ([(k, v)], r2)
                              else None
                          | EmptyString => None
                          end
                      | None => None
                      end
                    else None
                | EmptyString => None
                end
            | None => None
            end
          else None
      | EmptyString => None
      end
  end.

Definition readJSON (s : string) : option value :=
  match readValue (2 * String.length s + 2) s with
  | Some (v, rest) =>
      match skipSpaces rest with
      | EmptyString => Some v
      | String _ _ => None
      end
  | None => None
  end.

(** [Object.entries(v)] for a parsed value; it throws on [null]. *)
Definition entriesOf (v : value) : option (list (string * value)) :=
  match v with
  | VObj f => Some f
  | VArr l => Some (imap (fun i e => (showNat (Z.of_nat i), e)) l)
  | VStr w =>
      Some (imap (fun i c => (showNat (Z.of_nat i), VStr (String c EmptyString)))
                 (list_ascii_of_string w))
  | VBool _ | VNum _ => Some []
  | VNull | VUndef => None
  end.

Definition readEntries (s : string) : option (list (string * value)) :=
  match readJSON s with
  | Some v => entriesOf v
  | None => None
  end.

#[export] Instance runtime : JSRuntime := {|
  toLowerCase := lower;
  stripMarks := fun s => s;
  numberToString := showQ;
  localeCompare := compareStrings;
  dateGetTime := fun v => match v with VNum q => Some q | _ => None end;
  parseInt := readInt;
  jsonOfFilters := fun m => showValue (VObj m);
  jsonOfSort := showSort;
  jsonOfValue := showValue;
  parseFilters := readEntries;
  parseJSON := readJSON;
  setItemThrows := fun _ _ => false
|}.
End Ascii_runtime.

(** ** Observations and well-formed stores *)

Definition filtersOf (s : Store) : list (string * value) :=
  getMap (heap s) (activeFilters (state s)).
Definition sortOf (s : Store) : SortConfig := getSort (heap s) (sortConfig (state s)).
Definition pageOf (s : Store) : Pagination := getPag (heap s) (pagination (state s)).

Inductive kind := KMap | KArr | KPag | KSort | KItem | KOther.

Definition kindOf (o : obj) : kind :=
  match o with
  | OMap _ => KMap
  | OArr _ => KArr
  | OPag _ => KPag
  | OSort _ => KSort
  | OItem _ => KItem
  | OOther _ => KOther
  end.

Definition kind_eqb (a b : kind) : bool :=
  match a, b with
  | KMap, KMap | KArr, KArr | KPag, KPag | KSort, KSort | KItem, KItem
  | KOther, KOther => true
  | _, _ => false
  end.

(** The object at [l] is live and of kind [k]. *)
Definition hasKind (h : list obj) (l : loc) (k : kind) : bool :=
  match h !! l with Some o => kind_eqb (kindOf o) k | None => false end.

Definition validRefs (h : list obj) (a : list loc) : bool :=
  forallb (fun r => (r <? length h)%nat) a.

(** Every container field of the state refers to a live object of its kind,
    and the two item arrays refer to live objects.  The mutators, [notify]
    and the views are modelled on such stores: the class initialisers build
    one, and every operation keeps it so, except a restoration that reads a
    saved sort configuration that is not one. *)
Definition wf (s : Store) : bool :=
  let h := heap s in
  let st := state s in
  hasKind h (activeFilters st) KMap && hasKind h (sortConfig st) KSort
  && hasKind h (items st) KArr && hasKind h (filteredItems st) KArr
  && hasKind h (pagination st) KPag
  && validRefs h (getArr h (items st))
  && validRefs h (getArr h (filteredItems st)).

(** The sort configuration saved in the session, if [lazyInit] would read
    it and [JSON.parse] accepts it, is a sort configuration. *)
Definition savedSortIsConfig `{RT : JSRuntime} (s : Store) : bool :=
  match sessionStorage s !! KEY_SORT with
  | Some savedSort =>
      if nonEmpty savedSort then
        match parseJSON savedSort with
        | Some v => match asSortConfig v with Some _ => true | None => false end
        | None => true
        end
      else true
  | None => true
  end.

(** The four containers [notify] creates for a snapshot, and the snapshot
    that refers to them. *)
Definition snapshotObjects (s : Store) : list obj :=
  [OMap (filtersOf s); OPag (pageOf s); OSort (sortOf s);
   OArr (getArr (heap s) (filteredItems (state s)))].

Definition snapshotRefs (s : Store) : FilterState :=
  let n := length (heap s) in
  {| activeFilters := n; searchQuery := searchQuery (state s);
     sortConfig := (n + 2)%nat; items := items (state s);
     filteredItems := (n + 3)%nat; pagination := (n + 1)%nat |}.

(** The store after the recomputation of [applyFilters], before it notifies. *)
Definition recomputed `{RT : JSRuntime} (s : Store) : Store :=
  let result := computeResult (heap s) (state s) in
  let lp := pagination (state s) in
  mutate lp (OPag (setTotalItems (Z.of_nat (length result))
                                 (getPag (heap s ++ [OArr result]) lp)))
         (withState (setFilteredItems (length (heap s)) (state s))
                    (withHeap (heap s ++ [OArr result]) s)).

(** Programs without a nested [batch]. *)
Fixpoint flat (p : Prog) : bool :=
  match p with
  | PDone | PThrow => true
  | PCall _ k => flat k
  | PBatch _ _ => false
  end.

Definition isNotify (e : event) : bool :=
  match e with EvNotify _ _ _ => true | _ => false end.

(** The notifications among the calls made to observers. *)
Definition notifications (tr : list event) : list event := List.filter isNotify tr.

(** No entry of the map is an empty selection. *)
Definition noEmptyEntry (m : list (string * value)) : bool :=
  forallb (fun e => negb (isEmptyArray (snd e))) m.

Definition demoPagination (m : Mode) (page : Z) : Pagination :=
  {| currentPage := page; itemsPerPage := 12; totalItems := 30;
     isEnabled := true; mode := m; persistPage := false |}.

(** ** Example stores

    Two raw items as a page builder hands them over, and the store after it
    has ingested them and received a range filter and a search. *)
Definition demoItem (title price : string) : obj :=
  OItem [("title", VStr title); ("price", VStr price)].

Definition storeWithRawItems : Store :=
  withHeap (heap newStore ++ [demoItem "Lamp" "1,5"; demoItem "Desk" "12"]) newStore.

Definition demoStore : Store :=
  setSearch (RT := Ascii_runtime.runtime) "la" false
    (setFilter (RT := Ascii_runtime.runtime) "filter_slider_price"
       (VArr [VNum 1; VNum 20]) false
       (setItems (RT := Ascii_runtime.runtime) [5%nat; 6%nat] storeWithRawItems)).

(** ** What an observer reads from the store *)

Definition itemsOf (s : Store) : list (list (string * value)) :=
  map (getItem (heap s)) (getArr (heap s) (items (state s))).

Definition filteredOf (s : Store) : list (list (string * value)) :=
  map (getItem (heap s)) (getArr (heap s) (filteredItems (state s))).

(** The filter, search and sort pass of [applyFilters] (steps 1 to 3), on
    the item records themselves. *)
Definition selectItems `{RT : JSRuntime} (activeFilters : list (string * value))
           (searchQuery : string) (sortConfig : SortConfig)
           (items : list (list (string * value))) : list (list (string * value)) :=
  let filters := map mkFilter activeFilters in
  let hasSearch := nonEmpty searchQuery in
  let normalizedQuery := if hasSearch then normalizeText searchQuery else "" in
  let searchTerms :=
    if hasSearch then List.filter nonEmpty (splitOn " "%char normalizedQuery) else [] in
  let result := List.filter (itemPasses filters hasSearch searchTerms) items in
  sortBy (itemCompare sortConfig) result.

(** The callback of [items.map] in [setItems], on the record. *)
Definition processItem `{RT : JSRuntime} (item : list (string * value))
  : list (string * value) :=
  if truthy (getProp "_processed" item) then item else normalizeItem item.

(** ** Example functions handed to [batch] *)

(** Three mutators in sequence. *)
Definition threeCalls : Prog :=
  PCall (CSetSearch "la" false)
    (PCall (CSetFilter "filter_multi_title" (VArr [VStr "Lamp"]) false)
       (PCall (CSetPage 2) PDone)).

(** A mutator, a nested [batch] around a second one, then a third one. *)
Definition nestedCalls : Prog :=
  PCall (CSetSearch "a" false)
    (PBatch (PCall (CSetSearch "b" false) PDone)
       (PCall (CSetSearch "c" false) PDone)).

(** A mutator, then an exception. *)
Definition throwingCalls : Prog := PCall (CSetSearch "la" false) PThrow.

(** The parts of the store that are not its state: [s'] has the listeners,
    the batching flags, the session storage and the calls to observers of
    [s]. *)
Definition sameControl (s s' : Store) : Prop :=
  listeners s' = listeners s /\ isBatching s' = isBatching s
  /\ pendingNotify s' = pendingNotify s /\ sessionStorage s' = sessionStorage s
  /\ trace s' = trace s.

(** A store whose session holds a saved page, a saved search and a saved
    filter entry that is not JSON. *)
Definition storeWithSession : Store :=
  withSession (<[KEY_PAGE := "3"]> (<[KEY_FILTERS := "{"]> (<[KEY_SEARCH := "lamp"]> ∅)))
              newStore.

(** The example runtime with a session storage that is full: every
    [setItem] throws. *)
Module Full_storage.
#[export] Instance runtime : JSRuntime := {|
  toLowerCase := Ascii_runtime.lower;
  stripMarks := fun s => s;
  numberToString := Ascii_runtime.showQ;
  localeCompare := Ascii_runtime.compareStrings;
  dateGetTime := fun v => match v with VNum q => Some q | _ => None end;
  parseInt := Ascii_runtime.readInt;
  jsonOfFilters := fun m => Ascii_runtime.showValue (VObj m);
  jsonOfSort := Ascii_runtime.showSort;
  jsonOfValue := Ascii_runtime.showValue;
  parseFilters := Ascii_runtime.readEntries;
  parseJSON := Ascii_runtime.readJSON;
  setItemThrows := fun _ _ => true
|}.
End Full_storage.

(** A new store whose session holds [savedSort] as the saved sort
    configuration. *)
Definition storeWithSavedSort (savedSort : string) : Store :=
  withSession (<[KEY_SORT := savedSort]> ∅) newStore.

(** An enabled pagination in mode [m] on page [page], [perPage] items per
    page. *)
Definition pageState (m : Mode) (page perPage : Z) : Pagination :=
  {| currentPage := page; itemsPerPage := perPage; totalItems := 0;
     isEnabled := true; mode := m; persistPage := false |}.

(** ** Widgets at the boundary of the store *)


Section Widgets.
Context `{RT : JSRuntime}.


(** The range slider's effect that syncs the applied range to the store
    (RangeSliderFilterStore_1.tsx, "Sync applied filter to store"), once
    the widget is initialised. *)
Definition syncApplied (filterKey : string) (appliedMin appliedMax dataMin dataMax : Q)
           (isFirstRun : bool) (s : Store) : Store :=
  if negb (Qeq_bool appliedMin dataMin) || negb (Qeq_bool appliedMax dataMax)
  then setFilter filterKey (VArr [VNum appliedMin; VNum appliedMax]) isFirstRun s
  else removeFilter filterKey isFirstRun s.

(** The range slider's scan of the items for the bounds of the data
    ([initialBounds]): the values of the layer that read as numbers, their
    minimum and maximum, 0 and 100 when there is none. *)
Definition sliderValues (layerKey : string) (items : list (list (string * value)))
  : list Q :=
  omap (fun item =>
          let rawVal := getProp layerKey item in
          if truthy rawVal then sliderItemValue rawVal else None) items.

Definition initialBounds (layerKey : string) (items : list (list (string * value)))
  : Q * Q :=
  match sliderValues layerKey items with
  | [] => (0%Q, 100%Q)
  | v :: vs =>
      (fold_left (fun a b => if Qle_bool b a then b else a) vs v,
       fold_left (fun a b => if Qle_bool a b then b else a) vs v)
  end.

(** The Broadcaster's [scanItems], from [store.setItems(itemsData)] on:
    the scan of the page itself is not part of the model. *)
Definition scanItems (itemsData : list loc) (s : Store) : Store :=
  let s1 := setItems itemsData s in
  if isEnabled (pageOf s1) && (totalItems (pageOf s1) =? 0)
  then setPagination {| pCurrentPage := None; pItemsPerPage := None;
                        pTotalItems := Some (Z.of_nat (length itemsData));
                        pIsEnabled := None; pMode := None; pPersistPage := None |} s1
  else s1.
End Widgets.

(** The store after it has ingested the two raw items, no criteria set. *)
Definition ingestedStore : Store :=
  setItems (RT := Ascii_runtime.runtime) [5%nat; 6%nat] storeWithRawItems.

(** The store with the two raw items and a search that no item matches. *)
Definition searchingStore : Store :=
  setSearch (RT := Ascii_runtime.runtime) "zzz" false storeWithRawItems.


(** The pagination widget (part_004).
    [Math.ceil(totalItems / itemsPerPage) || 1], for a divisor that is not 0
    (a division by 0 yields an infinity or NaN, which are not modelled). *)
Definition totalPages (totalItems itemsPerPage : Z) : Z :=
  let pages := - ((- totalItems) / itemsPerPage) in
  if pages =? 0 then 1 else pages.

(** [handlePageClick], with the page and the number of pages the widget
    holds from the last snapshot it received; the scrolling is not part of
    the model. *)
Definition handlePageClick `{RT : JSRuntime} (page widgetPage widgetPages : Z)
           (s : Store) : Store :=
  if negb (page =? widgetPage) && (1 <=? page) && (page <=? widgetPages)
  then setPage page s else s.

(** The example store after its two raw items have been ingested, one item
    per page. *)
Definition pagedStore : Store :=
  setPagination (RT := Ascii_runtime.runtime)
    {| pCurrentPage := None; pItemsPerPage := Some 1; pTotalItems := None;
       pIsEnabled := None; pMode := None; pPersistPage := None |}
    (setItems (RT := Ascii_runtime.runtime) [5%nat; 6%nat] storeWithRawItems).

(** * Properties *)

Local Open Scope list_scope.

(** ** Pagination slicer *)

Lemma window_lookup {A : Type} (l : list A) (a b i : nat) :
  window l a b !! i = if bool_decide (a + i < b)%nat then l !! (a + i)%nat else None.
Proof.
  unfold window. case_bool_decide.
  - rewrite lookup_take_lt by lia. by rewrite lookup_drop.
  - apply lookup_take_ge. lia.
Qed.

Lemma jsSlice_window {A : Type} (l : list A) (a b : Z) :
  0 <= a -> a <= b -> jsSlice l a b = window l (Z.to_nat a) (Z.to_nat b).
Proof.
  intros Ha Hab. unfold jsSlice, window. cbv zeta.
  destruct (Z.ltb_spec a 0) as [?|_]; [lia|].
  destruct (Z.ltb_spec b 0) as [?|_]; [lia|].
  destruct (Z.le_gt_cases (Z.of_nat (length l)) a) as [Hge|Hlt].
  - rewrite (drop_ge l (Z.to_nat a)) by lia. rewrite drop_ge by lia.
    by rewrite !take_nil.
  - rewrite (Z.min_l a) by lia.
    destruct (Z.le_gt_cases b (Z.of_nat (length l))) as [Hb|Hb].
    + rewrite Z.min_l by lia. f_equal. lia.
    + rewrite Z.min_r by lia.
      rewrite !take_ge; [done | rewrite length_drop; lia | rewrite length_drop; lia].
Qed.

(** C8. The slice each paginated consumer computes from a snapshot is a
    function of the filtered list and the pagination state alone: the page
    window in mode pagination, the loaded prefix in modes loadMore and
    autoScroll, the whole list when pagination is disabled; DisplayGrid and the
    Broadcaster compute the same slice.  With 12 items per page and 30 items,
    page 3 shows items 24 to 29 and two loaded pages show items 0 to 23. *)
Theorem pagination_slice {A : Type} (l : list A) (p : Pagination) :
  1 <= currentPage p -> 0 < itemsPerPage p ->
  handleStoreUpdate l p =
    (if isEnabled p then
       match mode p with
       | ModePagination =>
           window l (Z.to_nat ((currentPage p - 1) * itemsPerPage p))
                    (Z.to_nat (currentPage p * itemsPerPage p))
       | ModeLoadMore | ModeAutoScroll =>
           window l 0 (Z.to_nat (currentPage p * itemsPerPage p))
       end
     else l)
  /\ updateUI l p = handleStoreUpdate l p
  /\ handleStoreUpdate (seq 0 30) (demoPagination ModePagination 3) = seq 24 6
  /\ handleStoreUpdate (seq 0 30) (demoPagination ModeLoadMore 2) = seq 0 24.
Proof.
  intros Hp Hi. repeat split; try reflexivity.
  unfold handleStoreUpdate. destruct (isEnabled p); [|done].
  destruct (mode p).
  - rewrite jsSlice_window by nia. do 2 f_equal. lia.
  - rewrite jsSlice_window by nia. done.
  - rewrite jsSlice_window by nia. done.
Qed.

Lemma pagination_slice_witness :
  handleStoreUpdate (seq 0 30) (demoPagination ModeAutoScroll 1) = seq 0 12.
Proof.
  pose proof (pagination_slice (seq 0 30) (demoPagination ModeAutoScroll 1)) as H.
  destruct H as [H _]; [simpl; lia | simpl; lia |].
  rewrite H. reflexivity.
Defined.

(** ** Sort comparator *)

Section Comparator.
Context `{RT : JSRuntime}.

Lemma compareValues_null_left (a b : value) (ty : SortType) (dir : Direction) :
  isNullish a = true -> compareValues a b ty dir = 1%Q.
Proof. intros H. unfold compareValues. by rewrite H. Qed.

Lemma compareValues_null_right (a b : value) (ty : SortType) (dir : Direction) :
  isNullish a = false -> isNullish b = true -> compareValues a b ty dir = (-1)%Q.
Proof. intros Ha Hb. unfold compareValues. by rewrite Ha, Hb. Qed.

(** C6. In the comparator handed to [sort] when a sort field is set, an item
    whose field is null or undefined orders after an item whose field is
    defined, whatever the direction and the value type; for two defined
    values the descending result is the opposite of the ascending one. *)
Theorem nulls_sort_last (f : string) (ty : SortType)
        (missing present other : list (string * value)) :
  nonEmpty f = true ->
  isNullish (getProp f missing) = true ->
  isNullish (getProp f present) = false ->
  isNullish (getProp f other) = false ->
  (forall dir,
      let cfg := {| field := Some f; direction := dir; type := ty |} in
      itemCompare cfg missing present = 1%Q
      /\ itemCompare cfg present missing = (-1)%Q)
  /\ itemCompare {| field := Some f; direction := Desc; type := ty |} present other
     = (- itemCompare {| field := Some f; direction := Asc; type := ty |} present other)%Q.
Proof.
  intros Hf Hm Hp Ho. unfold itemCompare. simpl. rewrite Hf. split.
  - intros dir. split.
    + by apply compareValues_null_left.
    + by apply compareValues_null_right.
  - unfold compareValues. by rewrite Hp, Ho.
Qed.
End Comparator.

Lemma nulls_sort_last_witness :
  itemCompare (RT := Ascii_runtime.runtime)
              {| field := Some "price"; direction := Desc; type := TNumber |}
              [("title", VStr "a"); ("price", VNull)]
              [("title", VStr "b"); ("price", VStr "12")] = 1%Q.
Proof.
  refine (proj1 (proj1 (nulls_sort_last (RT := Ascii_runtime.runtime) "price" TNumber
            [("title", VStr "a"); ("price", VNull)]
            [("title", VStr "b"); ("price", VStr "12")]
            [("title", VStr "c"); ("price", VNum 3)] _ _ _ _) Desc));
    reflexivity.
Defined.

(** ** Range predicate *)

Section Range.
Context `{RT : JSRuntime}.

(** What [checkSliderMatch] decides: the cleaned value parses and lies in
    the closed interval; a value that does not parse never matches. *)
Lemma checkSliderMatch_inclusive (lo hi : Q) (itemValue : value) :
  checkSliderMatch (lo, hi) itemValue = true <->
  exists val, parseFloat (cleanNumeric (toStr itemValue)) = Some val
              /\ (lo <= val)%Q /\ (val <= hi)%Q.
Proof.
  unfold checkSliderMatch. simpl.
  destruct (parseFloat (cleanNumeric (toStr itemValue))) as [val|].
  - rewrite andb_true_iff, !Qle_bool_iff. split.
    + intros [? ?]. eauto.
    + intros (v & [= <-] & ? & ?). done.
  - split; [done | intros (v & ? & _); done].
Qed.

(** C5. The store's range predicate removes the comma of an item value
    instead of reading it as the decimal separator: the value "1,5" is read
    as 15 and falls outside the range 1 to 2, while the range slider's own
    scan of the same value, and the predicate as specified, read 1.5. *)
Theorem range_comma_is_dropped :
  checkSliderMatch (1, 2)%Q (VStr "1,5") = false
  /\ parseFloat (cleanNumeric (toStr (VStr "1,5"))) = Some 15%Q
  /\ sliderItemValue (VStr "1,5") = Some 1.5%Q
  /\ specRangeMatch 1 2 (VStr "1,5") = true.
Proof. repeat split. Qed.
End Range.

(** ** The heap *)

Lemma kind_eqb_eq (a b : kind) : kind_eqb a b = true <-> a = b.
Proof. destruct a, b; simpl; split; congruence. Qed.

Lemma hasKind_valid (h : list obj) (l : loc) (k : kind) :
  hasKind h l k = true -> (l < length h)%nat.
Proof.
  unfold hasKind. destruct (h !! l) eqn:E; [|done]. intros _. by eapply lookup_lt_Some.
Qed.

(** Allocation leaves every live object where it is. *)
Lemma lookup_alloc (h e : list obj) (l : loc) :
  (l < length h)%nat -> (h ++ e) !! l = h !! l.
Proof. intros. by apply lookup_app_l. Qed.

Lemma lookup_new (h e : list obj) (o : obj) :
  (h ++ o :: e) !! length h = Some o.
Proof. by rewrite list_lookup_middle. Qed.

Lemma lookup_mutate (h : list obj) (l l' : loc) (o : obj) :
  (l < length h)%nat ->
  <[l := o]> h !! l' = if decide (l = l') then Some o else h !! l'.
Proof.
  intros Hl. destruct (decide (l = l')) as [<-|Hne].
  - by apply list_lookup_insert_eq.
  - by apply list_lookup_insert_ne.
Qed.

Section Alloc.
Variables (h e : list obj) (l : loc).
Hypothesis Hl : (l < length h)%nat.

Lemma getMap_alloc : getMap (h ++ e) l = getMap h l.
Proof. unfold getMap. by rewrite lookup_alloc. Qed.
Lemma getArr_alloc : getArr (h ++ e) l = getArr h l.
Proof. unfold getArr. by rewrite lookup_alloc. Qed.
Lemma getPag_alloc : getPag (h ++ e) l = getPag h l.
Proof. unfold getPag. by rewrite lookup_alloc. Qed.
Lemma getSort_alloc : getSort (h ++ e) l = getSort h l.
Proof. unfold getSort. by rewrite lookup_alloc. Qed.
Lemma getItem_alloc : getItem (h ++ e) l = getItem h l.
Proof. unfold getItem. by rewrite lookup_alloc. Qed.
Lemma hasKind_alloc (k : kind) : hasKind (h ++ e) l k = hasKind h l k.
Proof. unfold hasKind. by rewrite lookup_alloc. Qed.
End Alloc.

(** In-place mutation that keeps the kind of the object. *)
Section Mutate.
Variables (h : list obj) (l : loc) (o : obj).
Hypothesis Hk : hasKind h l (kindOf o) = true.

Lemma hasKind_mutate (l' : loc) (k : kind) :
  hasKind (<[l := o]> h) l' k = hasKind h l' k.
Proof.
  pose proof (hasKind_valid _ _ _ Hk) as Hl.
  unfold hasKind in *. rewrite lookup_mutate by done.
  destruct (decide (l = l')) as [<-|]; [|done].
  destruct (h !! l) as [o'|]; [|done].
  apply kind_eqb_eq in Hk. by rewrite Hk.
Qed.

Lemma getMap_mutate (l' : loc) :
  kindOf o <> KMap -> getMap (<[l := o]> h) l' = getMap h l'.
Proof.
  intros Hne. pose proof (hasKind_valid _ _ _ Hk) as Hl.
  unfold getMap, hasKind in *. rewrite lookup_mutate by done.
  destruct (decide (l = l')) as [<-|]; [|done].
  destruct (h !! l) as [o'|]; [|done]. apply kind_eqb_eq in Hk.
  destruct o, o'; simpl in *; congruence.
Qed.

Lemma getArr_mutate (l' : loc) :
  kindOf o <> KArr -> getArr (<[l := o]> h) l' = getArr h l'.
Proof.
  intros Hne. pose proof (hasKind_valid _ _ _ Hk) as Hl.
  unfold getArr, hasKind in *. rewrite lookup_mutate by done.
  destruct (decide (l = l')) as [<-|]; [|done].
  destruct (h !! l) as [o'|]; [|done]. apply kind_eqb_eq in Hk.
  destruct o, o'; simpl in *; congruence.
Qed.

Lemma getPag_mutate (l' : loc) :
  kindOf o <> KPag -> getPag (<[l := o]> h) l' = getPag h l'.
Proof.
  intros Hne. pose proof (hasKind_valid _ _ _ Hk) as Hl.
  unfold getPag, hasKind in *. rewrite lookup_mutate by done.
  destruct (decide (l = l')) as [<-|]; [|done].
  destruct (h !! l) as [o'|]; [|done]. apply kind_eqb_eq in Hk.
  destruct o, o'; simpl in *; congruence.
Qed.

Lemma getSort_mutate (l' : loc) :
  kindOf o <> KSort -> getSort (<[l := o]> h) l' = getSort h l'.
Proof.
  intros Hne. pose proof (hasKind_valid _ _ _ Hk) as Hl.
  unfold getSort, hasKind in *. rewrite lookup_mutate by done.
  destruct (decide (l = l')) as [<-|]; [|done].
  destruct (h !! l) as [o'|]; [|done]. apply kind_eqb_eq in Hk.
  destruct o, o'; simpl in *; congruence.
Qed.

Lemma getItem_mutate (l' : loc) :
  kindOf o <> KItem -> getItem (<[l := o]> h) l' = getItem h l'.
Proof.
  intros Hne. pose proof (hasKind_valid _ _ _ Hk) as Hl.
  unfold getItem, hasKind in *. rewrite lookup_mutate by done.
  destruct (decide (l = l')) as [<-|]; [|done].
  destruct (h !! l) as [o'|]; [|done]. apply kind_eqb_eq in Hk.
  destruct o, o'; simpl in *; congruence.
Qed.
End Mutate.

Lemma getMap_mutate_eq (h : list obj) (l : loc) (m : list (string * value)) :
  (l < length h)%nat -> getMap (<[l := OMap m]> h) l = m.
Proof. intros. unfold getMap. by rewrite list_lookup_insert_eq. Qed.

Lemma getPag_mutate_eq (h : list obj) (l : loc) (p : Pagination) :
  (l < length h)%nat -> getPag (<[l := OPag p]> h) l = p.
Proof. intros. unfold getPag. by rewrite list_lookup_insert_eq. Qed.

Lemma validRefs_spec (h : list obj) (a : list loc) :
  validRefs h a = true <-> Forall (fun r => (r < length h)%nat) a.
Proof.
  unfold validRefs. rewrite forallb_forall, Forall_forall.
  split; intros H r Hr.
  - apply Nat.ltb_lt, H. by apply list_elem_of_In.
  - apply Nat.ltb_lt, H. by apply list_elem_of_In.
Qed.

Lemma validRefs_mono (h h' : list obj) (a : list loc) :
  (length h <= length h')%nat -> validRefs h a = true -> validRefs h' a = true.
Proof.
  intros Hle. rewrite !validRefs_spec. intros H. eapply Forall_impl; [exact H|].
  intros r Hr. simpl in Hr. lia.
Qed.

Lemma map_getItem_alloc (h e : list obj) (a : list loc) :
  validRefs h a = true -> map (getItem (h ++ e)) a = map (getItem h) a.
Proof.
  rewrite validRefs_spec. induction 1 as [|r a Hr _ IH]; [done|].
  simpl. by rewrite IH, getItem_alloc.
Qed.

Lemma lookup_ext (h e : list obj) (k : nat) : (h ++ e) !! (length h + k)%nat = e !! k.
Proof.
  rewrite lookup_app_r by lia. f_equal. lia.
Qed.

Lemma getMap_ext (h e : list obj) (k : nat) : getMap (h ++ e) (length h + k)%nat = getMap e k.
Proof. unfold getMap. by rewrite lookup_ext. Qed.
Lemma getArr_ext (h e : list obj) (k : nat) : getArr (h ++ e) (length h + k)%nat = getArr e k.
Proof. unfold getArr. by rewrite lookup_ext. Qed.
Lemma getPag_ext (h e : list obj) (k : nat) : getPag (h ++ e) (length h + k)%nat = getPag e k.
Proof. unfold getPag. by rewrite lookup_ext. Qed.
Lemma getSort_ext (h e : list obj) (k : nat) :
  getSort (h ++ e) (length h + k)%nat = getSort e k.
Proof. unfold getSort. by rewrite lookup_ext. Qed.
Lemma hasKind_ext (h e : list obj) (k : nat) (kd : kind) :
  hasKind (h ++ e) (length h + k)%nat kd = hasKind e k kd.
Proof. unfold hasKind. by rewrite lookup_ext. Qed.

(** ** Snapshots and notification *)

Lemma wf_spec (s : Store) :
  wf s = true <->
  hasKind (heap s) (activeFilters (state s)) KMap = true
  /\ hasKind (heap s) (sortConfig (state s)) KSort = true
  /\ hasKind (heap s) (items (state s)) KArr = true
  /\ hasKind (heap s) (filteredItems (state s)) KArr = true
  /\ hasKind (heap s) (pagination (state s)) KPag = true
  /\ validRefs (heap s) (getArr (heap s) (items (state s))) = true
  /\ validRefs (heap s) (getArr (heap s) (filteredItems (state s))) = true.
Proof. unfold wf. cbv zeta. rewrite !andb_true_iff. tauto. Qed.

Lemma wf_same (s s' : Store) :
  heap s' = heap s -> state s' = state s -> wf s' = wf s.
Proof. intros Hh Hs. unfold wf. by rewrite Hh, Hs. Qed.

(** Allocation keeps a store well formed. *)
Lemma wf_alloc (s : Store) (e : list obj) :
  wf s = true -> wf (withHeap (heap s ++ e) s) = true.
Proof.
  rewrite !wf_spec. simpl. intros (Hf & Hc & Hi & Hr & Hp & Hvi & Hvr).
  pose proof (hasKind_valid _ _ _ Hf). pose proof (hasKind_valid _ _ _ Hc).
  pose proof (hasKind_valid _ _ _ Hi). pose proof (hasKind_valid _ _ _ Hr).
  pose proof (hasKind_valid _ _ _ Hp).
  rewrite !hasKind_alloc, !getArr_alloc by done.
  repeat split; try done.
  - eapply validRefs_mono; [|exact Hvi]. rewrite length_app. lia.
  - eapply validRefs_mono; [|exact Hvr]. rewrite length_app. lia.
Qed.

Lemma view_alloc (h e : list obj) (st : FilterState) :
  hasKind h (activeFilters st) KMap = true ->
  hasKind h (sortConfig st) KSort = true ->
  hasKind h (items st) KArr = true ->
  hasKind h (filteredItems st) KArr = true ->
  hasKind h (pagination st) KPag = true ->
  validRefs h (getArr h (items st)) = true ->
  validRefs h (getArr h (filteredItems st)) = true ->
  viewOf (h ++ e) st = viewOf h st.
Proof.
  intros Hf Hc Hi Hr Hp Hvi Hvr.
  pose proof (hasKind_valid _ _ _ Hf). pose proof (hasKind_valid _ _ _ Hc).
  pose proof (hasKind_valid _ _ _ Hi). pose proof (hasKind_valid _ _ _ Hr).
  pose proof (hasKind_valid _ _ _ Hp).
  unfold viewOf.
  rewrite getMap_alloc, getSort_alloc, getPag_alloc, !getArr_alloc by done.
  by rewrite !map_getItem_alloc by done.
Qed.

Section Notification.
Context `{RT : JSRuntime}.

Lemma makeSnapshot_eq (s : Store) :
  makeSnapshot s = (snapshotRefs s, withHeap (heap s ++ snapshotObjects s) s).
Proof.
  unfold makeSnapshot, alloc, snapshotRefs, snapshotObjects, withHeap,
    filtersOf, pageOf, sortOf. simpl.
  rewrite !length_app. simpl. rewrite <- !app_assoc. simpl.
  f_equal. f_equal; lia.
Qed.

(** The snapshot built by [notify] shows the store's state. *)
Lemma snapshot_view (s : Store) :
  wf s = true ->
  viewOf (heap s ++ snapshotObjects s) (snapshotRefs s) = viewOf (heap s) (state s).
Proof.
  rewrite wf_spec. intros (Hf & Hc & Hi & Hr & Hp & Hvi & Hvr).
  pose proof (hasKind_valid _ _ _ Hi).
  unfold viewOf, snapshotRefs. simpl.
  rewrite <- (Nat.add_0_r (length (heap s))) at 1.
  rewrite getMap_ext, getSort_ext, getPag_ext, getArr_ext. simpl.
  rewrite getArr_alloc by done.
  by rewrite !map_getItem_alloc by done.
Qed.
End Notification.

Section NotifyFacts.
Context `{RT : JSRuntime}.

Lemma notify_batching (s : Store) :
  isBatching s = true -> notify s = emit EvDeferred (withPendingNotify true s).
Proof. intros H. unfold notify. by rewrite H. Qed.

Lemma notify_idle (s : Store) :
  isBatching s = false ->
  notify s =
    emit (EvNotify (snapshotRefs s)
                   (viewOf (heap s ++ snapshotObjects s) (snapshotRefs s))
                   (listeners s))
         (persist (withHeap (heap s ++ snapshotObjects s) s)).
Proof. intros H. unfold notify. rewrite H, makeSnapshot_eq. done. Qed.

Lemma notify_state (s : Store) : state (notify s) = state s.
Proof.
  destruct (isBatching s) eqn:E.
  - by rewrite notify_batching.
  - by rewrite notify_idle.
Qed.

Lemma notify_heap (s : Store) : exists e, heap (notify s) = heap s ++ e.
Proof.
  destruct (isBatching s) eqn:E.
  - rewrite notify_batching by done. exists []. simpl. by rewrite app_nil_r.
  - rewrite notify_idle by done. by eexists.
Qed.


Lemma notify_listeners (s : Store) : listeners (notify s) = listeners s.
Proof.
  destruct (isBatching s) eqn:E.
  - by rewrite notify_batching.
  - by rewrite notify_idle.
Qed.

Lemma applyFilters_eq (s : Store) : applyFilters s = notify (recomputed s).
Proof. reflexivity. Qed.
End NotifyFacts.

(** ** Well-formedness is an invariant *)

Lemma insertBy_Forall {A : Type} (P : A -> Prop) (cmp : A -> A -> Q) (x : A) (l : list A) :
  P x -> Forall P l -> Forall P (insertBy cmp x l).
Proof.
  intros Hx. induction 1 as [|y r Hy Hr IH]; simpl.
  - by constructor.
  - destruct (Qle_bool (cmp x y) 0); repeat constructor; done.
Qed.

Lemma sortBy_Forall {A : Type} (P : A -> Prop) (cmp : A -> A -> Q) (l : list A) :
  Forall P l -> Forall P (sortBy cmp l).
Proof.
  unfold sortBy. induction 1 as [|x r Hx Hr IH]; simpl; [constructor|].
  by apply insertBy_Forall.
Qed.

Lemma filter_Forall {A : Type} (P : A -> Prop) (f : A -> bool) (l : list A) :
  Forall P l -> Forall P (List.filter f l).
Proof.
  induction 1 as [|x r Hx Hr IH]; simpl; [constructor|].
  destruct (f x); [by constructor | done].
Qed.

Lemma hasKind_new (h : list obj) (o : obj) (e : list obj) :
  hasKind (h ++ o :: e) (length h) (kindOf o) = true.
Proof.
  unfold hasKind. rewrite lookup_new. by apply kind_eqb_eq.
Qed.

Lemma getArr_new (h : list obj) (a : list loc) (e : list obj) :
  getArr (h ++ OArr a :: e) (length h) = a.
Proof. unfold getArr. by rewrite lookup_new. Qed.

Lemma getMap_new (h : list obj) (m : list (string * value)) (e : list obj) :
  getMap (h ++ OMap m :: e) (length h) = m.
Proof. unfold getMap. by rewrite lookup_new. Qed.

Lemma getSort_new (h : list obj) (c : SortConfig) (e : list obj) :
  getSort (h ++ OSort c :: e) (length h) = c.
Proof. unfold getSort. by rewrite lookup_new. Qed.

Lemma getPag_new (h : list obj) (p : Pagination) (e : list obj) :
  getPag (h ++ OPag p :: e) (length h) = p.
Proof. unfold getPag. by rewrite lookup_new. Qed.

Section Invariant.
Context `{RT : JSRuntime}.

Lemma computeResult_valid (h : list obj) (st : FilterState) :
  validRefs h (getArr h (items st)) = true -> validRefs h (computeResult h st) = true.
Proof.
  rewrite !validRefs_spec. intros H. unfold computeResult.
  by apply sortBy_Forall, filter_Forall.
Qed.

(** Growth of the heap with an unchanged state. *)
Lemma wf_grow (s s' : Store) (e : list obj) :
  state s' = state s -> heap s' = heap s ++ e -> wf s = true -> wf s' = true.
Proof.
  intros Hs Hh Hwf. rewrite <- (wf_alloc s e Hwf). apply wf_same; simpl; done.
Qed.

Lemma wf_notify (s : Store) : wf s = true -> wf (notify s) = true.
Proof.
  destruct (notify_heap s) as [e He]. eapply wf_grow; [apply notify_state | exact He].
Qed.

(** An in-place update of a container that is not an array of items. *)
Lemma wf_mutate (s : Store) (l : loc) (o : obj) :
  hasKind (heap s) l (kindOf o) = true -> kindOf o <> KArr ->
  wf s = true -> wf (mutate l o s) = true.
Proof.
  intros Hk Hne. rewrite !wf_spec. simpl.
  rewrite !hasKind_mutate, !getArr_mutate by done.
  unfold validRefs. by rewrite length_insert.
Qed.

Lemma wf_recomputed (s : Store) : wf s = true -> wf (recomputed s) = true.
Proof.
  intros Hwf. pose proof Hwf as Hwf0.
  apply wf_spec in Hwf as (Hf & Hc & Hi & Hr & Hp & Hvi & Hvr).
  pose proof (hasKind_valid _ _ _ Hf). pose proof (hasKind_valid _ _ _ Hc).
  pose proof (hasKind_valid _ _ _ Hi). pose proof (hasKind_valid _ _ _ Hp).
  unfold recomputed. cbv zeta.
  apply wf_mutate; [simpl; by rewrite hasKind_alloc | done |].
  apply wf_spec. simpl.
  rewrite (hasKind_alloc _ _ (activeFilters (state s))),
    (hasKind_alloc _ _ (sortConfig (state s))),
    (hasKind_alloc _ _ (items (state s))),
    (hasKind_alloc _ _ (pagination (state s))),
    hasKind_new, getArr_new, getArr_alloc by done.
  repeat split; try done.
  - eapply validRefs_mono; [|exact Hvi]. rewrite length_app. lia.
  - eapply validRefs_mono; [|by apply computeResult_valid]. rewrite length_app. lia.
Qed.

Lemma wf_applyFilters (s : Store) : wf s = true -> wf (applyFilters s) = true.
Proof. intros. rewrite applyFilters_eq. by apply wf_notify, wf_recomputed. Qed.

Lemma wf_resetPage (flag : bool) (s : Store) :
  wf s = true -> wf (resetPage flag s) = true.
Proof.
  intros Hwf. unfold resetPage. destruct flag; [done|].
  cbv zeta. rewrite (wf_same (mutate _ _ s)) by done.
  apply wf_mutate; [|done|done]. simpl. by apply wf_spec in Hwf as (_ & _ & _ & _ & ? & _).
Qed.

Lemma wf_mutate_filters (s : Store) (m : list (string * value)) :
  wf s = true -> wf (mutate (activeFilters (state s)) (OMap m) s) = true.
Proof.
  intros Hwf. apply wf_mutate; [|done|done].
  simpl. by apply wf_spec in Hwf as (? & _).
Qed.
End Invariant.

Section Calls.
Context `{RT : JSRuntime}.

Lemma wf_rebind_sort (s : Store) (c : SortConfig) :
  wf s = true ->
  wf (withState (setSortConfig (length (heap s)) (state s))
                (withHeap (heap s ++ [OSort c]) s)) = true.
Proof.
  intros Hwf. apply wf_spec in Hwf as (Hf & Hc & Hi & Hr & Hp & Hvi & Hvr).
  pose proof (hasKind_valid _ _ _ Hf). pose proof (hasKind_valid _ _ _ Hr).
  pose proof (hasKind_valid _ _ _ Hi). pose proof (hasKind_valid _ _ _ Hp).
  apply wf_spec. simpl.
  rewrite (hasKind_alloc _ _ (activeFilters (state s))),
    (hasKind_alloc _ _ (filteredItems (state s))),
    (hasKind_alloc _ _ (items (state s))),
    (hasKind_alloc _ _ (pagination (state s))),
    (hasKind_new _ (OSort c)), !getArr_alloc by done.
  repeat split; try done.
  - eapply validRefs_mono; [|exact Hvi]. rewrite length_app. lia.
  - eapply validRefs_mono; [|exact Hvr]. rewrite length_app. lia.
Qed.

Lemma wf_rebind_pagination (s : Store) (p : Pagination) :
  wf s = true ->
  wf (withState (setPaginationRef (length (heap s)) (state s))
                (withHeap (heap s ++ [OPag p]) s)) = true.
Proof.
  intros Hwf. apply wf_spec in Hwf as (Hf & Hc & Hi & Hr & Hp & Hvi & Hvr).
  pose proof (hasKind_valid _ _ _ Hf). pose proof (hasKind_valid _ _ _ Hr).
  pose proof (hasKind_valid _ _ _ Hi). pose proof (hasKind_valid _ _ _ Hc).
  apply wf_spec. simpl.
  rewrite (hasKind_alloc _ _ (activeFilters (state s))),
    (hasKind_alloc _ _ (filteredItems (state s))),
    (hasKind_alloc _ _ (items (state s))),
    (hasKind_alloc _ _ (sortConfig (state s))),
    (hasKind_new _ (OPag p)), !getArr_alloc by done.
  repeat split; try done.
  - eapply validRefs_mono; [|exact Hvi]. rewrite length_app. lia.
  - eapply validRefs_mono; [|exact Hvr]. rewrite length_app. lia.
Qed.

Lemma wf_rebind_items (s : Store) (a : list loc) :
  validRefs (heap s) a = true -> wf s = true ->
  wf (withState (setItemsRef (length (heap s)) (state s))
                (withHeap (heap s ++ [OArr a]) s)) = true.
Proof.
  intros Ha Hwf. apply wf_spec in Hwf as (Hf & Hc & Hi & Hr & Hp & Hvi & Hvr).
  pose proof (hasKind_valid _ _ _ Hf). pose proof (hasKind_valid _ _ _ Hr).
  pose proof (hasKind_valid _ _ _ Hp). pose proof (hasKind_valid _ _ _ Hc).
  apply wf_spec. simpl.
  rewrite (hasKind_alloc _ _ (activeFilters (state s))),
    (hasKind_alloc _ _ (filteredItems (state s))),
    (hasKind_alloc _ _ (pagination (state s))),
    (hasKind_alloc _ _ (sortConfig (state s))),
    (hasKind_new _ (OArr a)), getArr_new, getArr_alloc by done.
  repeat split; try done.
  - eapply validRefs_mono; [|exact Ha]. rewrite length_app. lia.
  - eapply validRefs_mono; [|exact Hvr]. rewrite length_app. lia.
Qed.

Lemma processed_is_live (h : list obj) (r : loc) :
  truthy (getProp "_processed" (getItem h r)) = true -> (r < length h)%nat.
Proof.
  unfold getItem. destruct (h !! r) as [o|] eqn:E; [|done].
  intros _. by eapply lookup_lt_Some.
Qed.

(** [items.map] only allocates; its result refers to live objects. *)
Lemma processItems_grows (rawItems : list loc) (s : Store) :
  exists e,
    heap (processItems rawItems s).2 = heap s ++ e
    /\ state (processItems rawItems s).2 = state s
    /\ isBatching (processItems rawItems s).2 = isBatching s
    /\ pendingNotify (processItems rawItems s).2 = pendingNotify s
    /\ listeners (processItems rawItems s).2 = listeners s
    /\ trace (processItems rawItems s).2 = trace s
    /\ sessionStorage (processItems rawItems s).2 = sessionStorage s
    /\ initialized (processItems rawItems s).2 = initialized s
    /\ validRefs (heap s ++ e) (processItems rawItems s).1 = true.
Proof.
  revert s. induction rawItems as [|r rest IH]; intros s; simpl.
  - exists []. rewrite app_nil_r. done.
  - destruct (truthy (getProp "_processed" (getItem (heap s) r))) eqn:Ht.
    + destruct (IH s) as (e & Hh & Hs & Hb & Hp & Hl & Ht' & Hss & Hi & Hv).
      destruct (processItems rest s) as [ps s1]. simpl in *.
      exists e. repeat split; try done.
      rewrite Hv, andb_true_r. apply Nat.ltb_lt. rewrite length_app.
      apply processed_is_live in Ht. lia.
    + destruct (IH (withHeap (heap s ++ [OItem (normalizeItem (getItem (heap s) r))]) s))
        as (e & Hh & Hs & Hb & Hp & Hl & Ht' & Hss & Hi & Hv).
      unfold alloc.
      destruct (processItems rest _) as [ps s1]. simpl in *.
      exists (OItem (normalizeItem (getItem (heap s) r)) :: e).
      rewrite <- app_assoc in Hh, Hv. simpl in Hh, Hv.
      repeat split; try done.
      rewrite Hv, andb_true_r. apply Nat.ltb_lt. rewrite length_app. simpl. lia.
Qed.

Lemma wf_setItems (rawItems : list loc) (s : Store) :
  wf s = true -> wf (setItems rawItems s) = true.
Proof.
  intros Hwf. unfold setItems.
  destruct (processItems_grows rawItems s) as (e & Hh & Hs & _ & _ & _ & _ & _ & _ & Hv).
  destruct (processItems rawItems s) as [ps s1]. simpl in *.
  assert (wf s1 = true) as Hwf1 by (by eapply wf_grow).
  destruct (sameItems ps _); [done|].
  unfold alloc. apply wf_applyFilters.
  apply wf_rebind_items; [by rewrite Hh | done].
Qed.

Lemma wf_withSession (m : gmap string string) (s : Store) :
  wf (withSession m s) = wf s.
Proof. reflexivity. Qed.

Lemma wf_setSearchQuery (q : string) (s : Store) :
  wf (withState (setSearchQuery q (state s)) s) = wf s.
Proof. reflexivity. Qed.

Lemma wf_call (c : Call) (s : Store) : wf s = true -> wf (call c s) = true.
Proof.
  intros Hwf. destruct c; simpl.
  - by apply wf_setItems.
  - unfold setFilter. cbv zeta. apply wf_applyFilters, wf_resetPage.
    destruct (isNullish v || isEmptyArray v); by apply wf_mutate_filters.
  - unfold removeFilter. cbv zeta.
    by apply wf_applyFilters, wf_resetPage, wf_mutate_filters.
  - unfold setSearch. cbv zeta. apply wf_applyFilters, wf_resetPage.
    by rewrite wf_setSearchQuery.
  - unfold setSort, alloc. cbv beta iota zeta.
    apply wf_applyFilters, wf_resetPage.
    by apply (wf_rebind_sort s {| field := f; direction := d; type := t |}).
  - unfold resetFilters, alloc. cbv beta iota zeta.
    rewrite wf_withSession.
    apply wf_applyFilters, wf_resetPage.
    pose proof (wf_mutate_filters s [] Hwf) as H1.
    pose proof (wf_rebind_sort
                  (withState (setSearchQuery "" (state (mutate (activeFilters (state s))
                                                             (OMap []) s)))
                             (mutate (activeFilters (state s)) (OMap []) s))
                  defaultSort) as H2.
    apply H2. by rewrite wf_setSearchQuery.
  - unfold setPagination, alloc. cbv beta iota zeta. apply wf_notify.
    pose proof (wf_rebind_pagination s
                  (applyPatch config (getPag (heap s) (pagination (state s)))) Hwf) as H.
    destruct (pCurrentPage config) as [page|]; [|done].
    destruct (negb (page =? 0) && _); [|done].
    by rewrite (wf_same (withState (setPaginationRef (length (heap s)) (state s))
                                     (withHeap (heap s ++ [OPag (applyPatch config (getPag (heap s) (pagination (state s))))]) s))).
  - unfold setPage. cbv zeta. apply wf_notify.
    assert (wf (mutate (pagination (state s))
                       (OPag (setCurrentPage page (getPag (heap s) (pagination (state s))))) s)
            = true) as H.
    { apply wf_mutate; [|done|done]. simpl.
      by apply wf_spec in Hwf as (_ & _ & _ & _ & ? & _). }
    destruct (persistPage _); [|done].
    by rewrite (wf_same (mutate (pagination (state s))
                       (OPag (setCurrentPage page (getPag (heap s) (pagination (state s))))) s)).
Qed.
End Calls.

(** ** Batching *)

Section Batching.
Context `{RT : JSRuntime}.

Lemma applyFilters_batching (s : Store) :
  isBatching s = true ->
  applyFilters s = emit EvDeferred (withPendingNotify true (recomputed s)).
Proof. intros H. rewrite applyFilters_eq. by apply notify_batching. Qed.

(** A call made while the store is batching raises at most one notify
    request and delivers nothing. *)
Lemma call_batching (c : Call) (s : Store) :
  isBatching s = true ->
  isBatching (call c s) = true
  /\ listeners (call c s) = listeners s
  /\ trace (call c s) = trace s ++ (if callNotifies c s then [EvDeferred] else [])
  /\ pendingNotify (call c s) = pendingNotify s || callNotifies c s.
Proof.
  intros Hb. destruct c; cbn [call callNotifies].
  - unfold setItems.
    destruct (processItems_grows rawItems s)
      as (e & _ & _ & Hb1 & Hp1 & Hl1 & Ht1 & _ & _ & _).
    destruct (processItems rawItems s) as [ps s1]. simpl in *.
    destruct (sameItems ps _); simpl.
    + rewrite Hb1, Hl1, Ht1, Hp1, app_nil_r, orb_false_r. done.
    + rewrite applyFilters_batching by (simpl; congruence). simpl.
      rewrite Hb1, Hl1, Ht1, orb_true_r. done.
  - unfold setFilter. cbv zeta.
    rewrite applyFilters_batching
      by (destruct preventPageReset, (isNullish v || isEmptyArray v); done).
    destruct preventPageReset, (isNullish v || isEmptyArray v); simpl;
      rewrite orb_true_r; done.
  - unfold removeFilter. cbv zeta.
    rewrite applyFilters_batching by (destruct preventPageReset; done).
    destruct preventPageReset; simpl; rewrite orb_true_r; done.
  - unfold setSearch. cbv zeta.
    rewrite applyFilters_batching by (destruct preventPageReset; done).
    destruct preventPageReset; simpl; rewrite orb_true_r; done.
  - unfold setSort, alloc. cbv beta iota zeta.
    rewrite applyFilters_batching by done. simpl. rewrite orb_true_r; done.
  - unfold resetFilters, alloc. cbv beta iota zeta.
    match goal with
    | |- context [applyFilters ?x] => rewrite (applyFilters_batching x Hb)
    end.
    rewrite orb_true_r. repeat split; first [exact Hb | reflexivity].
  - unfold setPagination, alloc. cbv beta iota zeta.
    rewrite notify_batching
      by (destruct (pCurrentPage config) as [page|]; [|done];
          destruct (negb (page =? 0) && _); done).
    destruct (pCurrentPage config) as [page|];
      [destruct (negb (page =? 0) && _)|]; simpl; rewrite orb_true_r; done.
  - unfold setPage. cbv zeta.
    rewrite notify_batching by (destruct (persistPage _); done).
    destruct (persistPage _); simpl; rewrite orb_true_r; done.
Qed.

(** A sequence of calls run while batching: the requests are recorded,
    nothing is delivered. *)
Lemma run_flat_batching (p : Prog) (s : Store) :
  flat p = true -> isBatching s = true -> wf s = true ->
  isBatching (run p s).1 = true
  /\ listeners (run p s).1 = listeners s
  /\ trace (run p s).1 = trace s ++ replicate (requests p s) EvDeferred
  /\ pendingNotify (run p s).1 = pendingNotify s || (0 <? requests p s)%nat
  /\ wf (run p s).1 = true.
Proof.
  revert s. induction p as [| |c k IH|body _ k _]; intros s Hflat Hb Hwf; simpl in *.
  - by rewrite app_nil_r, orb_false_r.
  - by rewrite app_nil_r, orb_false_r.
  - destruct (call_batching c s Hb) as (Hb1 & Hl1 & Ht1 & Hp1).
    destruct (IH (call c s) Hflat Hb1 (wf_call c s Hwf)) as (Hb2 & Hl2 & Ht2 & Hp2 & Hwf2).
    rewrite Hb2, Hl2, Hl1, Ht2, Ht1, Hp2, Hp1, Hwf2.
    repeat split; try done.
    + rewrite <- app_assoc. f_equal. by destruct (callNotifies c s).
    + rewrite <- orb_assoc. f_equal. by destruct (callNotifies c s), (requests k (call c s)).
  - done.
Qed.

(** The [finally] block of [batch]. *)
Lemma batch_finally (fn : Store -> Store * Outcome) (s s1 : Store) (r : Outcome) :
  fn (withIsBatching true s) = (s1, r) ->
  batch fn s =
    (if pendingNotify s1
     then notify (withPendingNotify false (withIsBatching false s1))
     else withIsBatching false s1, r).
Proof. intros H. unfold batch. rewrite H. done. Qed.
End Batching.

Lemma notifications_app (a b : list event) :
  notifications (a ++ b) = notifications a ++ notifications b.
Proof. unfold notifications. apply List.filter_app. Qed.

Lemma notifications_deferred (n : nat) : notifications (replicate n EvDeferred) = [].
Proof. induction n; simpl; done. Qed.

Section Coalescing.
Context `{RT : JSRuntime}.

(** What a notification delivers from a well-formed store that is not
    batching: one event, whose content is the state of the store. *)
Lemma notify_delivers (s : Store) :
  wf s = true -> isBatching s = false ->
  trace (notify s)
  = trace s ++ [EvNotify (snapshotRefs s) (viewOf (heap s) (state s)) (listeners s)]
  /\ viewOf (heap (notify s)) (snapshotRefs s) = viewOf (heap s) (state s)
  /\ viewOf (heap (notify s)) (state (notify s)) = viewOf (heap s) (state s)
  /\ isBatching (notify s) = false
  /\ pendingNotify (notify s) = pendingNotify s.
Proof.
  intros Hwf Hb. rewrite notify_idle by done. simpl.
  rewrite snapshot_view by done. repeat split; try done.
  apply wf_spec in Hwf as (Hf & Hc & Hi & Hr & Hp & Hvi & Hvr).
  by apply view_alloc.
Qed.

(** C2. For a function that performs store calls in sequence, without a
    nested [batch], run by [batch] on a store that is not already batching:
    the notify requests raised while it runs deliver nothing; when it has
    finished, exactly one notification is delivered if at least one request
    was raised, and none otherwise; the content of that notification is the
    state of the store after all the calls. *)
Theorem batch_coalesces (p : Prog) (s : Store) :
  flat p = true -> wf s = true -> isBatching s = false -> pendingNotify s = false ->
  let s1 := (run p (withIsBatching true s)).1 in
  let s' := (batch (run p) s).1 in
  let n := requests p (withIsBatching true s) in
  isBatching s' = false /\ pendingNotify s' = false
  /\ length (notifications (trace s'))
     = (length (notifications (trace s)) + (if (0 <? n)%nat then 1 else 0))%nat
  /\ (n = 0%nat -> trace s' = trace s)
  /\ ((0 < n)%nat ->
      exists snap,
        trace s'
        = trace s ++ replicate n EvDeferred
            ++ [EvNotify snap (viewOf (heap s1) (state s1)) (listeners s)]
        /\ viewOf (heap s') snap = viewOf (heap s1) (state s1)
        /\ viewOf (heap s') (state s') = viewOf (heap s1) (state s1)).
Proof.
  intros Hflat Hwf Hb Hp. cbv zeta.
  destruct (run_flat_batching p (withIsBatching true s) Hflat eq_refl Hwf)
    as (Hb1 & Hl1 & Ht1 & Hp1 & Hwf1).
  cbn [listeners trace pendingNotify withIsBatching] in Hl1, Ht1, Hp1.
  rewrite Hp, orb_false_l in Hp1.
  destruct (run p (withIsBatching true s)) as [s1 r] eqn:Hrun.
  rewrite (batch_finally _ _ _ _ Hrun). cbn [fst snd] in *. rewrite Hp1.
  destruct (requests p (withIsBatching true s)) as [|n] eqn:Hn;
    cbn [Nat.ltb Nat.leb].
  - cbn [isBatching pendingNotify trace withIsBatching].
    rewrite Ht1. cbn [replicate]. rewrite app_nil_r, Nat.add_0_r.
    repeat split; try done. lia.
  - destruct (notify_delivers (withPendingNotify false (withIsBatching false s1)))
      as (Ht & Hv1 & Hv2 & Hb2 & Hp2); [exact Hwf1 | reflexivity |].
    cbn [heap state listeners trace isBatching pendingNotify
         withPendingNotify withIsBatching] in Ht, Hv1, Hv2, Hp2.
    rewrite Hb2, Hp2, Ht, Ht1, Hl1.
    repeat split; try done.
    + rewrite !notifications_app.
      rewrite (notifications_deferred (S n)), app_nil_r, length_app. reflexivity.
    + intros _. eexists. rewrite <- app_assoc. by split.
Qed.

(** C10. When the function handed to [batch] throws, [batch] throws too,
    after its [finally] block: the store is no longer batching, no request
    is left pending, and a request that was pending at the throw has been
    delivered as one notification.  Any call that reached [notify] before
    the throw leaves such a request pending. *)
Theorem batch_throw_flushes (fn : Store -> Store * Outcome) (s s1 : Store) :
  fn (withIsBatching true s) = (s1, Thrown) ->
  (batch fn s).2 = Thrown
  /\ isBatching (batch fn s).1 = false
  /\ pendingNotify (batch fn s).1 = false
  /\ (if pendingNotify s1
      then exists snap content,
          trace (batch fn s).1 = trace s1 ++ [EvNotify snap content (listeners s1)]
      else trace (batch fn s).1 = trace s1)
  /\ (forall (c : Call) (k : Prog) (s0 : Store),
         flat k = true -> wf s0 = true -> isBatching s0 = true ->
         callNotifies c s0 = true ->
         pendingNotify (run (PCall c k) s0).1 = true).
Proof.
  intros Hfn. rewrite (batch_finally _ _ _ _ Hfn). simpl.
  split; [done|].
  destruct (pendingNotify s1) eqn:Hp.
  - rewrite notify_idle by done. simpl. repeat split; try done.
    + by do 2 eexists.
    + intros c k s0 Hk Hwf Hb Hc.
      destruct (call_batching c s0 Hb) as (Hb1 & _ & _ & Hp1).
      destruct (run_flat_batching k (call c s0) Hk Hb1 (wf_call c s0 Hwf))
        as (_ & _ & _ & Hp2 & _).
      rewrite Hp2, Hp1, Hc, orb_true_r. done.
  - simpl. repeat split; try done.
    intros c k s0 Hk Hwf Hb Hc.
    destruct (call_batching c s0 Hb) as (Hb1 & _ & _ & Hp1).
    destruct (run_flat_batching k (call c s0) Hk Hb1 (wf_call c s0 Hwf))
      as (_ & _ & _ & Hp2 & _).
    rewrite Hp2, Hp1, Hc, orb_true_r. done.
Qed.
End Coalescing.

(** ** Property lists *)

Section AssocFacts.
Context {A : Type}.

Lemma assocGet_delete_eq (k : string) (o : list (string * A)) :
  assocGet k (assocDelete k o) = None.
Proof.
  induction o as [|[k' v] r IH]; simpl; [done|].
  destruct (String.eqb k k') eqn:E; [done|]. simpl. by rewrite E.
Qed.

Lemma assocGet_delete_ne (k k' : string) (o : list (string * A)) :
  k <> k' -> assocGet k (assocDelete k' o) = assocGet k o.
Proof.
  intros Hne. induction o as [|[k0 v] r IH]; simpl; [done|].
  destruct (String.eqb k' k0) eqn:E.
  - apply String.eqb_eq in E. subst k0.
    destruct (String.eqb k k') eqn:E'; [|done].
    apply String.eqb_eq in E'. done.
  - simpl. by rewrite IH.
Qed.

Lemma assocGet_set_eq (k : string) (v : A) (o : list (string * A)) :
  assocGet k (assocSet k v o) = Some v.
Proof.
  induction o as [|[k' v'] r IH]; simpl.
  - by rewrite String.eqb_refl.
  - destruct (String.eqb k k') eqn:E; simpl.
    + by rewrite String.eqb_refl.
    + by rewrite E.
Qed.

Lemma assocGet_set_ne (k k' : string) (v : A) (o : list (string * A)) :
  k <> k' -> assocGet k (assocSet k' v o) = assocGet k o.
Proof.
  intros Hne. induction o as [|[k0 v0] r IH]; simpl.
  - destruct (String.eqb k k') eqn:E; [|done]. apply String.eqb_eq in E. done.
  - destruct (String.eqb k' k0) eqn:E; simpl.
    + apply String.eqb_eq in E. subst k0.
      destruct (String.eqb k k') eqn:E'; [|done]. apply String.eqb_eq in E'. done.
    + by rewrite IH.
Qed.
End AssocFacts.

(** ** What the mutators leave in the state *)

Section Observations.
Context `{RT : JSRuntime}.

(** Growth of the heap with an unchanged state shows the same containers. *)
Lemma obs_grow (s s' : Store) (e : list obj) :
  state s' = state s -> heap s' = heap s ++ e -> wf s = true ->
  filtersOf s' = filtersOf s /\ sortOf s' = sortOf s /\ pageOf s' = pageOf s
  /\ getArr (heap s') (items (state s')) = getArr (heap s) (items (state s))
  /\ getArr (heap s') (filteredItems (state s'))
     = getArr (heap s) (filteredItems (state s)).
Proof.
  intros Hs Hh Hwf. apply wf_spec in Hwf as (Hf & Hc & Hi & Hr & Hp & Hvi & Hvr).
  pose proof (hasKind_valid _ _ _ Hf). pose proof (hasKind_valid _ _ _ Hc).
  pose proof (hasKind_valid _ _ _ Hi). pose proof (hasKind_valid _ _ _ Hr).
  pose proof (hasKind_valid _ _ _ Hp).
  unfold filtersOf, sortOf, pageOf. rewrite Hs, Hh.
  by rewrite getMap_alloc, getSort_alloc, getPag_alloc, !getArr_alloc.
Qed.

Lemma obs_notify (s : Store) :
  wf s = true ->
  filtersOf (notify s) = filtersOf s /\ sortOf (notify s) = sortOf s
  /\ pageOf (notify s) = pageOf s
  /\ getArr (heap (notify s)) (items (state (notify s)))
     = getArr (heap s) (items (state s))
  /\ getArr (heap (notify s)) (filteredItems (state (notify s)))
     = getArr (heap s) (filteredItems (state s)).
Proof.
  intros Hwf. destruct (notify_heap s) as [e He].
  by apply (obs_grow s (notify s) e (notify_state s) He).
Qed.

(** An in-place update of the pagination object. *)
Lemma obs_mutate_pagination (s : Store) (p : Pagination) :
  wf s = true ->
  let s' := mutate (pagination (state s)) (OPag p) s in
  filtersOf s' = filtersOf s /\ sortOf s' = sortOf s /\ pageOf s' = p
  /\ getArr (heap s') (items (state s')) = getArr (heap s) (items (state s))
  /\ getArr (heap s') (filteredItems (state s'))
     = getArr (heap s) (filteredItems (state s)).
Proof.
  intros Hwf. apply wf_spec in Hwf as (Hf & Hc & Hi & Hr & Hp & Hvi & Hvr).
  pose proof (hasKind_valid _ _ _ Hp).
  unfold filtersOf, sortOf, pageOf. simpl.
  rewrite getMap_mutate, getSort_mutate, !getArr_mutate, getPag_mutate_eq by done.
  done.
Qed.

(** An in-place update of the map of active filters. *)
Lemma obs_mutate_filters (s : Store) (m : list (string * value)) :
  wf s = true ->
  let s' := mutate (activeFilters (state s)) (OMap m) s in
  filtersOf s' = m /\ sortOf s' = sortOf s /\ pageOf s' = pageOf s
  /\ getArr (heap s') (items (state s')) = getArr (heap s) (items (state s))
  /\ getArr (heap s') (filteredItems (state s'))
     = getArr (heap s) (filteredItems (state s)).
Proof.
  intros Hwf. apply wf_spec in Hwf as (Hf & Hc & Hi & Hr & Hp & Hvi & Hvr).
  pose proof (hasKind_valid _ _ _ Hf).
  unfold filtersOf, sortOf, pageOf. simpl.
  rewrite getPag_mutate, getSort_mutate, !getArr_mutate, getMap_mutate_eq by done.
  done.
Qed.

Lemma obs_resetPage (flag : bool) (s : Store) :
  wf s = true ->
  filtersOf (resetPage flag s) = filtersOf s
  /\ sortOf (resetPage flag s) = sortOf s
  /\ pageOf (resetPage flag s)
     = (if flag then pageOf s else setCurrentPage 1 (pageOf s))
  /\ searchQuery (state (resetPage flag s)) = searchQuery (state s)
  /\ getArr (heap (resetPage flag s)) (items (state (resetPage flag s)))
     = getArr (heap s) (items (state s)).
Proof.
  intros Hwf. unfold resetPage. destruct flag; [done|]. cbv zeta.
  destruct (obs_mutate_pagination s
              (setCurrentPage 1 (getPag (heap s) (pagination (state s)))) Hwf)
    as (H1 & H2 & H3 & H4 & H5).
  unfold filtersOf, sortOf, pageOf in *. simpl in *. done.
Qed.

(** The recomputation: the criteria are read, the result and its length
    are written. *)
Lemma obs_applyFilters (s : Store) :
  wf s = true ->
  filtersOf (applyFilters s) = filtersOf s
  /\ sortOf (applyFilters s) = sortOf s
  /\ searchQuery (state (applyFilters s)) = searchQuery (state s)
  /\ pageOf (applyFilters s)
     = setTotalItems (Z.of_nat (length (computeResult (heap s) (state s)))) (pageOf s)
  /\ getArr (heap (applyFilters s)) (items (state (applyFilters s)))
     = getArr (heap s) (items (state s))
  /\ getArr (heap (applyFilters s)) (filteredItems (state (applyFilters s)))
     = computeResult (heap s) (state s).
Proof.
  intros Hwf. rewrite applyFilters_eq.
  pose proof (wf_recomputed s Hwf) as Hwr.
  destruct (obs_notify (recomputed s) Hwr) as (H1 & H2 & H3 & H4 & H5).
  rewrite H1, H2, H3, H4, H5, notify_state. clear H1 H2 H3 H4 H5.
  apply wf_spec in Hwf as (Hf & Hc & Hi & Hr & Hp & Hvi & Hvr).
  pose proof (hasKind_valid _ _ _ Hf). pose proof (hasKind_valid _ _ _ Hc).
  pose proof (hasKind_valid _ _ _ Hi). pose proof (hasKind_valid _ _ _ Hp).
  assert (hasKind (heap s ++ [OArr (computeResult (heap s) (state s))])
                  (pagination (state s))
                  (kindOf (OPag (setTotalItems
                     (Z.of_nat (length (computeResult (heap s) (state s))))
                     (getPag (heap s ++ [OArr (computeResult (heap s) (state s))])
                             (pagination (state s)))))) = true) as Hk.
  { simpl. by rewrite hasKind_alloc. }
  unfold recomputed, filtersOf, sortOf, pageOf. simpl.
  rewrite getMap_mutate, getSort_mutate by done.
  rewrite getPag_mutate_eq by (rewrite length_app; lia).
  rewrite !(getArr_mutate _ _ _ Hk) by done.
  rewrite getMap_alloc, getSort_alloc, getPag_alloc, getArr_alloc, getArr_new by done.
  done.
Qed.
End Observations.

Section Criteria.
Context `{RT : JSRuntime}.

Lemma filtersOf_withSession (m : gmap string string) (s : Store) :
  filtersOf (withSession m s) = filtersOf s.
Proof. reflexivity. Qed.

Lemma state_withSession (m : gmap string string) (s : Store) :
  state (withSession m s) = state s.
Proof. reflexivity. Qed.

Lemma sessionStorage_withSession (m : gmap string string) (s : Store) :
  sessionStorage (withSession m s) = m.
Proof. reflexivity. Qed.

Lemma sortOf_withSession (m : gmap string string) (s : Store) :
  sortOf (withSession m s) = sortOf s.
Proof. reflexivity. Qed.

Lemma pageOf_withSession (m : gmap string string) (s : Store) :
  pageOf (withSession m s) = pageOf s.
Proof. reflexivity. Qed.

(** Rebinding [sortConfig] to a fresh object. *)
Lemma obs_rebind_sort (s : Store) (c : SortConfig) :
  wf s = true ->
  let s' := withState (setSortConfig (length (heap s)) (state s))
                      (withHeap (heap s ++ [OSort c]) s) in
  filtersOf s' = filtersOf s /\ sortOf s' = c /\ pageOf s' = pageOf s
  /\ getArr (heap s') (items (state s')) = getArr (heap s) (items (state s)).
Proof.
  intros Hwf. apply wf_spec in Hwf as (Hf & Hc & Hi & Hr & Hp & Hvi & Hvr).
  pose proof (hasKind_valid _ _ _ Hf). pose proof (hasKind_valid _ _ _ Hi).
  pose proof (hasKind_valid _ _ _ Hp).
  unfold filtersOf, sortOf, pageOf. simpl.
  by rewrite getMap_alloc, getPag_alloc, getArr_alloc, getSort_new.
Qed.

Lemma filtersOf_setFilter (key : string) (v : value) (flag : bool) (s : Store) :
  wf s = true ->
  filtersOf (setFilter key v flag s)
  = if isNullish v || isEmptyArray v
    then assocDelete key (filtersOf s) else assocSet key v (filtersOf s).
Proof.
  intros Hwf. unfold setFilter. cbv zeta.
  set (m := if isNullish v || isEmptyArray v
            then assocDelete key (getMap (heap s) (activeFilters (state s)))
            else assocSet key v (getMap (heap s) (activeFilters (state s)))).
  assert ((if isNullish v || isEmptyArray v
           then mutate (activeFilters (state s))
                  (OMap (assocDelete key (getMap (heap s) (activeFilters (state s))))) s
           else mutate (activeFilters (state s))
                  (OMap (assocSet key v (getMap (heap s) (activeFilters (state s))))) s)
          = mutate (activeFilters (state s)) (OMap m) s) as ->.
  { unfold m. by destruct (isNullish v || isEmptyArray v). }
  pose proof (wf_mutate_filters s m Hwf) as Hwf1.
  pose proof (wf_resetPage flag _ Hwf1) as Hwf2.
  destruct (obs_applyFilters _ Hwf2) as (-> & _).
  destruct (obs_resetPage flag _ Hwf1) as (-> & _).
  destruct (obs_mutate_filters s m Hwf) as (-> & _).
  unfold m, filtersOf. by destruct (isNullish v || isEmptyArray v).
Qed.

Lemma filtersOf_removeFilter (key : string) (flag : bool) (s : Store) :
  wf s = true ->
  filtersOf (removeFilter key flag s) = assocDelete key (filtersOf s).
Proof.
  intros Hwf. unfold removeFilter. cbv zeta.
  pose proof (wf_mutate_filters s
    (assocDelete key (getMap (heap s) (activeFilters (state s)))) Hwf) as Hwf1.
  pose proof (wf_resetPage flag _ Hwf1) as Hwf2.
  destruct (obs_applyFilters _ Hwf2) as (-> & _).
  destruct (obs_resetPage flag _ Hwf1) as (-> & _).
  by destruct (obs_mutate_filters s
    (assocDelete key (getMap (heap s) (activeFilters (state s)))) Hwf) as (-> & _).
Qed.

End Criteria.

(** ** The recomputation on item records *)

Lemma map_insertBy {A B : Type} (f : A -> B) (cmp : B -> B -> Q) (x : A) (l : list A) :
  map f (insertBy (fun a b => cmp (f a) (f b)) x l) = insertBy cmp (f x) (map f l).
Proof.
  induction l as [|y r IH]; simpl; [done|].
  destruct (Qle_bool (cmp (f x) (f y)) 0); simpl; [done|]. by rewrite IH.
Qed.

Lemma map_sortBy {A B : Type} (f : A -> B) (cmp : B -> B -> Q) (l : list A) :
  map f (sortBy (fun a b => cmp (f a) (f b)) l) = sortBy cmp (map f l).
Proof.
  unfold sortBy. induction l as [|x r IH]; simpl; [done|].
  by rewrite map_insertBy, IH.
Qed.

Lemma map_filter_comp {A B : Type} (f : A -> B) (p : B -> bool) (l : list A) :
  map f (List.filter (fun a => p (f a)) l) = List.filter p (map f l).
Proof.
  induction l as [|x r IH]; simpl; [done|].
  destruct (p (f x)); simpl; by rewrite IH.
Qed.

Lemma viewOf_eq (s : Store) :
  viewOf (heap s) (state s)
  = {| vFilters := filtersOf s; vSearch := searchQuery (state s); vSort := sortOf s;
       vItems := itemsOf s; vFiltered := filteredOf s; vPagination := pageOf s |}.
Proof. reflexivity. Qed.

Section Recomputation.
Context `{RT : JSRuntime}.

Lemma computeResult_view (h : list obj) (st : FilterState) :
  map (getItem h) (computeResult h st)
  = selectItems (getMap h (activeFilters st)) (searchQuery st) (getSort h (sortConfig st))
                (map (getItem h) (getArr h (items st))).
Proof.
  unfold computeResult, selectItems. cbv zeta.
  by rewrite (map_sortBy (getItem h)), (map_filter_comp (getItem h)).
Qed.

Lemma itemsOf_withSession (m : gmap string string) (s : Store) :
  itemsOf (withSession m s) = itemsOf s.
Proof. reflexivity. Qed.

Lemma filteredOf_withSession (m : gmap string string) (s : Store) :
  filteredOf (withSession m s) = filteredOf s.
Proof. reflexivity. Qed.

(** Growth of the heap with an unchanged state shows the same records. *)
Lemma records_grow (s s' : Store) (e : list obj) :
  state s' = state s -> heap s' = heap s ++ e -> wf s = true ->
  itemsOf s' = itemsOf s /\ filteredOf s' = filteredOf s.
Proof.
  intros Hs Hh Hwf.
  destruct (obs_grow s s' e Hs Hh Hwf) as (_ & _ & _ & Hi & Hr).
  apply wf_spec in Hwf as (_ & _ & _ & _ & _ & Hvi & Hvr).
  unfold itemsOf, filteredOf. rewrite Hi, Hr, Hh.
  by rewrite !map_getItem_alloc.
Qed.

Lemma records_notify (s : Store) :
  wf s = true ->
  itemsOf (notify s) = itemsOf s /\ filteredOf (notify s) = filteredOf s.
Proof.
  intros Hwf. destruct (notify_heap s) as [e He].
  by apply (records_grow s (notify s) e (notify_state s) He).
Qed.

(** An in-place update of an object that is not an item record. *)
Lemma records_mutate (s : Store) (l : loc) (o : obj) :
  hasKind (heap s) l (kindOf o) = true -> kindOf o <> KArr -> kindOf o <> KItem ->
  itemsOf (mutate l o s) = itemsOf s /\ filteredOf (mutate l o s) = filteredOf s.
Proof.
  intros Hk Ha Hi. unfold itemsOf, filteredOf. simpl.
  rewrite !getArr_mutate by done.
  split; apply map_ext; intros r; by apply getItem_mutate.
Qed.

Lemma records_resetPage (flag : bool) (s : Store) :
  wf s = true ->
  itemsOf (resetPage flag s) = itemsOf s /\ filteredOf (resetPage flag s) = filteredOf s.
Proof.
  intros Hwf. unfold resetPage. destruct flag; [done|]. cbv zeta.
  apply wf_spec in Hwf as (_ & _ & _ & _ & Hp & _).
  by apply (records_mutate s (pagination (state s))
              (OPag (setCurrentPage 1 (getPag (heap s) (pagination (state s)))))).
Qed.

Lemma records_recomputed (s : Store) :
  wf s = true ->
  itemsOf (recomputed s) = itemsOf s
  /\ filteredOf (recomputed s)
     = selectItems (filtersOf s) (searchQuery (state s)) (sortOf s) (itemsOf s).
Proof.
  intros Hwf. pose proof Hwf as Hwf0.
  apply wf_spec in Hwf as (Hf & Hc & Hi & Hr & Hp & Hvi & Hvr).
  pose proof (hasKind_valid _ _ _ Hi). pose proof (hasKind_valid _ _ _ Hp).
  set (res := computeResult (heap s) (state s)).
  set (s1 := withState (setFilteredItems (length (heap s)) (state s))
                       (withHeap (heap s ++ [OArr res]) s)).
  assert (Hk : hasKind (heap s1) (pagination (state s))
                 (kindOf (OPag (setTotalItems (Z.of_nat (length res))
                                  (getPag (heap s ++ [OArr res])
                                          (pagination (state s)))))) = true).
  { simpl. by rewrite hasKind_alloc. }
  destruct (records_mutate s1 (pagination (state s)) _ Hk) as (Hi1 & Hr1); [done|done|].
  change (recomputed s) with
    (mutate (pagination (state s))
       (OPag (setTotalItems (Z.of_nat (length res))
                (getPag (heap s ++ [OArr res]) (pagination (state s))))) s1).
  rewrite Hi1, Hr1. unfold itemsOf, filteredOf, s1. simpl.
  rewrite getArr_alloc, getArr_new by done.
  rewrite !map_getItem_alloc by (done || by apply computeResult_valid).
  split; [done|]. apply computeResult_view.
Qed.

(** What [applyFilters] leaves in the state: the criteria and the items are
    untouched, the filtered items are the items selected by the criteria,
    and [totalItems] is their number. *)
Lemma view_applyFilters (s : Store) :
  wf s = true ->
  filtersOf (applyFilters s) = filtersOf s
  /\ searchQuery (state (applyFilters s)) = searchQuery (state s)
  /\ sortOf (applyFilters s) = sortOf s
  /\ itemsOf (applyFilters s) = itemsOf s
  /\ filteredOf (applyFilters s)
     = selectItems (filtersOf s) (searchQuery (state s)) (sortOf s) (itemsOf s)
  /\ pageOf (applyFilters s)
     = setTotalItems (Z.of_nat (length (filteredOf (applyFilters s)))) (pageOf s).
Proof.
  intros Hwf.
  destruct (obs_applyFilters s Hwf) as (Hf & Hc & Hq & Hp & _ & _).
  pose proof (wf_recomputed s Hwf) as Hwr.
  destruct (records_recomputed s Hwf) as (Hi & Hr).
  rewrite applyFilters_eq in *.
  destruct (records_notify (recomputed s) Hwr) as (Hi' & Hr').
  rewrite Hf, Hc, Hq, Hp, Hi', Hr', Hi, Hr.
  repeat split. f_equal. f_equal.
  unfold filtersOf, sortOf, itemsOf.
  rewrite <- computeResult_view. by rewrite length_map.
Qed.
End Recomputation.

(** ** What each mutator leaves in the state *)

Section MutatorViews.
Context `{RT : JSRuntime}.

(** The tail shared by the criteria mutators: the optional page reset,
    then the recomputation. *)
Lemma view_recompute (flag : bool) (s : Store) :
  wf s = true ->
  filtersOf (applyFilters (resetPage flag s)) = filtersOf s
  /\ searchQuery (state (applyFilters (resetPage flag s))) = searchQuery (state s)
  /\ sortOf (applyFilters (resetPage flag s)) = sortOf s
  /\ itemsOf (applyFilters (resetPage flag s)) = itemsOf s
  /\ filteredOf (applyFilters (resetPage flag s))
     = selectItems (filtersOf s) (searchQuery (state s)) (sortOf s) (itemsOf s)
  /\ pageOf (applyFilters (resetPage flag s))
     = setTotalItems (Z.of_nat (length (filteredOf (applyFilters (resetPage flag s)))))
                     (if flag then pageOf s else setCurrentPage 1 (pageOf s)).
Proof.
  intros Hwf.
  pose proof (wf_resetPage flag s Hwf) as Hwf1.
  destruct (view_applyFilters _ Hwf1) as (Hf & Hq & Hc & Hi & Hr & Hp).
  destruct (obs_resetPage flag s Hwf) as (Hf' & Hc' & Hp' & Hq' & _).
  destruct (records_resetPage flag s Hwf) as (Hi' & _).
  rewrite Hp, Hr, Hf, Hq, Hc, Hi, Hf', Hc', Hp', Hq', Hi'. done.
Qed.

Lemma view_mutate_filters (s : Store) (m : list (string * value)) :
  wf s = true ->
  let s' := mutate (activeFilters (state s)) (OMap m) s in
  wf s' = true /\ filtersOf s' = m /\ searchQuery (state s') = searchQuery (state s)
  /\ sortOf s' = sortOf s /\ itemsOf s' = itemsOf s /\ pageOf s' = pageOf s.
Proof.
  intros Hwf. cbv zeta.
  destruct (obs_mutate_filters s m Hwf) as (Hf & Hc & Hp & _).
  pose proof (wf_mutate_filters s m Hwf) as Hwf1.
  apply wf_spec in Hwf as (Hk & _).
  destruct (records_mutate s (activeFilters (state s)) (OMap m) Hk) as (Hi & _);
    [done|done|].
  done.
Qed.

Lemma view_rebind_sort (s : Store) (c : SortConfig) :
  wf s = true ->
  let s' := withState (setSortConfig (length (heap s)) (state s))
                      (withHeap (heap s ++ [OSort c]) s) in
  wf s' = true /\ filtersOf s' = filtersOf s
  /\ searchQuery (state s') = searchQuery (state s)
  /\ sortOf s' = c /\ itemsOf s' = itemsOf s /\ pageOf s' = pageOf s.
Proof.
  intros Hwf. cbv zeta.
  destruct (obs_rebind_sort s c Hwf) as (Hf & Hc & Hp & Hi).
  pose proof (wf_rebind_sort s c Hwf) as Hwf1.
  repeat split; try done.
  unfold itemsOf. rewrite Hi. simpl.
  apply wf_spec in Hwf as (_ & _ & _ & _ & _ & Hvi & _).
  by rewrite map_getItem_alloc.
Qed.

Lemma view_setFilter (key : string) (v : value) (flag : bool) (s : Store) :
  wf s = true ->
  let m := if isNullish v || isEmptyArray v
           then assocDelete key (filtersOf s) else assocSet key v (filtersOf s) in
  let s' := setFilter key v flag s in
  filtersOf s' = m
  /\ searchQuery (state s') = searchQuery (state s)
  /\ sortOf s' = sortOf s
  /\ itemsOf s' = itemsOf s
  /\ filteredOf s' = selectItems m (searchQuery (state s)) (sortOf s) (itemsOf s)
  /\ pageOf s'
     = setTotalItems (Z.of_nat (length (filteredOf s')))
                     (if flag then pageOf s else setCurrentPage 1 (pageOf s)).
Proof.
  intros Hwf. cbv zeta. unfold setFilter. cbv zeta.
  set (m := if isNullish v || isEmptyArray v
            then assocDelete key (filtersOf s) else assocSet key v (filtersOf s)).
  assert ((if isNullish v || isEmptyArray v
           then mutate (activeFilters (state s))
                  (OMap (assocDelete key (getMap (heap s) (activeFilters (state s))))) s
           else mutate (activeFilters (state s))
                  (OMap (assocSet key v (getMap (heap s) (activeFilters (state s))))) s)
          = mutate (activeFilters (state s)) (OMap m) s) as ->.
  { unfold m, filtersOf. by destruct (isNullish v || isEmptyArray v). }
  destruct (view_mutate_filters s m Hwf) as (Hwf1 & Hf & Hq & Hc & Hi & Hp).
  destruct (view_recompute flag _ Hwf1) as (Hf' & Hq' & Hc' & Hi' & Hr' & Hp').
  rewrite Hp', Hr', Hf', Hq', Hc', Hi', Hf, Hq, Hc, Hi, Hp. done.
Qed.

Lemma view_removeFilter (key : string) (flag : bool) (s : Store) :
  wf s = true ->
  let m := assocDelete key (filtersOf s) in
  let s' := removeFilter key flag s in
  filtersOf s' = m
  /\ searchQuery (state s') = searchQuery (state s)
  /\ sortOf s' = sortOf s
  /\ itemsOf s' = itemsOf s
  /\ filteredOf s' = selectItems m (searchQuery (state s)) (sortOf s) (itemsOf s)
  /\ pageOf s'
     = setTotalItems (Z.of_nat (length (filteredOf s')))
                     (if flag then pageOf s else setCurrentPage 1 (pageOf s)).
Proof.
  intros Hwf. cbv zeta. unfold removeFilter. cbv zeta.
  change (getMap (heap s) (activeFilters (state s))) with (filtersOf s).
  destruct (view_mutate_filters s (assocDelete key (filtersOf s)) Hwf)
    as (Hwf1 & Hf & Hq & Hc & Hi & Hp).
  destruct (view_recompute flag _ Hwf1) as (Hf' & Hq' & Hc' & Hi' & Hr' & Hp').
  rewrite Hp', Hr', Hf', Hq', Hc', Hi', Hf, Hq, Hc, Hi, Hp. done.
Qed.

Lemma view_setSearch (query : string) (flag : bool) (s : Store) :
  wf s = true ->
  let s' := setSearch query flag s in
  filtersOf s' = filtersOf s
  /\ searchQuery (state s') = query
  /\ sortOf s' = sortOf s
  /\ itemsOf s' = itemsOf s
  /\ filteredOf s' = selectItems (filtersOf s) query (sortOf s) (itemsOf s)
  /\ pageOf s'
     = setTotalItems (Z.of_nat (length (filteredOf s')))
                     (if flag then pageOf s else setCurrentPage 1 (pageOf s)).
Proof.
  intros Hwf. cbv zeta. unfold setSearch. cbv zeta.
  assert (wf (withState (setSearchQuery query (state s)) s) = true) as Hwf1
    by (by rewrite wf_setSearchQuery).
  destruct (view_recompute flag _ Hwf1) as (Hf' & Hq' & Hc' & Hi' & Hr' & Hp').
  rewrite Hp', Hr', Hf', Hq', Hc', Hi'. done.
Qed.

Lemma setSort_eq (f : option string) (d : Direction) (t : SortType) (s : Store) :
  setSort f d t s
  = applyFilters (resetPage false
      (withState (setSortConfig (length (heap s)) (state s))
         (withHeap (heap s ++ [OSort {| field := f; direction := d; type := t |}]) s))).
Proof. reflexivity. Qed.

Lemma view_setSort (f : option string) (d : Direction) (t : SortType) (s : Store) :
  wf s = true ->
  let c := {| field := f; direction := d; type := t |} in
  let s' := setSort f d t s in
  filtersOf s' = filtersOf s
  /\ searchQuery (state s') = searchQuery (state s)
  /\ sortOf s' = c
  /\ itemsOf s' = itemsOf s
  /\ filteredOf s' = selectItems (filtersOf s) (searchQuery (state s)) c (itemsOf s)
  /\ pageOf s'
     = setTotalItems (Z.of_nat (length (filteredOf s'))) (setCurrentPage 1 (pageOf s)).
Proof.
  intros Hwf. cbv zeta. rewrite setSort_eq.
  destruct (view_rebind_sort s {| field := f; direction := d; type := t |} Hwf)
    as (Hwf1 & Hf & Hq & Hc & Hi & Hp).
  destruct (view_recompute false _ Hwf1) as (Hf' & Hq' & Hc' & Hi' & Hr' & Hp').
  rewrite Hp', Hr', Hf', Hq', Hc', Hi', Hf, Hq, Hc, Hi, Hp. done.
Qed.
End MutatorViews.

Section MoreViews.
Context `{RT : JSRuntime}.

Lemma view_notify (s : Store) :
  wf s = true ->
  filtersOf (notify s) = filtersOf s
  /\ searchQuery (state (notify s)) = searchQuery (state s)
  /\ sortOf (notify s) = sortOf s /\ itemsOf (notify s) = itemsOf s
  /\ filteredOf (notify s) = filteredOf s /\ pageOf (notify s) = pageOf s.
Proof.
  intros Hwf. destruct (obs_notify s Hwf) as (Hf & Hc & Hp & _).
  destruct (records_notify s Hwf) as (Hi & Hr). rewrite notify_state. done.
Qed.

Lemma view_mutate_pagination (s : Store) (p : Pagination) :
  wf s = true ->
  let s' := mutate (pagination (state s)) (OPag p) s in
  wf s' = true /\ filtersOf s' = filtersOf s
  /\ searchQuery (state s') = searchQuery (state s)
  /\ sortOf s' = sortOf s /\ itemsOf s' = itemsOf s
  /\ filteredOf s' = filteredOf s /\ pageOf s' = p.
Proof.
  intros Hwf. cbv zeta.
  destruct (obs_mutate_pagination s p Hwf) as (Hf & Hc & Hp & _).
  pose proof Hwf as Hwf0. apply wf_spec in Hwf as (_ & _ & _ & _ & Hk & _).
  destruct (records_mutate s (pagination (state s)) (OPag p) Hk) as (Hi & Hr);
    [done|done|].
  repeat split; try done. by apply wf_mutate.
Qed.

Lemma view_rebind_pagination (s : Store) (p : Pagination) :
  wf s = true ->
  let s' := withState (setPaginationRef (length (heap s)) (state s))
                      (withHeap (heap s ++ [OPag p]) s) in
  wf s' = true /\ filtersOf s' = filtersOf s
  /\ searchQuery (state s') = searchQuery (state s)
  /\ sortOf s' = sortOf s /\ itemsOf s' = itemsOf s
  /\ filteredOf s' = filteredOf s /\ pageOf s' = p.
Proof.
  intros Hwf. cbv zeta.
  pose proof (wf_rebind_pagination s p Hwf) as Hwf1.
  apply wf_spec in Hwf as (Hf & Hc & Hi & Hr & Hp & Hvi & Hvr).
  pose proof (hasKind_valid _ _ _ Hf). pose proof (hasKind_valid _ _ _ Hc).
  pose proof (hasKind_valid _ _ _ Hi). pose proof (hasKind_valid _ _ _ Hr).
  unfold filtersOf, sortOf, pageOf, itemsOf, filteredOf. simpl.
  rewrite getMap_alloc, getSort_alloc, !getArr_alloc, getPag_new by done.
  by rewrite !map_getItem_alloc.
Qed.

Lemma view_rebind_items (s : Store) (a : list loc) :
  wf s = true -> validRefs (heap s) a = true ->
  let s' := withState (setItemsRef (length (heap s)) (state s))
                      (withHeap (heap s ++ [OArr a]) s) in
  wf s' = true /\ filtersOf s' = filtersOf s
  /\ searchQuery (state s') = searchQuery (state s)
  /\ sortOf s' = sortOf s /\ itemsOf s' = map (getItem (heap s)) a
  /\ pageOf s' = pageOf s.
Proof.
  intros Hwf Ha. cbv zeta.
  pose proof (wf_rebind_items s a Ha Hwf) as Hwf1.
  apply wf_spec in Hwf as (Hf & Hc & Hi & Hr & Hp & Hvi & Hvr).
  pose proof (hasKind_valid _ _ _ Hf). pose proof (hasKind_valid _ _ _ Hc).
  pose proof (hasKind_valid _ _ _ Hp).
  unfold filtersOf, sortOf, pageOf, itemsOf. simpl.
  rewrite getMap_alloc, getSort_alloc, getPag_alloc, getArr_new by done.
  by rewrite map_getItem_alloc.
Qed.

Lemma heap_mutate (l : loc) (o : obj) (s : Store) :
  heap (mutate l o s) = <[l := o]> (heap s).
Proof. reflexivity. Qed.

Lemma setPage_eq (page : Z) (s : Store) :
  wf s = true ->
  setPage page s
  = notify (if persistPage (setCurrentPage page (pageOf s))
            then updateStoragePage page
                   (mutate (pagination (state s))
                           (OPag (setCurrentPage page (pageOf s))) s)
            else mutate (pagination (state s))
                        (OPag (setCurrentPage page (pageOf s))) s).
Proof.
  intros Hwf. apply wf_spec in Hwf as (_ & _ & _ & _ & Hk & _).
  pose proof (hasKind_valid _ _ _ Hk).
  unfold setPage. cbv zeta. rewrite heap_mutate.
  fold (pageOf s). by rewrite getPag_mutate_eq.
Qed.

(** [setPage] writes the page and nothing else; nothing is recomputed. *)
Lemma view_setPage (page : Z) (s : Store) :
  wf s = true ->
  let s' := setPage page s in
  filtersOf s' = filtersOf s
  /\ searchQuery (state s') = searchQuery (state s)
  /\ sortOf s' = sortOf s /\ itemsOf s' = itemsOf s
  /\ filteredOf s' = filteredOf s
  /\ pageOf s' = setCurrentPage page (pageOf s).
Proof.
  intros Hwf. cbv zeta.
  rewrite setPage_eq by done.
  destruct (view_mutate_pagination s (setCurrentPage page (pageOf s)) Hwf)
    as (Hwf1 & Hf & Hq & Hc & Hi & Hr & Hp).
  destruct (persistPage (setCurrentPage page (pageOf s))).
  - unfold updateStoragePage.
    destruct (view_notify (withSession
                (tryWrites [(KEY_PAGE, numberToString (inject_Z page))]
                   (sessionStorage (mutate (pagination (state s))
                      (OPag (setCurrentPage page (pageOf s))) s)))
                (mutate (pagination (state s))
                   (OPag (setCurrentPage page (pageOf s))) s)))
      as (Hf' & Hq' & Hc' & Hi' & Hr' & Hp'); [by rewrite wf_withSession|].
    rewrite Hf', Hq', Hc', Hi', Hr', Hp'.
    rewrite filtersOf_withSession, state_withSession, sortOf_withSession,
      itemsOf_withSession, filteredOf_withSession, pageOf_withSession. done.
  - destruct (view_notify _ Hwf1) as (Hf' & Hq' & Hc' & Hi' & Hr' & Hp').
    rewrite Hf', Hq', Hc', Hi', Hr', Hp'. done.
Qed.

Lemma setPagination_eq (config : PaginationPatch) (s : Store) :
  let s2 := withState (setPaginationRef (length (heap s)) (state s))
              (withHeap (heap s ++ [OPag (applyPatch config (pageOf s))]) s) in
  setPagination config s
  = notify (match pCurrentPage config with
            | Some page =>
                if negb (page =? 0) && persistPage (applyPatch config (pageOf s))
                then updateStoragePage page s2 else s2
            | None => s2
            end).
Proof.
  cbv zeta. unfold setPagination, alloc. cbv beta iota zeta.
  change (heap (withState _ _)) with (heap s ++ [OPag (applyPatch config (pageOf s))]).
  rewrite getPag_new. reflexivity.
Qed.

(** [setPagination] replaces the pagination by the merged one; nothing is
    recomputed. *)
Lemma view_setPagination (config : PaginationPatch) (s : Store) :
  wf s = true ->
  let s' := setPagination config s in
  filtersOf s' = filtersOf s
  /\ searchQuery (state s') = searchQuery (state s)
  /\ sortOf s' = sortOf s /\ itemsOf s' = itemsOf s
  /\ filteredOf s' = filteredOf s
  /\ pageOf s' = applyPatch config (pageOf s).
Proof.
  intros Hwf. cbv zeta. rewrite setPagination_eq. cbv zeta.
  destruct (view_rebind_pagination s (applyPatch config (pageOf s)) Hwf)
    as (Hwf1 & Hf & Hq & Hc & Hi & Hr & Hp).
  set (s2 := withState (setPaginationRef (length (heap s)) (state s))
               (withHeap (heap s ++ [OPag (applyPatch config (pageOf s))]) s)) in *.
  assert (forall m, wf (withSession m s2) = true) as Hwfm
    by (intros m; by rewrite wf_withSession).
  assert (forall s3, wf s3 = true ->
            filtersOf s3 = filtersOf s2 -> state s3 = state s2 -> sortOf s3 = sortOf s2 ->
            itemsOf s3 = itemsOf s2 -> filteredOf s3 = filteredOf s2 ->
            pageOf s3 = pageOf s2 ->
            filtersOf (notify s3) = filtersOf s
            /\ searchQuery (state (notify s3)) = searchQuery (state s)
            /\ sortOf (notify s3) = sortOf s /\ itemsOf (notify s3) = itemsOf s
            /\ filteredOf (notify s3) = filteredOf s
            /\ pageOf (notify s3) = applyPatch config (pageOf s)) as Hgen.
  { intros s3 Hwf3 E1 E2 E3 E4 E5 E6.
    destruct (view_notify s3 Hwf3) as (Hf' & Hq' & Hc' & Hi' & Hr' & Hp').
    rewrite Hf', Hq', Hc', Hi', Hr', Hp', E1, E2, E3, E4, E5, E6. done. }
  destruct (pCurrentPage config) as [page|]; [|by apply Hgen].
  destruct (negb (page =? 0) && persistPage (applyPatch config (pageOf s)));
    [|by apply Hgen].
  unfold updateStoragePage. by apply Hgen.
Qed.
End MoreViews.

(** ** resetFilters *)

Section Reset.
Context `{RT : JSRuntime}.

(** The store in which [resetFilters] recomputes. *)
Local Abbreviation cleared s :=
  (withState (setSortConfig (length (<[activeFilters (state s) := OMap []]> (heap s)))
                            (setSearchQuery "" (state s)))
     (withHeap (<[activeFilters (state s) := OMap []]> (heap s) ++ [OSort defaultSort])
        (withState (setSearchQuery "" (state s))
           (mutate (activeFilters (state s)) (OMap []) s)))).

Lemma resetFilters_eq (s : Store) :
  resetFilters s
  = withSession
      (delete KEY_PAGE (delete KEY_SORT (delete KEY_SEARCH (delete KEY_FILTERS
         (sessionStorage (applyFilters (resetPage false (cleared s))))))))
      (applyFilters (resetPage false (cleared s))).
Proof. reflexivity. Qed.

Lemma view_cleared (s : Store) :
  wf s = true ->
  wf (cleared s) = true /\ filtersOf (cleared s) = []
  /\ searchQuery (state (cleared s)) = ""
  /\ sortOf (cleared s) = defaultSort /\ itemsOf (cleared s) = itemsOf s
  /\ pageOf (cleared s) = pageOf s.
Proof.
  intros Hwf.
  destruct (view_mutate_filters s [] Hwf) as (Hwf1 & Hf1 & _ & _ & Hi1 & Hp1).
  set (s2 := withState (setSearchQuery "" (state s))
               (mutate (activeFilters (state s)) (OMap []) s)).
  assert (wf s2 = true) as Hwf2 by exact Hwf1.
  destruct (view_rebind_sort s2 defaultSort Hwf2) as (Hwf4 & Hf4 & _ & Hc4 & Hi4 & Hp4).
  split; [exact Hwf4|]. split; [etrans; [exact Hf4 | exact Hf1]|].
  split; [reflexivity|]. split; [exact Hc4|].
  split; [etrans; [exact Hi4 | exact Hi1] | etrans; [exact Hp4 | exact Hp1]].
Qed.


(** What [resetFilters] leaves in the state: no criteria, every item
    selected, page 1. *)
Lemma view_resetFilters (s : Store) :
  wf s = true ->
  filtersOf (resetFilters s) = []
  /\ searchQuery (state (resetFilters s)) = ""
  /\ sortOf (resetFilters s) = defaultSort
  /\ itemsOf (resetFilters s) = itemsOf s
  /\ filteredOf (resetFilters s) = selectItems [] "" defaultSort (itemsOf s)
  /\ pageOf (resetFilters s)
     = setTotalItems (Z.of_nat (length (filteredOf (resetFilters s))))
                     (setCurrentPage 1 (pageOf s)).
Proof.
  intros Hwf.
  destruct (view_cleared s Hwf) as (Hwf4 & Hf4 & Hq4 & Hc4 & Hi4 & Hp4).
  destruct (view_recompute false _ Hwf4) as (Hf & Hq & Hc & Hi & Hr & Hp).
  rewrite resetFilters_eq.
  rewrite filtersOf_withSession, sortOf_withSession, pageOf_withSession,
    state_withSession, itemsOf_withSession, filteredOf_withSession.
  rewrite Hp, Hr, Hf, Hq, Hc, Hi, Hf4, Hq4, Hc4, Hi4, Hp4. done.
Qed.



End Reset.


(** ** Filter emptiness *)

Lemma noEmptyEntry_delete (k : string) (m : list (string * value)) :
  noEmptyEntry m = true -> noEmptyEntry (assocDelete k m) = true.
Proof.
  unfold noEmptyEntry. induction m as [|[k' v] r IH]; simpl; [done|].
  rewrite andb_true_iff. intros [Hv Hr].
  destruct (String.eqb k k'); simpl; [by apply IH|]. by rewrite Hv, IH.
Qed.

Lemma noEmptyEntry_set (k : string) (v : value) (m : list (string * value)) :
  isEmptyArray v = false -> noEmptyEntry m = true -> noEmptyEntry (assocSet k v m) = true.
Proof.
  intros Hv. unfold noEmptyEntry. induction m as [|[k' v'] r IH]; simpl.
  - by rewrite Hv.
  - rewrite andb_true_iff. intros [Hv' Hr].
    destruct (String.eqb k k'); simpl.
    + by rewrite Hv, Hr.
    + by rewrite Hv', IH.
Qed.

Section Emptiness.
Context `{RT : JSRuntime}.

Lemma setItems_eq (rawItems : list loc) (s : Store) :
  setItems rawItems s
  = let ps := (processItems rawItems s).1 in
    let s1 := (processItems rawItems s).2 in
    if sameItems ps (getArr (heap s1) (items (state s1))) then s1
    else applyFilters (withState (setItemsRef (length (heap s1)) (state s1))
                                 (withHeap (heap s1 ++ [OArr ps]) s1)).
Proof. unfold setItems. destruct (processItems rawItems s) as [ps s1]. reflexivity. Qed.

Lemma criteria_setItems (rawItems : list loc) (s : Store) :
  wf s = true ->
  filtersOf (setItems rawItems s) = filtersOf s
  /\ searchQuery (state (setItems rawItems s)) = searchQuery (state s)
  /\ sortOf (setItems rawItems s) = sortOf s.
Proof.
  intros Hwf. rewrite setItems_eq. cbv zeta.
  destruct (processItems_grows rawItems s)
    as (e & Hh & Hs & _ & _ & _ & _ & _ & _ & Hv).
  destruct (processItems rawItems s) as [ps s1]. cbn [fst snd] in *.
  pose proof (wf_grow s s1 e Hs Hh Hwf) as Hwf1.
  destruct (obs_grow s s1 e Hs Hh Hwf) as (Hf & Hc & _).
  destruct (sameItems ps _).
  - by rewrite Hf, Hc, Hs.
  - rewrite <- Hh in Hv.
    destruct (view_rebind_items s1 ps Hwf1 Hv) as (Hwf2 & Hf2 & Hq2 & Hc2 & _).
    destruct (view_applyFilters _ Hwf2) as (Hf3 & Hq3 & Hc3 & _).
    rewrite Hf3, Hq3, Hc3, Hf2, Hq2, Hc2, Hf, Hc, Hs. done.
Qed.

(** The active filters after a store call. *)
Lemma filtersOf_call (c : Call) (s : Store) :
  wf s = true ->
  filtersOf (call c s)
  = match c with
    | CSetFilter key v _ =>
        if isNullish v || isEmptyArray v
        then assocDelete key (filtersOf s) else assocSet key v (filtersOf s)
    | CRemoveFilter key _ => assocDelete key (filtersOf s)
    | CResetFilters => []
    | _ => filtersOf s
    end.
Proof.
  intros Hwf. destruct c; cbn [call].
  - by destruct (criteria_setItems rawItems s Hwf) as (-> & _).
  - by destruct (view_setFilter key v preventPageReset s Hwf) as (-> & _).
  - by destruct (view_removeFilter key preventPageReset s Hwf) as (-> & _).
  - by destruct (view_setSearch query preventPageReset s Hwf) as (-> & _).
  - by destruct (view_setSort f d t s Hwf) as (-> & _).
  - by destruct (view_resetFilters s Hwf) as (-> & _).
  - by destruct (view_setPagination config s Hwf) as (-> & _).
  - by destruct (view_setPage page s Hwf) as (-> & _).
Qed.

Lemma noEmptyEntry_call (c : Call) (s : Store) :
  wf s = true -> noEmptyEntry (filtersOf s) = true ->
  noEmptyEntry (filtersOf (call c s)) = true.
Proof.
  intros Hwf Hne. rewrite filtersOf_call by done. destruct c; try done.
  - destruct (isNullish v || isEmptyArray v) eqn:E.
    + by apply noEmptyEntry_delete.
    + apply orb_false_iff in E as [_ E]. by apply noEmptyEntry_set.
  - by apply noEmptyEntry_delete.
Qed.

Lemma filtersOf_handleApply_full (key : string) (minVal maxVal dataMin dataMax : Q)
      (persistState : bool) (s : Store) :
  wf s = true ->
  Qeq_bool minVal dataMin = true -> Qeq_bool maxVal dataMax = true ->
  filtersOf (handleApply key minVal maxVal dataMin dataMax persistState s).1
  = assocDelete key (filtersOf s)
  /\ (handleApply key minVal maxVal dataMin dataMax persistState s).2 = Returned.
Proof.
  intros Hwf Hmin Hmax. unfold handleApply. rewrite Hmin, Hmax. cbn [andb]. cbv zeta.
  destruct persistState; cbn [fst snd].
  - by rewrite filtersOf_withSession, filtersOf_removeFilter.
  - by rewrite filtersOf_removeFilter.
Qed.

Lemma filtersOf_syncApplied_full (key : string) (minVal maxVal dataMin dataMax : Q)
      (isFirstRun : bool) (s : Store) :
  wf s = true ->
  Qeq_bool minVal dataMin = true -> Qeq_bool maxVal dataMax = true ->
  filtersOf (syncApplied key minVal maxVal dataMin dataMax isFirstRun s)
  = assocDelete key (filtersOf s).
Proof.
  intros Hwf Hmin Hmax. unfold syncApplied. rewrite Hmin, Hmax. cbn [negb orb].
  by rewrite filtersOf_removeFilter.
Qed.

(** C3. An empty selection is never stored: [setFilter] with an empty
    array leaves the key absent from the map of active filters, and no store
    call puts an empty selection into a map that holds none.  The full
    range is kept out of the map by the range slider, not by the store: its
    apply handler and its sync effect call [removeFilter] when the chosen
    range is the range of the data they hold, and leave the key absent;
    [setFilter] itself knows no bounds and stores every range of two numbers
    as it is given. *)
Theorem empty_filter_is_absent (key : string) (flag : bool) (s : Store) :
  wf s = true ->
  assocGet key (filtersOf (setFilter key (VArr []) flag s)) = None
  /\ (noEmptyEntry (filtersOf s) = true ->
      forall c : Call, noEmptyEntry (filtersOf (call c s)) = true)
  /\ (forall (minVal maxVal dataMin dataMax : Q) (persistState : bool),
         Qeq_bool minVal dataMin = true -> Qeq_bool maxVal dataMax = true ->
         assocGet key
           (filtersOf (handleApply key minVal maxVal dataMin dataMax persistState s).1)
         = None
         /\ assocGet key
              (filtersOf (syncApplied key minVal maxVal dataMin dataMax flag s))
            = None)
  /\ (forall lo hi : Q,
         assocGet key (filtersOf (setFilter key (VArr [VNum lo; VNum hi]) flag s))
         = Some (VArr [VNum lo; VNum hi])).
Proof.
  intros Hwf. split; [|split; [|split]].
  - rewrite filtersOf_setFilter by done. apply assocGet_delete_eq.
  - intros Hne c. by apply noEmptyEntry_call.
  - intros minVal maxVal dataMin dataMax persistState Hmin Hmax. split.
    + destruct (filtersOf_handleApply_full key minVal maxVal dataMin dataMax
                  persistState s Hwf Hmin Hmax) as (-> & _).
      apply assocGet_delete_eq.
    + rewrite filtersOf_syncApplied_full by done. apply assocGet_delete_eq.
  - intros lo hi. rewrite filtersOf_setFilter by done. apply assocGet_set_eq.
Qed.

(** C9. [setFilter] with [null] or [undefined] is [removeFilter]: the two
    calls leave the same store (the same criteria, page, filtered items,
    session entries and calls to observers), and the key is absent from the
    map of active filters. *)
Theorem setFilter_nullish_is_removeFilter (key : string) (v : value) (flag : bool)
        (s : Store) :
  isNullish v = true -> wf s = true ->
  setFilter key v flag s = removeFilter key flag s
  /\ assocGet key (filtersOf (setFilter key v flag s)) = None.
Proof.
  intros Hv Hwf.
  assert (setFilter key v flag s = removeFilter key flag s) as E.
  { unfold setFilter, removeFilter. cbv zeta. rewrite Hv. reflexivity. }
  split; [exact E|]. rewrite E, filtersOf_removeFilter by done.
  apply assocGet_delete_eq.
Qed.
End Emptiness.

Lemma empty_filter_is_absent_witness :
  assocGet "filter_slider_price"
    (filtersOf (setFilter (RT := Ascii_runtime.runtime) "filter_slider_price" (VArr [])
                  false demoStore)) = None
  /\ assocGet "filter_slider_price"
       (filtersOf (handleApply (RT := Ascii_runtime.runtime) "filter_slider_price"
                     (fst (initialBounds (RT := Ascii_runtime.runtime) "price"
                             (itemsOf demoStore)))
                     (snd (initialBounds (RT := Ascii_runtime.runtime) "price"
                             (itemsOf demoStore)))
                     (fst (initialBounds (RT := Ascii_runtime.runtime) "price"
                             (itemsOf demoStore)))
                     (snd (initialBounds (RT := Ascii_runtime.runtime) "price"
                             (itemsOf demoStore)))
                     true demoStore).1) = None.
Proof.
  destruct (empty_filter_is_absent (RT := Ascii_runtime.runtime)
              "filter_slider_price" false demoStore) as (He & _ & Hw & _);
    [vm_compute; reflexivity|].
  split; [exact He|].
  refine (proj1 (Hw _ _ _ _ true _ _)); vm_compute; reflexivity.
Defined.

(** C3, the case the claim names and the store does not cover: the two
    ingested items have the prices 1,5 and 12, which the range slider reads
    as the bounds 1.5 and 12 of the data; [setFilter] with this full range
    stores it, and the key is present in the map of active filters. *)
Lemma setFilter_keeps_full_range :
  initialBounds (RT := Ascii_runtime.runtime) "price" (itemsOf ingestedStore)
  = (1.5%Q, 12%Q)
  /\ assocGet "filter_slider_price"
       (filtersOf (setFilter (RT := Ascii_runtime.runtime) "filter_slider_price"
                     (VArr [VNum 1.5; VNum 12]) false ingestedStore))
     = Some (VArr [VNum 1.5; VNum 12])
  /\ assocGet "filter_slider_price"
       (filtersOf (setFilter (RT := Ascii_runtime.runtime) "filter_slider_price"
                     (VArr [VNum 1.5; VNum 12]) false ingestedStore))
     <> None.
Proof. vm_compute. repeat split. discriminate. Qed.

Lemma setFilter_nullish_is_removeFilter_witness :
  setFilter (RT := Ascii_runtime.runtime) "filter_slider_price" VNull true demoStore
  = removeFilter (RT := Ascii_runtime.runtime) "filter_slider_price" true demoStore.
Proof.
  refine (proj1 (setFilter_nullish_is_removeFilter (RT := Ascii_runtime.runtime)
                   "filter_slider_price" VNull true demoStore _ _)).
  - reflexivity.
  - vm_compute. reflexivity.
Defined.

(** ** Snapshots handed to observers *)

Section Aliasing.
Context `{RT : JSRuntime}.

Lemma subscribe_eq (l : listener) (s : Store) :
  subscribe l s
  = emit (EvInitial l (state (lazyInit s))
                    (viewOf (heap (lazyInit s)) (state (lazyInit s))))
         (withListeners (setAdd l (listeners (lazyInit s))) (lazyInit s)).
Proof. reflexivity. Qed.

(** C1. The snapshot [subscribe] hands to a new observer is a copy of the
    six fields of the state, so its four containers are the store's own
    ones: writing an entry list into the snapshot's map of active filters
    changes the active filters of the store, and the next notification
    delivers the written map; the same holds for the pagination object. *)
Theorem subscribe_snapshot_is_shared (l : listener) (s : Store)
        (m : list (string * value)) (p : Pagination) :
  wf (lazyInit s) = true -> isBatching (lazyInit s) = false ->
  exists snapshot content,
    trace (subscribe l s) = trace (lazyInit s) ++ [EvInitial l snapshot content]
    /\ activeFilters snapshot = activeFilters (state (subscribe l s))
    /\ filteredItems snapshot = filteredItems (state (subscribe l s))
    /\ pagination snapshot = pagination (state (subscribe l s))
    /\ sortConfig snapshot = sortConfig (state (subscribe l s))
    /\ filtersOf (mutate (activeFilters snapshot) (OMap m) (subscribe l s)) = m
    /\ pageOf (mutate (pagination snapshot) (OPag p) (subscribe l s)) = p
    /\ exists snapshot' content' to,
         trace (notify (mutate (activeFilters snapshot) (OMap m) (subscribe l s)))
         = trace (subscribe l s) ++ [EvNotify snapshot' content' to]
         /\ vFilters content' = m.
Proof.
  intros Hwf Hb. rewrite subscribe_eq.
  set (s0 := lazyInit s) in *.
  exists (state s0), (viewOf (heap s0) (state s0)).
  set (s1 := emit _ _).
  assert (wf s1 = true) as Hwf1 by exact Hwf.
  destruct (obs_mutate_filters s1 m Hwf1) as (Hf & _).
  destruct (obs_mutate_pagination s1 p Hwf1) as (_ & _ & Hp & _).
  repeat split; try done.
  destruct (notify_delivers (mutate (activeFilters (state s0)) (OMap m) s1))
    as (Ht & _); [by apply (wf_mutate_filters s1 m) | exact Hb |].
  do 3 eexists. split; [exact Ht|]. exact Hf.
Qed.
End Aliasing.

Lemma subscribe_snapshot_is_shared_witness :
  exists snapshot content,
    trace (subscribe (RT := Ascii_runtime.runtime) 7%nat newStore)
    = trace (lazyInit (RT := Ascii_runtime.runtime) newStore)
        ++ [EvInitial 7%nat snapshot content]
    /\ activeFilters snapshot
       = activeFilters (state (subscribe (RT := Ascii_runtime.runtime) 7%nat newStore)).
Proof.
  destruct (subscribe_snapshot_is_shared (RT := Ascii_runtime.runtime) 7%nat newStore
              [("filter_multi_title", VArr [VStr "Lamp"])] defaultPagination)
    as (snapshot & content & Ht & Hf & _).
  - vm_compute. reflexivity.
  - vm_compute. reflexivity.
  - exists snapshot, content. split; [exact Ht | exact Hf].
Defined.

(** ** Re-ingestion of raw items *)

(** C4. [setItems] called twice with the same array of raw items recomputes
    and notifies twice: the items it compares with the stored ones are the
    records it has just created, which are new objects on every call, so the
    comparison of references fails although the records are equal. *)
Theorem setItems_raw_twice_recomputes :
  length (notifications (trace (setItems (RT := Ascii_runtime.runtime) [5%nat; 6%nat]
                                  storeWithRawItems))) = 1%nat
  /\ callNotifies (RT := Ascii_runtime.runtime) (CSetItems [5%nat; 6%nat])
       (setItems (RT := Ascii_runtime.runtime) [5%nat; 6%nat] storeWithRawItems) = true
  /\ length (notifications
               (trace (setItems (RT := Ascii_runtime.runtime) [5%nat; 6%nat]
                         (setItems (RT := Ascii_runtime.runtime) [5%nat; 6%nat]
                            storeWithRawItems)))) = 2%nat
  /\ itemsOf (setItems (RT := Ascii_runtime.runtime) [5%nat; 6%nat]
                (setItems (RT := Ascii_runtime.runtime) [5%nat; 6%nat] storeWithRawItems))
     = itemsOf (setItems (RT := Ascii_runtime.runtime) [5%nat; 6%nat] storeWithRawItems).
Proof. vm_compute. repeat split. Qed.

(** ** Nested batches *)

(** C2, the case the claim names and the code does not cover: a function
    that calls [batch] inside a batch gets two notifications:
    the inner [batch] clears the flag, delivers the pending request, and the
    call that follows it notifies at once. *)
Lemma nested_batch_notifies_twice :
  length (notifications
            (trace (batch (RT := Ascii_runtime.runtime) (run (RT := Ascii_runtime.runtime) nestedCalls) newStore).1))
  = 2%nat.
Proof. vm_compute. reflexivity. Qed.

Lemma batch_coalesces_witness :
  isBatching (batch (RT := Ascii_runtime.runtime) (run (RT := Ascii_runtime.runtime) threeCalls) newStore).1 = false
  /\ length (notifications
               (trace (batch (RT := Ascii_runtime.runtime) (run (RT := Ascii_runtime.runtime) threeCalls) newStore).1))
     = 1%nat.
Proof.
  destruct (batch_coalesces (RT := Ascii_runtime.runtime) threeCalls newStore)
    as (Hb & _ & Hn & _); try reflexivity.
  split; [exact Hb|]. rewrite Hn. vm_compute. reflexivity.
Defined.

Lemma batch_throw_flushes_witness :
  (batch (RT := Ascii_runtime.runtime) (run (RT := Ascii_runtime.runtime) throwingCalls) newStore).2 = Thrown
  /\ isBatching (batch (RT := Ascii_runtime.runtime) (run (RT := Ascii_runtime.runtime) throwingCalls) newStore).1
     = false.
Proof.
  destruct (batch_throw_flushes (RT := Ascii_runtime.runtime)
              (run (RT := Ascii_runtime.runtime) throwingCalls) newStore
              (run (RT := Ascii_runtime.runtime) throwingCalls
                   (withIsBatching true newStore)).1)
    as (Ho & Hb & _).
  - vm_compute. reflexivity.
  - split; [exact Ho | exact Hb].
Defined.

(** ** Initialisation and subscription *)

Lemma sameControl_refl (s : Store) : sameControl s s.
Proof. by repeat split. Qed.

Lemma sameControl_trans (s s' s'' : Store) :
  sameControl s s' -> sameControl s' s'' -> sameControl s s''.
Proof.
  intros (H1 & H2 & H3 & H4 & H5) (H1' & H2' & H3' & H4' & H5').
  repeat split; congruence.
Qed.

Section Initialisation.
Context `{RT : JSRuntime}.

Lemma wf_rebind_filters (s : Store) (m : list (string * value)) :
  wf s = true ->
  wf (withState (setActiveFilters (length (heap s)) (state s))
                (withHeap (heap s ++ [OMap m]) s)) = true.
Proof.
  intros Hwf. apply wf_spec in Hwf as (Hf & Hc & Hi & Hr & Hp & Hvi & Hvr).
  pose proof (hasKind_valid _ _ _ Hc). pose proof (hasKind_valid _ _ _ Hr).
  pose proof (hasKind_valid _ _ _ Hi). pose proof (hasKind_valid _ _ _ Hp).
  apply wf_spec. simpl.
  rewrite (hasKind_alloc _ _ (sortConfig (state s))),
    (hasKind_alloc _ _ (filteredItems (state s))),
    (hasKind_alloc _ _ (items (state s))),
    (hasKind_alloc _ _ (pagination (state s))),
    (hasKind_new _ (OMap m)), !getArr_alloc by done.
  repeat split; try done.
  - eapply validRefs_mono; [|exact Hvi]. rewrite length_app. lia.
  - eapply validRefs_mono; [|exact Hvr]. rewrite length_app. lia.
Qed.

Lemma restorePage_spec (s : Store) :
  wf s = true ->
  wf (restorePage s) = true /\ sameControl s (restorePage s)
  /\ initialized (restorePage s) = initialized s
  /\ filtersOf (restorePage s) = filtersOf s
  /\ searchQuery (state (restorePage s)) = searchQuery (state s)
  /\ sortOf (restorePage s) = sortOf s
  /\ pageOf (restorePage s)
     = match sessionStorage s !! KEY_PAGE with
       | Some savedPage =>
           match parseInt savedPage with
           | Some page =>
               if nonEmpty savedPage && (0 <? page)
               then setCurrentPage page (pageOf s) else pageOf s
           | None => pageOf s
           end
       | None => pageOf s
       end.
Proof.
  intros Hwf. unfold restorePage.
  destruct (sessionStorage s !! KEY_PAGE) as [savedPage|];
    [|by repeat split; try apply sameControl_refl].
  destruct (nonEmpty savedPage); cbn [andb];
    [|destruct (parseInt savedPage); by repeat split; try apply sameControl_refl].
  destruct (parseInt savedPage) as [page|];
    [|by repeat split; try apply sameControl_refl].
  destruct (0 <? page); [|by repeat split; try apply sameControl_refl].
  fold (pageOf s).
  destruct (view_mutate_pagination s (setCurrentPage page (pageOf s)) Hwf)
    as (Hwf1 & Hf & Hq & Hc & _ & _ & Hp).
  repeat split; done.
Qed.

Lemma restorePage_records (s : Store) :
  wf s = true ->
  state (restorePage s) = state s
  /\ itemsOf (restorePage s) = itemsOf s /\ filteredOf (restorePage s) = filteredOf s.
Proof.
  intros Hwf. unfold restorePage.
  destruct (sessionStorage s !! KEY_PAGE) as [savedPage|]; [|done].
  destruct (nonEmpty savedPage); [|done].
  destruct (parseInt savedPage) as [page|]; [|done].
  destruct (0 <? page); [|done].
  fold (pageOf s).
  destruct (view_mutate_pagination s (setCurrentPage page (pageOf s)) Hwf)
    as (_ & _ & _ & _ & Hi & Hr & _).
  by repeat split.
Qed.

Lemma restoreFilters_spec (s s' : Store) :
  wf s = true -> restoreFilters s = Some s' ->
  wf s' = true /\ sameControl s s' /\ initialized s' = initialized s
  /\ searchQuery (state s') = searchQuery (state s)
  /\ sortOf s' = sortOf s /\ pageOf s' = pageOf s.
Proof.
  intros Hwf. unfold restoreFilters.
  destruct (sessionStorage s !! KEY_FILTERS) as [savedFilters|];
    [|intros [= <-]; by repeat split; try apply sameControl_refl].
  destruct (nonEmpty savedFilters);
    [|intros [= <-]; by repeat split; try apply sameControl_refl].
  destruct (parseFilters savedFilters) as [entries|]; [|done].
  unfold alloc. intros [= <-].
  pose proof (wf_rebind_filters s entries Hwf) as Hwf1.
  apply wf_spec in Hwf as (Hf & Hc & Hi & Hr & Hp & Hvi & Hvr).
  pose proof (hasKind_valid _ _ _ Hc). pose proof (hasKind_valid _ _ _ Hp).
  unfold sortOf, pageOf. simpl.
  rewrite getSort_alloc, getPag_alloc by done.
  repeat split; done.
Qed.

Lemma restoreSearch_spec (s : Store) :
  wf s = true ->
  wf (restoreSearch s) = true /\ sameControl s (restoreSearch s)
  /\ initialized (restoreSearch s) = initialized s
  /\ filtersOf (restoreSearch s) = filtersOf s
  /\ sortOf (restoreSearch s) = sortOf s /\ pageOf (restoreSearch s) = pageOf s.
Proof.
  intros Hwf. unfold restoreSearch.
  destruct (sessionStorage s !! KEY_SEARCH) as [savedSearch|];
    [|by repeat split; try apply sameControl_refl].
  destruct (nonEmpty savedSearch); by repeat split; try apply sameControl_refl.
Qed.

Lemma hasKind_fresh (h : list obj) (o : obj) (k : kind) :
  hasKind (h ++ [o]) (length h) k = kind_eqb (kindOf o) k.
Proof. unfold hasKind. by rewrite lookup_new. Qed.

(** Rebinding [sortConfig] to a fresh object: the store stays well formed
    exactly when the object is a sort configuration, and the other fields
    are left alone. *)
Lemma rebind_sort_object (s : Store) (o : obj) :
  wf s = true ->
  let s' := withState (setSortConfig (length (heap s)) (state s))
                      (withHeap (heap s ++ [o]) s) in
  wf s' = kind_eqb (kindOf o) KSort
  /\ filtersOf s' = filtersOf s /\ pageOf s' = pageOf s.
Proof.
  intros Hwf. cbv zeta.
  apply wf_spec in Hwf as (Hf & Hc & Hi & Hr & Hp & Hvi & Hvr).
  pose proof (hasKind_valid _ _ _ Hf). pose proof (hasKind_valid _ _ _ Hr).
  pose proof (hasKind_valid _ _ _ Hi). pose proof (hasKind_valid _ _ _ Hp).
  split; [|split].
  - unfold wf. cbn [heap state withState withHeap setSortConfig activeFilters
                    sortConfig items filteredItems pagination].
    rewrite (hasKind_alloc _ _ (activeFilters (state s))),
      (hasKind_alloc _ _ (filteredItems (state s))),
      (hasKind_alloc _ _ (items (state s))),
      (hasKind_alloc _ _ (pagination (state s))),
      hasKind_fresh, !getArr_alloc by done.
    rewrite Hf, Hi, Hr, Hp. cbn [andb].
    rewrite (validRefs_mono (heap s) (heap s ++ [o]) _ ltac:(rewrite length_app; lia) Hvi),
      (validRefs_mono (heap s) (heap s ++ [o]) _ ltac:(rewrite length_app; lia) Hvr).
    by rewrite !andb_true_r.
  - unfold filtersOf. cbn [heap state withState withHeap setSortConfig activeFilters].
    by rewrite getMap_alloc.
  - unfold pageOf. cbn [heap state withState withHeap setSortConfig pagination].
    by rewrite getPag_alloc.
Qed.

Lemma kindOf_sortObject (v : value) :
  kind_eqb (kindOf (sortObject v)) KSort
  = match asSortConfig v with Some _ => true | None => false end.
Proof. unfold sortObject. by destruct (asSortConfig v). Qed.

(** [restoreSort] keeps the store well formed exactly when the saved text,
    if it is read, is a sort configuration. *)
Lemma restoreSort_spec (s s' : Store) :
  wf s = true -> restoreSort s = Some s' ->
  wf s' = savedSortIsConfig s /\ sameControl s s' /\ initialized s' = initialized s
  /\ filtersOf s' = filtersOf s
  /\ searchQuery (state s') = searchQuery (state s) /\ pageOf s' = pageOf s.
Proof.
  intros Hwf. unfold restoreSort, savedSortIsConfig.
  destruct (sessionStorage s !! KEY_SORT) as [savedSort|];
    [|intros [= <-]; by repeat split; try apply sameControl_refl].
  destruct (nonEmpty savedSort);
    [|intros [= <-]; by repeat split; try apply sameControl_refl].
  destruct (parseJSON savedSort) as [v|]; [|done].
  unfold alloc. intros [= <-].
  destruct (rebind_sort_object s (sortObject v) Hwf) as (Hwf1 & Hf & Hp).
  cbv zeta in Hwf1, Hf, Hp. rewrite kindOf_sortObject in Hwf1.
  repeat split; done.
Qed.

Lemma lazyInit_initialized (s : Store) : initialized s = true -> lazyInit s = s.
Proof. intros H. unfold lazyInit. by rewrite H. Qed.

(** [lazyInit] touches the state and the flag only: listeners, batching
    flags, session storage and the calls made so far are as they were. *)
Lemma lazyInit_control (s : Store) : sameControl s (lazyInit s).
Proof.
  unfold lazyInit, restorePage, restoreFilters, restoreSearch, restoreSort, alloc.
  destruct (initialized s); [apply sameControl_refl|].
  repeat (case_match; simplify_eq/=); by repeat split.
Qed.

(** The store after the first three steps of the restoration, when the
    saved filters do not make it stop. *)
Lemma lazyInit_steps (s : Store) :
  wf s = true -> initialized s = false ->
  let s1 := restorePage (withInitialized true s) in
  wf s1 = true /\ sessionStorage s1 = sessionStorage s
  /\ match restoreFilters s1 with
     | None => lazyInit s = s1
     | Some s2 =>
         wf (restoreSearch s2) = true
         /\ sessionStorage (restoreSearch s2) = sessionStorage s
         /\ pageOf (restoreSearch s2) = pageOf s1
         /\ lazyInit s = match restoreSort (restoreSearch s2) with
                         | Some s4 => s4
                         | None => restoreSearch s2
                         end
     end.
Proof.
  intros Hwf Hi. cbv zeta.
  assert (wf (withInitialized true s) = true) as Hwf0 by exact Hwf.
  destruct (restorePage_spec _ Hwf0) as (Hwf1 & Hc1 & _).
  destruct Hc1 as (_ & _ & _ & Hs1 & _). cbn [sessionStorage withInitialized] in Hs1.
  split; [exact Hwf1|]. split; [exact Hs1|].
  unfold lazyInit. rewrite Hi. cbv zeta.
  destruct (restoreFilters (restorePage (withInitialized true s))) as [s2|] eqn:E2;
    [|done].
  destruct (restoreFilters_spec _ s2 Hwf1 E2) as (Hwf2 & Hc2 & _ & _ & _ & Hp2).
  destruct (restoreSearch_spec s2 Hwf2) as (Hwf3 & Hc3 & _ & _ & _ & Hp3).
  destruct Hc2 as (_ & _ & _ & Hs2 & _). destruct Hc3 as (_ & _ & _ & Hs3 & _).
  split; [exact Hwf3|]. split; [congruence|]. split; [congruence|].
  by destruct (restoreSort (restoreSearch s2)).
Qed.

Lemma savedSortIsConfig_session (s s' : Store) :
  sessionStorage s' = sessionStorage s -> savedSortIsConfig s' = savedSortIsConfig s.
Proof. intros H. unfold savedSortIsConfig. by rewrite H. Qed.

(** The page [lazyInit] leaves is the one restored from the session,
    whatever the other saved entries are. *)
Lemma lazyInit_page (s : Store) :
  wf s = true ->
  pageOf (lazyInit s)
  = if initialized s then pageOf s else pageOf (restorePage (withInitialized true s)).
Proof.
  intros Hwf. destruct (initialized s) eqn:Hi; [by rewrite lazyInit_initialized|].
  destruct (lazyInit_steps s Hwf Hi) as (Hwf1 & Hs1 & H). cbv zeta in H.
  destruct (restoreFilters (restorePage (withInitialized true s))) as [s2|];
    [|by rewrite H].
  destruct H as (Hwf3 & Hs3 & Hp3 & ->).
  destruct (restoreSort (restoreSearch s2)) as [s4|] eqn:E4; [|done].
  destruct (restoreSort_spec _ s4 Hwf3 E4) as (_ & _ & _ & _ & _ & Hp4). congruence.
Qed.

(** [lazyInit] keeps a well-formed store well formed when the saved sort
    configuration is one. *)
Lemma lazyInit_wf (s : Store) :
  wf s = true -> initialized s = true \/ savedSortIsConfig s = true ->
  wf (lazyInit s) = true.
Proof.
  intros Hwf Hok. destruct (initialized s) eqn:Hi; [by rewrite lazyInit_initialized|].
  destruct Hok as [?|Hok]; [done|].
  destruct (lazyInit_steps s Hwf Hi) as (Hwf1 & Hs1 & H). cbv zeta in H.
  destruct (restoreFilters (restorePage (withInitialized true s))) as [s2|];
    [|by rewrite H].
  destruct H as (Hwf3 & Hs3 & Hp3 & ->).
  destruct (restoreSort (restoreSearch s2)) as [s4|] eqn:E4; [|done].
  destruct (restoreSort_spec _ s4 Hwf3 E4) as (-> & _).
  by rewrite (savedSortIsConfig_session s _ Hs3).
Qed.

Lemma asSortConfig_object (v : value) : isObject v = false -> asSortConfig v = None.
Proof. by destruct v. Qed.

(** A saved sort configuration that is not one takes the store out of the
    well-formed ones, when the restoration gets that far. *)
Lemma lazyInit_not_wf (s : Store) :
  wf s = true -> initialized s = false -> savedSortIsConfig s = false ->
  (forall savedFilters,
      sessionStorage s !! KEY_FILTERS = Some savedFilters ->
      nonEmpty savedFilters = true -> parseFilters savedFilters <> None) ->
  wf (lazyInit s) = false.
Proof.
  intros Hwf Hi Hbad Hfilters.
  destruct (lazyInit_steps s Hwf Hi) as (Hwf1 & Hs1 & H). cbv zeta in H.
  destruct (restoreFilters (restorePage (withInitialized true s))) as [s2|] eqn:E2.
  - destruct H as (Hwf3 & Hs3 & Hp3 & ->).
    pose proof (savedSortIsConfig_session s _ Hs3) as Hsame.
    destruct (restoreSort (restoreSearch s2)) as [s4|] eqn:E4.
    + destruct (restoreSort_spec _ s4 Hwf3 E4) as (-> & _). congruence.
    + exfalso. revert E4 Hsame. unfold restoreSort, savedSortIsConfig.
      rewrite Hs3. intros E4 _. revert Hbad. unfold savedSortIsConfig.
      destruct (sessionStorage s !! KEY_SORT) as [savedSort|]; [|done].
      destruct (nonEmpty savedSort); [|done].
      destruct (parseJSON savedSort); [|done].
      by unfold alloc in E4.
  - exfalso. revert E2. unfold restoreFilters. rewrite Hs1.
    destruct (sessionStorage s !! KEY_FILTERS) as [savedFilters|] eqn:Ef; [|done].
    destruct (nonEmpty savedFilters) eqn:En; [|done].
    pose proof (Hfilters savedFilters eq_refl En) as Hparse.
    destruct (parseFilters savedFilters); [|done].
    by unfold alloc.
Qed.
End Initialisation.

Section InitialisationTheorems.
Context `{RT : JSRuntime}.

Lemma initialized_lazyInit (s : Store) : initialized (lazyInit s) = true.
Proof.
  unfold lazyInit, restorePage, restoreFilters, restoreSearch, restoreSort, alloc.
  destruct (initialized s) eqn:Hi; [done|].
  repeat (case_match; simplify_eq/=); done.
Qed.

(** X1. [lazyInit] runs once: it marks the store initialised on every path,
    the failing ones included, so a second call changes nothing, and the
    session is never read again. *)
Theorem lazyInit_runs_once (s : Store) :
  initialized (lazyInit s) = true /\ lazyInit (lazyInit s) = lazyInit s.
Proof.
  split; [apply initialized_lazyInit|].
  apply lazyInit_initialized, initialized_lazyInit.
Qed.

(** X2. The first [lazyInit] restores the current page from the session
    when the saved entry reads as a positive integer, and leaves it alone
    otherwise (no entry, an empty entry, not a number, zero or negative);
    this holds whatever the other saved entries are, unparsable ones
    included.  The other pagination fields are never restored. *)
Theorem lazyInit_restores_page (s : Store) :
  wf s = true -> initialized s = false ->
  pageOf (lazyInit s)
  = match sessionStorage s !! KEY_PAGE with
    | Some savedPage =>
        match parseInt savedPage with
        | Some page =>
            if nonEmpty savedPage && (0 <? page)
            then setCurrentPage page (pageOf s) else pageOf s
        | None => pageOf s
        end
    | None => pageOf s
    end.
Proof.
  intros Hwf Hi. rewrite (lazyInit_page s Hwf), Hi.
  assert (wf (withInitialized true s) = true) as Hwf0 by exact Hwf.
  by destruct (restorePage_spec _ Hwf0) as (_ & _ & _ & _ & _ & _ & ->).
Qed.

(** X3. When the saved filters cannot be parsed, the [catch] block ends
    the restoration: no field of the state is reassigned, and the active
    filters, the search query, the sort configuration and the item arrays
    have the content they had, even if valid entries are saved for the
    search and the sort.  The page, which is restored first, is restored
    all the same; the store is initialised and the session is left as it
    is. *)
Theorem lazyInit_corrupt_filters (s : Store) (savedFilters : string) :
  wf s = true -> initialized s = false ->
  sessionStorage s !! KEY_FILTERS = Some savedFilters ->
  nonEmpty savedFilters = true ->
  parseFilters savedFilters = None ->
  state (lazyInit s) = state s
  /\ filtersOf (lazyInit s) = filtersOf s
  /\ sortOf (lazyInit s) = sortOf s
  /\ itemsOf (lazyInit s) = itemsOf s
  /\ filteredOf (lazyInit s) = filteredOf s
  /\ pageOf (lazyInit s)
     = match sessionStorage s !! KEY_PAGE with
       | Some savedPage =>
           match parseInt savedPage with
           | Some page =>
               if nonEmpty savedPage && (0 <? page)
               then setCurrentPage page (pageOf s) else pageOf s
           | None => pageOf s
           end
       | None => pageOf s
       end
  /\ initialized (lazyInit s) = true
  /\ sessionStorage (lazyInit s) = sessionStorage s.
Proof.
  intros Hwf Hi Hs Hn Hp.
  destruct (lazyInit_steps s Hwf Hi) as (_ & Hs1 & H). cbv zeta in H.
  assert (restoreFilters (restorePage (withInitialized true s)) = None) as E.
  { unfold restoreFilters. by rewrite Hs1, Hs, Hn, Hp. }
  rewrite E in H.
  assert (wf (withInitialized true s) = true) as Hwf0 by exact Hwf.
  destruct (restorePage_spec _ Hwf0) as (_ & _ & _ & Hf & _ & Hc & Hpg).
  destruct (restorePage_records _ Hwf0) as (Hst & Hit & Hfi).
  split; [by rewrite H|]. split; [by rewrite H|]. split; [by rewrite H|].
  split; [by rewrite H|]. split; [by rewrite H|]. split; [by rewrite H|].
  split; [apply initialized_lazyInit|]. by rewrite H.
Qed.
End InitialisationTheorems.

Lemma lazyInit_restores_page_witness :
  currentPage (pageOf (lazyInit (RT := Ascii_runtime.runtime) storeWithSession)) = 3.
Proof.
  rewrite (lazyInit_restores_page (RT := Ascii_runtime.runtime) storeWithSession);
    vm_compute; reflexivity.
Defined.

Lemma lazyInit_corrupt_filters_witness :
  searchQuery (state (lazyInit (RT := Ascii_runtime.runtime) storeWithSession)) = ""
  /\ currentPage (pageOf (lazyInit (RT := Ascii_runtime.runtime) storeWithSession)) = 3.
Proof.
  destruct (lazyInit_corrupt_filters (RT := Ascii_runtime.runtime) storeWithSession "{")
    as (Hst & _ & _ & _ & _ & Hp & _); try (vm_compute; reflexivity).
  split; [by rewrite Hst | rewrite Hp; vm_compute; reflexivity].
Defined.

(** ** Subscription *)

Lemma withListeners_same (s : Store) : withListeners (listeners s) s = s.
Proof. by destruct s. Qed.

Lemma filter_ne_absent (l : listener) (ls : list listener) :
  l ∉ ls -> filter (fun x => x <> l) ls = ls.
Proof.
  induction ls as [|x r IH]; [done|]. intros Hn.
  apply not_elem_of_cons in Hn as [Hx Hr].
  rewrite filter_cons. destruct (decide (x <> l)) as [_|Hd]; [by rewrite IH|].
  destruct Hd. congruence.
Qed.

Section SubscriptionTheorems.
Context `{RT : JSRuntime}.

(** X4. The listeners form a set: [subscribe] registers a listener that
    is not registered yet and keeps the others; a listener that is already
    registered is not registered twice, but it is handed the current state
    again.  [subscribe] delivers to the new listener only. *)
Theorem subscribe_registers_once (l : listener) (s : Store) :
  wf s = true -> NoDup (listeners s) ->
  NoDup (listeners (subscribe l s))
  /\ l ∈ listeners (subscribe l s)
  /\ (forall l', l' ∈ listeners (subscribe l s) <-> l' = l \/ l' ∈ listeners s)
  /\ (l ∈ listeners s -> listeners (subscribe l s) = listeners s)
  /\ trace (subscribe l s)
     = trace s ++ [EvInitial l (state (lazyInit s))
                             (viewOf (heap (lazyInit s)) (state (lazyInit s)))].
Proof.
  intros Hwf Hnd. rewrite subscribe_eq.
  destruct (lazyInit_control s) as (Hl & _ & _ & _ & Ht).
  cbn [listeners trace emit withListeners]. rewrite Hl, Ht.
  unfold setAdd. case_bool_decide as Hin.
  - split; [done|]. split; [done|]. split; [|done].
    intros l'. split; [by right | by intros [->|?]].
  - split; [|split; [|split; [|done]]].
    + apply NoDup_app. repeat split; [done | | apply NoDup_singleton].
      intros x Hx Hx'. apply list_elem_of_singleton in Hx'. by subst.
    + apply elem_of_app. right. by apply list_elem_of_singleton.
    + intros l'. rewrite elem_of_app, list_elem_of_singleton. tauto.
Qed.

(** X5. The disposer returned by [subscribe] removes the listener and no
    other: the next notification is delivered to the remaining listeners, in
    their order, and not to the removed one.  Disposing of a listener that
    is not registered changes nothing. *)
Theorem unsubscribe_stops_delivery (l : listener) (s : Store) :
  wf s = true -> isBatching s = false ->
  (l ∉ listeners (unsubscribe l s))
  /\ (forall l', l' ∈ listeners (unsubscribe l s) <-> l' <> l /\ l' ∈ listeners s)
  /\ (l ∉ listeners s -> unsubscribe l s = s)
  /\ exists snapshot content,
       trace (notify (unsubscribe l s))
       = trace s ++ [EvNotify snapshot content (filter (fun x => x <> l) (listeners s))].
Proof.
  intros Hwf Hb. unfold unsubscribe. cbn [listeners withListeners].
  split; [|split; [|split]].
  - rewrite list_elem_of_filter. tauto.
  - intros l'. by rewrite list_elem_of_filter.
  - intros Hn.
    rewrite filter_ne_absent by done. apply withListeners_same.
  - destruct (notify_delivers
                (withListeners (filter (fun x => x <> l) (listeners s)) s))
      as (Ht & _); [exact Hwf | exact Hb |].
    do 2 eexists. exact Ht.
Qed.
End SubscriptionTheorems.

Lemma subscribe_registers_once_witness :
  listeners (subscribe (RT := Ascii_runtime.runtime) 7%nat
               (subscribe (RT := Ascii_runtime.runtime) 7%nat newStore))
  = listeners (subscribe (RT := Ascii_runtime.runtime) 7%nat newStore).
Proof.
  refine (proj1 (proj2 (proj2 (proj2
            (subscribe_registers_once (RT := Ascii_runtime.runtime) 7%nat
               (subscribe (RT := Ascii_runtime.runtime) 7%nat newStore) _ _)))) _).
  - vm_compute. reflexivity.
  - vm_compute. apply NoDup_singleton.
  - vm_compute. apply list_elem_of_singleton. reflexivity.
Defined.

Lemma unsubscribe_stops_delivery_witness :
  7%nat ∉ listeners (unsubscribe 7%nat
                       (subscribe (RT := Ascii_runtime.runtime) 7%nat newStore)).
Proof.
  refine (proj1 (unsubscribe_stops_delivery (RT := Ascii_runtime.runtime) 7%nat
                   (subscribe (RT := Ascii_runtime.runtime) 7%nat newStore) _ _));
    vm_compute; reflexivity.
Defined.

(** ** Notification *)




Section NotificationTheorems.
Context `{RT : JSRuntime}.

(** X6. Outside a batch, [notify] makes one call to the listeners
    registered at that moment; the snapshot it hands over shows the state
    of the store, the state itself is not changed, and the snapshot's
    [items] is the store's own array. *)
Theorem notify_delivers_state (s : Store) :
  wf s = true -> isBatching s = false ->
  exists snapshot,
    trace (notify s)
    = trace s ++ [EvNotify snapshot (viewOf (heap s) (state s)) (listeners s)]
    /\ viewOf (heap (notify s)) snapshot = viewOf (heap s) (state s)
    /\ state (notify s) = state s
    /\ viewOf (heap (notify s)) (state (notify s)) = viewOf (heap s) (state s)
    /\ items snapshot = items (state s)
    /\ listeners (notify s) = listeners s.
Proof.
  intros Hwf Hb. exists (snapshotRefs s).
  destruct (notify_delivers s Hwf Hb) as (Ht & Hv1 & Hv2 & _).
  split; [exact Ht|]. split; [exact Hv1|]. split; [apply notify_state|].
  split; [exact Hv2|]. split; [reflexivity | apply notify_listeners].
Qed.

End NotificationTheorems.

Lemma notify_delivers_state_witness :
  exists snapshot,
    trace (notify (RT := Ascii_runtime.runtime) demoStore)
    = trace demoStore
        ++ [EvNotify snapshot (viewOf (heap demoStore) (state demoStore))
                     (listeners demoStore)].
Proof.
  destruct (notify_delivers_state (RT := Ascii_runtime.runtime) demoStore)
    as (snapshot & Ht & _); [vm_compute; reflexivity | vm_compute; reflexivity |].
  exists snapshot. exact Ht.
Defined.


(** ** setItems *)

Lemma sameItems_eq `{RT : JSRuntime} (a b : list loc) : sameItems a b = true <-> a = b.
Proof.
  unfold sameItems. rewrite andb_true_iff, Nat.eqb_eq. split.
  - intros [Hlen Hall]. revert b Hlen Hall.
    induction a as [|x a IH]; intros [|y b] Hlen Hall; simpl in *; try done.
    apply andb_true_iff in Hall as [Hxy Hall]. apply Nat.eqb_eq in Hxy.
    f_equal; [done|]. apply IH; [lia | done].
  - intros <-. split; [done|]. induction a as [|x a IH]; simpl; [done|].
    by rewrite Nat.eqb_refl, IH.
Qed.

Section Ingestion.
Context `{RT : JSRuntime}.

(** The records behind the result of [items.map]. *)
Lemma processItems_view (rawItems : list loc) (s : Store) :
  validRefs (heap s) rawItems = true ->
  map (getItem (heap (processItems rawItems s).2)) (processItems rawItems s).1
  = map processItem (map (getItem (heap s)) rawItems).
Proof.
  revert s. induction rawItems as [|r rest IH]; intros s Hv; [done|].
  simpl in Hv. apply andb_true_iff in Hv as [Hr Hrest]. apply Nat.ltb_lt in Hr.
  simpl. unfold processItem at 1.
  destruct (truthy (getProp "_processed" (getItem (heap s) r))) eqn:Ht.
  - specialize (IH s Hrest).
    destruct (processItems_grows rest s) as (e & Hh & _).
    destruct (processItems rest s) as [ps s1]. cbn [fst snd] in *.
    simpl. rewrite IH, Hh. by rewrite getItem_alloc.
  - unfold alloc.
    set (s' := withHeap (heap s ++ [OItem (normalizeItem (getItem (heap s) r))]) s).
    assert (validRefs (heap s') rest = true) as Hrest'.
    { eapply validRefs_mono; [|exact Hrest]. simpl. rewrite length_app. lia. }
    specialize (IH s' Hrest').
    destruct (processItems_grows rest s') as (e & Hh & _).
    destruct (processItems rest s') as [ps s1]. cbn [fst snd] in *.
    simpl. rewrite IH, Hh. subst s'. cbn [heap withHeap]. f_equal.
    + rewrite <- app_assoc. cbn [app]. unfold getItem. by rewrite lookup_new.
    + by rewrite map_getItem_alloc.
Qed.

(** What [setItems] leaves in the state. *)
Lemma view_setItems (rawItems : list loc) (s : Store) :
  wf s = true -> validRefs (heap s) rawItems = true ->
  filtersOf (setItems rawItems s) = filtersOf s
  /\ searchQuery (state (setItems rawItems s)) = searchQuery (state s)
  /\ sortOf (setItems rawItems s) = sortOf s
  /\ itemsOf (setItems rawItems s) = map processItem (map (getItem (heap s)) rawItems)
  /\ (if callNotifies (CSetItems rawItems) s
      then filteredOf (setItems rawItems s)
           = selectItems (filtersOf s) (searchQuery (state s)) (sortOf s)
                         (itemsOf (setItems rawItems s))
           /\ pageOf (setItems rawItems s)
              = setTotalItems (Z.of_nat (length (filteredOf (setItems rawItems s))))
                              (pageOf s)
      else filteredOf (setItems rawItems s) = filteredOf s
           /\ pageOf (setItems rawItems s) = pageOf s
           /\ trace (setItems rawItems s) = trace s).
Proof.
  intros Hwf Hraw.
  destruct (criteria_setItems rawItems s Hwf) as (Hf & Hq & Hc).
  split; [exact Hf|]. split; [exact Hq|]. split; [exact Hc|].
  rewrite setItems_eq. cbv zeta. cbn [callNotifies].
  pose proof (processItems_view rawItems s Hraw) as Hview.
  destruct (processItems_grows rawItems s)
    as (e & Hh & Hs & _ & _ & _ & Ht & _ & _ & Hv).
  destruct (processItems rawItems s) as [ps s1]. cbn [fst snd] in *.
  pose proof (wf_grow s s1 e Hs Hh Hwf) as Hwf1.
  destruct (obs_grow s s1 e Hs Hh Hwf) as (Hf1 & Hc1 & Hp1 & _).
  destruct (records_grow s s1 e Hs Hh Hwf) as (Hi1 & Hr1).
  destruct (sameItems ps (getArr (heap s1) (items (state s1)))) eqn:Hsame;
    cbn [negb].
  - apply sameItems_eq in Hsame.
    split; [|by rewrite Hr1, Hp1, Ht].
    unfold itemsOf. by rewrite <- Hsame.
  - rewrite <- Hh in Hv.
    destruct (view_rebind_items s1 ps Hwf1 Hv) as (Hwf2 & Hf2 & Hq2 & Hc2 & Hi2 & Hp2).
    destruct (view_applyFilters _ Hwf2) as (Hf3 & Hq3 & Hc3 & Hi3 & Hr3 & Hp3).
    rewrite Hp3, Hr3, Hi3, Hf2, Hq2, Hc2, Hi2, Hp2, Hf1, Hc1, Hp1, Hs, Hview. done.
Qed.
End Ingestion.

(** ** Delivery outside a batch *)

Section Delivery.
Context `{RT : JSRuntime}.

Lemma control_recomputed (s : Store) :
  listeners (recomputed s) = listeners s /\ isBatching (recomputed s) = isBatching s
  /\ pendingNotify (recomputed s) = pendingNotify s /\ trace (recomputed s) = trace s.
Proof. by repeat split. Qed.

Lemma control_resetPage (flag : bool) (s : Store) :
  listeners (resetPage flag s) = listeners s
  /\ isBatching (resetPage flag s) = isBatching s
  /\ pendingNotify (resetPage flag s) = pendingNotify s
  /\ trace (resetPage flag s) = trace s.
Proof. destruct flag; by repeat split. Qed.

Lemma control_withSession (m : gmap string string) (s : Store) :
  listeners (withSession m s) = listeners s
  /\ isBatching (withSession m s) = isBatching s
  /\ pendingNotify (withSession m s) = pendingNotify s
  /\ trace (withSession m s) = trace s
  /\ heap (withSession m s) = heap s.
Proof. by repeat split. Qed.

Lemma listeners_withSession (m : gmap string string) (s : Store) :
  listeners (withSession m s) = listeners s.
Proof. reflexivity. Qed.

Lemma isBatching_withSession (m : gmap string string) (s : Store) :
  isBatching (withSession m s) = isBatching s.
Proof. reflexivity. Qed.

Lemma pendingNotify_withSession (m : gmap string string) (s : Store) :
  pendingNotify (withSession m s) = pendingNotify s.
Proof. reflexivity. Qed.

Lemma trace_withSession (m : gmap string string) (s : Store) :
  trace (withSession m s) = trace s.
Proof. reflexivity. Qed.

Lemma heap_withSession (m : gmap string string) (s : Store) :
  heap (withSession m s) = heap s.
Proof. reflexivity. Qed.

(** What a notification adds to the calls made to observers: nothing
    inside a batch but the request, one delivery of the state outside. *)
Lemma notify_step (s : Store) :
  wf s = true -> isBatching s = false ->
  trace (notify s)
  = trace s ++ [EvNotify (snapshotRefs s)
                         (viewOf (heap (notify s)) (state (notify s))) (listeners s)]
  /\ isBatching (notify s) = false /\ listeners (notify s) = listeners s
  /\ pendingNotify (notify s) = pendingNotify s.
Proof.
  intros Hwf Hb. destruct (notify_delivers s Hwf Hb) as (Ht & _ & Hv & Hb' & Hp).
  rewrite Hv. split; [exact Ht|]. split; [exact Hb'|].
  split; [apply notify_listeners | exact Hp].
Qed.

(** A notification from a store that has the listeners and the calls of
    [s]. *)
Lemma notify_from (s s3 : Store) :
  wf s3 = true -> isBatching s3 = false ->
  listeners s3 = listeners s -> trace s3 = trace s ->
  pendingNotify s3 = pendingNotify s ->
  exists snapshot,
    trace (notify s3)
    = trace s ++ [EvNotify snapshot (viewOf (heap (notify s3)) (state (notify s3)))
                           (listeners s)]
    /\ isBatching (notify s3) = false /\ listeners (notify s3) = listeners s
    /\ pendingNotify (notify s3) = pendingNotify s.
Proof.
  intros Hwf3 Hb3 Hl3 Ht3 Hp3.
  destruct (notify_step s3 Hwf3 Hb3) as (Ht' & Hb' & Hl' & Hp').
  eexists. rewrite Ht', Hb', Hl', Hp', Hl3, Ht3, Hp3. done.
Qed.

Lemma applyFilters_step (s : Store) :
  wf s = true -> isBatching s = false ->
  trace (applyFilters s)
  = trace s ++ [EvNotify (snapshotRefs (recomputed s))
                         (viewOf (heap (applyFilters s)) (state (applyFilters s)))
                         (listeners s)]
  /\ isBatching (applyFilters s) = false /\ listeners (applyFilters s) = listeners s
  /\ pendingNotify (applyFilters s) = pendingNotify s.
Proof.
  intros Hwf Hb. rewrite applyFilters_eq.
  destruct (control_recomputed s) as (Hl & Hb' & Hp & Ht).
  destruct (notify_step (recomputed s)) as (Ht1 & Hb1 & Hl1 & Hp1);
    [by apply wf_recomputed | by rewrite Hb' |].
  rewrite Ht1, Hb1, Hl1, Hp1, Hl, Ht, Hp. done.
Qed.

Lemma recompute_step (flag : bool) (s : Store) :
  wf s = true -> isBatching s = false ->
  exists snapshot,
    trace (applyFilters (resetPage flag s))
    = trace s ++ [EvNotify snapshot
                    (viewOf (heap (applyFilters (resetPage flag s)))
                            (state (applyFilters (resetPage flag s))))
                    (listeners s)]
    /\ isBatching (applyFilters (resetPage flag s)) = false
    /\ listeners (applyFilters (resetPage flag s)) = listeners s
    /\ pendingNotify (applyFilters (resetPage flag s)) = pendingNotify s.
Proof.
  intros Hwf Hb.
  destruct (control_resetPage flag s) as (Hl & Hb' & Hp & Ht).
  destruct (applyFilters_step (resetPage flag s)) as (Ht1 & Hb1 & Hl1 & Hp1);
    [by apply wf_resetPage | by rewrite Hb' |].
  eexists. rewrite Ht1, Hb1, Hl1, Hp1, Hl, Ht, Hp. done.
Qed.

(** A store call that reaches [notify] outside a batch: one delivery, of
    the state the call leaves, to the listeners registered. *)
Lemma call_step (c : Call) (s : Store) :
  wf s = true -> isBatching s = false -> callNotifies c s = true ->
  exists snapshot,
    trace (call c s)
    = trace s ++ [EvNotify snapshot (viewOf (heap (call c s)) (state (call c s)))
                           (listeners s)]
    /\ isBatching (call c s) = false /\ listeners (call c s) = listeners s
    /\ pendingNotify (call c s) = pendingNotify s.
Proof.
  intros Hwf Hb Hn. destruct c; cbn [call].
  - cbn [callNotifies] in Hn. rewrite setItems_eq. cbv zeta.
    destruct (processItems_grows rawItems s)
      as (e & Hh & Hs & Hb1 & Hp1 & Hl1 & Ht1 & _ & _ & Hv).
    destruct (processItems rawItems s) as [ps s1]. cbn [fst snd] in *.
    apply negb_true_iff in Hn. rewrite Hn.
    pose proof (wf_grow s s1 e Hs Hh Hwf) as Hwf1. rewrite <- Hh in Hv.
    destruct (view_rebind_items s1 ps Hwf1 Hv) as (Hwf2 & _).
    destruct (applyFilters_step _ Hwf2) as (Ht3 & Hb3 & Hl3 & Hp3);
      [exact (eq_trans Hb1 Hb)|].
    eexists. rewrite Ht3, Hb3, Hl3, Hp3.
    cbn [trace listeners pendingNotify withState withHeap].
    by rewrite Ht1, Hl1, Hp1.
  - unfold setFilter. cbv zeta.
    set (m := if isNullish v || isEmptyArray v then _ else _).
    assert ((if isNullish v || isEmptyArray v
             then mutate (activeFilters (state s))
                    (OMap (assocDelete key (getMap (heap s) (activeFilters (state s))))) s
             else mutate (activeFilters (state s))
                    (OMap (assocSet key v (getMap (heap s) (activeFilters (state s))))) s)
            = mutate (activeFilters (state s))
                (OMap (if isNullish v || isEmptyArray v
                       then assocDelete key (getMap (heap s) (activeFilters (state s)))
                       else assocSet key v (getMap (heap s) (activeFilters (state s)))))
                s) as E
      by (by destruct (isNullish v || isEmptyArray v)).
    subst m. rewrite E.
    apply (recompute_step preventPageReset (mutate _ _ s));
      [by apply wf_mutate_filters | exact Hb].
  - unfold removeFilter. cbv zeta.
    apply (recompute_step preventPageReset (mutate _ _ s));
      [by apply wf_mutate_filters | exact Hb].
  - unfold setSearch. cbv zeta.
    apply (recompute_step preventPageReset (withState _ s));
      [by rewrite wf_setSearchQuery | exact Hb].
  - rewrite setSort_eq.
    apply (recompute_step false
             (withState (setSortConfig (length (heap s)) (state s))
                (withHeap (heap s ++ [OSort {| field := f; direction := d; type := t |}])
                          s)));
      [by apply wf_rebind_sort | exact Hb].
  - rewrite resetFilters_eq.
    destruct (view_cleared s Hwf) as (Hwf4 & _).
    destruct (recompute_step false _ Hwf4 Hb) as (snap & Ht & Hb' & Hl & Hp).
    exists snap.
    rewrite trace_withSession, heap_withSession, state_withSession,
      isBatching_withSession, listeners_withSession, pendingNotify_withSession.
    done.
  - rewrite setPagination_eq. cbv zeta.
    pose proof (wf_rebind_pagination s (applyPatch config (pageOf s)) Hwf) as Hwf2.
    set (s2 := withState (setPaginationRef (length (heap s)) (state s))
                 (withHeap (heap s ++ [OPag (applyPatch config (pageOf s))]) s)) in *.
    destruct (pCurrentPage config) as [page|]; [|by apply (notify_from s)].
    destruct (negb (page =? 0) && persistPage (applyPatch config (pageOf s)));
      [|by apply (notify_from s)].
    unfold updateStoragePage. apply (notify_from s); first [done | by rewrite wf_withSession].
  - rewrite setPage_eq by done.
    destruct (view_mutate_pagination s (setCurrentPage page (pageOf s)) Hwf)
      as (Hwf1 & _).
    destruct (persistPage (setCurrentPage page (pageOf s))); [|by apply (notify_from s)].
    unfold updateStoragePage. apply (notify_from s); first [done | by rewrite wf_withSession].
Qed.
End Delivery.

Section DeliveryTheorems.
Context `{RT : JSRuntime}.

(** X8. Outside a batch every store call that reaches [notify] makes
    exactly one delivery, to the listeners registered at the call, and the
    snapshot shows the state the call leaves behind. *)
Theorem call_delivers_once (c : Call) (s : Store) :
  wf s = true -> isBatching s = false -> callNotifies c s = true ->
  exists snapshot,
    trace (call c s)
    = trace s ++ [EvNotify snapshot (viewOf (heap (call c s)) (state (call c s)))
                           (listeners s)]
    /\ length (notifications (trace (call c s)))
       = S (length (notifications (trace s)))
    /\ listeners (call c s) = listeners s.
Proof.
  intros Hwf Hb Hn.
  destruct (call_step c s Hwf Hb Hn) as (snap & Ht & _ & Hl & _).
  exists snap. split; [exact Ht|]. split; [|exact Hl].
  rewrite Ht, notifications_app, length_app. cbn. lia.
Qed.

(** X9. [batch] is not re-entrant: when a function running inside a batch
    calls [batch] itself, the inner [batch] clears the flag on its way out
    and flushes the pending request.  If a request was pending when the
    inner batch started, or the inner function raised one, it is delivered
    when the inner batch returns, to the listeners, with the state the inner
    function left; otherwise nothing is delivered.  Either way the store is
    no longer batching while the outer function is still running, and the
    next store call of the outer function is delivered at once. *)
Theorem nested_batch_ends_suppression (body : Prog) (c : Call) (s : Store) :
  wf s = true -> flat body = true -> isBatching s = true ->
  let s1 := (run body (withIsBatching true s)).1 in
  let s' := (batch (run body) s).1 in
  let n := requests body (withIsBatching true s) in
  isBatching s' = false /\ pendingNotify s' = false
  /\ (pendingNotify s = true \/ (0 < n)%nat ->
      exists snapshot,
        trace s'
        = trace s ++ replicate n EvDeferred
            ++ [EvNotify snapshot (viewOf (heap s1) (state s1)) (listeners s)]
        /\ viewOf (heap s') snapshot = viewOf (heap s1) (state s1)
        /\ viewOf (heap s') (state s') = viewOf (heap s1) (state s1))
  /\ (pendingNotify s = false -> n = 0%nat -> trace s' = trace s)
  /\ (callNotifies c s' = true ->
      exists snapshot content,
        trace (call c s') = trace s' ++ [EvNotify snapshot content (listeners s)]).
Proof.
  intros Hwf Hflat Hb. cbv zeta.
  destruct (run_flat_batching body (withIsBatching true s) Hflat eq_refl Hwf)
    as (_ & Hl1 & Ht1 & Hp1 & Hwf1).
  cbn [listeners trace pendingNotify withIsBatching] in Hl1, Ht1, Hp1.
  destruct (run body (withIsBatching true s)) as [s1 r] eqn:Hrun.
  rewrite (batch_finally _ _ _ _ Hrun). cbn [fst snd] in *.
  assert (wf (withPendingNotify false (withIsBatching false s1)) = true) as Hwf2
    by exact Hwf1.
  assert (wf (withIsBatching false s1) = true) as Hwf3 by exact Hwf1.
  destruct (pendingNotify s1) eqn:Hp.
  - destruct (notify_delivers _ Hwf2 eq_refl) as (Ht & Hv1 & Hv2 & Hb' & Hp').
    pose proof (notify_listeners (withPendingNotify false (withIsBatching false s1)))
      as Hl'.
    cbn [heap state listeners trace isBatching pendingNotify
         withPendingNotify withIsBatching] in Ht, Hv1, Hv2, Hp', Hl'.
    split; [exact Hb'|]. split; [exact Hp'|]. split; [|split].
    + intros _. eexists. rewrite Ht, Ht1, Hl1, <- app_assoc. by split.
    + intros Hps Hn. rewrite Hps, Hn in Hp1. discriminate.
    + intros Hn.
      destruct (call_step c _ (wf_notify _ Hwf2) Hb' Hn) as (snap & Htc & _).
      do 2 eexists. rewrite Htc, Hl', Hl1. reflexivity.
  - cbn [isBatching pendingNotify trace withIsBatching].
    split; [reflexivity|]. split; [exact Hp|]. split; [|split].
    + symmetry in Hp1. apply orb_false_iff in Hp1 as [Hps Hn].
      apply Nat.ltb_ge in Hn. intros [?|?]; [congruence | lia].
    + intros _ Hn. rewrite Ht1, Hn. cbn [replicate]. by rewrite app_nil_r.
    + intros Hn.
      destruct (call_step c _ Hwf3 eq_refl Hn) as (snap & Htc & _).
      do 2 eexists. rewrite Htc. cbn [listeners withIsBatching]. by rewrite Hl1.
Qed.

Lemma notify_session (s : Store) :
  wf s = true -> isBatching s = false ->
  (forall k v, setItemThrows k v = false) ->
  sessionStorage (notify s) !! KEY_FILTERS = Some (jsonOfFilters (filtersOf s))
  /\ sessionStorage (notify s) !! KEY_SEARCH = Some (searchQuery (state s))
  /\ sessionStorage (notify s) !! KEY_SORT = Some (jsonOfSort (sortOf s))
  /\ sessionStorage (notify s) !! KEY_PAGE
     = if persistPage (pageOf s)
       then Some (numberToString (inject_Z (currentPage (pageOf s))))
       else sessionStorage s !! KEY_PAGE.
Proof.
  intros Hwf Hb Hok. rewrite notify_idle by done.
  apply wf_spec in Hwf as (Hf & Hc & _ & _ & Hp & _).
  pose proof (hasKind_valid _ _ _ Hf). pose proof (hasKind_valid _ _ _ Hc).
  pose proof (hasKind_valid _ _ _ Hp).
  cbn [sessionStorage emit]. unfold persist. cbn [sessionStorage withSession].
  cbn [heap state withHeap].
  rewrite getMap_alloc, getSort_alloc, getPag_alloc by done.
  fold (filtersOf s) (sortOf s) (pageOf s).
  destruct (persistPage (pageOf s)); cbn [app tryWrites]; rewrite !Hok;
    rewrite !lookup_insert; repeat case_decide; done.
Qed.

(** X10. Before it calls the listeners, [notify] saves the criteria in
    the session: when no write fails, the session holds the serialised
    active filters, the search query and the serialised sort configuration;
    the current page is saved only if [persistPage] is set, and is left as
    it was otherwise. *)
Theorem notify_persists_criteria (s : Store) :
  wf s = true -> isBatching s = false ->
  (forall k v, setItemThrows k v = false) ->
  sessionStorage (notify s) !! KEY_FILTERS = Some (jsonOfFilters (filtersOf s))
  /\ sessionStorage (notify s) !! KEY_SEARCH = Some (searchQuery (state s))
  /\ sessionStorage (notify s) !! KEY_SORT = Some (jsonOfSort (sortOf s))
  /\ sessionStorage (notify s) !! KEY_PAGE
     = if persistPage (pageOf s)
       then Some (numberToString (inject_Z (currentPage (pageOf s))))
       else sessionStorage s !! KEY_PAGE.
Proof. exact (notify_session s). Qed.

(** X11. A session storage that refuses the first write stops the saving
    and nothing else: the session is left as it was (the search and the
    sort are not saved either), and the listeners are called all the
    same. *)
Theorem notify_survives_full_storage (s : Store) :
  wf s = true -> isBatching s = false ->
  setItemThrows KEY_FILTERS (jsonOfFilters (filtersOf s)) = true ->
  sessionStorage (notify s) = sessionStorage s
  /\ exists snapshot,
       trace (notify s)
       = trace s ++ [EvNotify snapshot (viewOf (heap s) (state s)) (listeners s)].
Proof.
  intros Hwf Hb Hfull.
  destruct (notify_delivers s Hwf Hb) as (Ht & _).
  split; [|by eexists].
  rewrite notify_idle by done.
  apply wf_spec in Hwf as (Hf & _).
  pose proof (hasKind_valid _ _ _ Hf).
  cbn [sessionStorage emit]. unfold persist. cbn [sessionStorage withSession].
  cbn [heap state withHeap app tryWrites].
  rewrite getMap_alloc by done. fold (filtersOf s). by rewrite Hfull.
Qed.
End DeliveryTheorems.

Lemma call_delivers_once_witness :
  length (notifications
            (trace (call (RT := Ascii_runtime.runtime) (CSetPage 2) demoStore)))
  = S (length (notifications (trace demoStore))).
Proof.
  destruct (call_delivers_once (RT := Ascii_runtime.runtime) (CSetPage 2) demoStore)
    as (snapshot & _ & Hn & _);
    [vm_compute; reflexivity | vm_compute; reflexivity | vm_compute; reflexivity |].
  exact Hn.
Defined.

(** One more notification after a run of deferred requests. *)
Lemma notifications_flushed (tr tr' : list event) (n : nat) (e : event) :
  isNotify e = true -> tr' = tr ++ replicate n EvDeferred ++ [e] ->
  length (notifications tr') = S (length (notifications tr)).
Proof.
  intros He ->. rewrite !notifications_app, notifications_deferred, !length_app.
  unfold notifications at 2. cbn [List.filter]. rewrite He. cbn [length]. lia.
Qed.

Lemma nested_batch_ends_suppression_witness :
  isBatching (batch (RT := Ascii_runtime.runtime) (run (RT := Ascii_runtime.runtime)
                (PCall (CSetSearch "b" false) PDone))
                (withIsBatching true demoStore)).1 = false
  /\ length (notifications
               (trace (batch (RT := Ascii_runtime.runtime)
                         (run (RT := Ascii_runtime.runtime)
                            (PCall (CSetSearch "b" false) PDone))
                         (withIsBatching true demoStore)).1))
     = S (length (notifications (trace (withIsBatching true demoStore)))).
Proof.
  destruct (nested_batch_ends_suppression (RT := Ascii_runtime.runtime)
              (PCall (CSetSearch "b" false) PDone) (CSetSearch "c" false)
              (withIsBatching true demoStore))
    as (Hb & _ & Hd & _);
    [vm_compute; reflexivity | reflexivity | reflexivity |].
  split; [exact Hb|].
  destruct Hd as (snapshot & Ht & _); [right; vm_compute; lia|].
  refine (notifications_flushed _ _ _ _ _ Ht). reflexivity.
Defined.

Lemma notify_persists_criteria_witness :
  sessionStorage (notify (RT := Ascii_runtime.runtime) demoStore) !! KEY_SEARCH
  = Some (searchQuery (state demoStore)).
Proof.
  refine (proj1 (proj2 (notify_persists_criteria (RT := Ascii_runtime.runtime)
                          demoStore _ _ _))).
  - vm_compute. reflexivity.
  - vm_compute. reflexivity.
  - intros k v. reflexivity.
Defined.

Lemma notify_survives_full_storage_witness :
  sessionStorage (notify (RT := Full_storage.runtime) demoStore)
  = sessionStorage demoStore.
Proof.
  refine (proj1 (notify_survives_full_storage (RT := Full_storage.runtime)
                   demoStore _ _ _)).
  - vm_compute. reflexivity.
  - vm_compute. reflexivity.
  - reflexivity.
Defined.

(** ** Selection and order of the filtered items *)

Lemma insertBy_perm {A : Type} (cmp : A -> A -> Q) (x : A) (l : list A) :
  insertBy cmp x l ≡ₚ x :: l.
Proof.
  induction l as [|y r IH]; simpl; [done|].
  destruct (Qle_bool (cmp x y) 0); [done|].
  rewrite IH. apply Permutation_swap.
Qed.

Lemma sortBy_perm {A : Type} (cmp : A -> A -> Q) (l : list A) : sortBy cmp l ≡ₚ l.
Proof.
  unfold sortBy. induction l as [|x r IH]; simpl; [done|].
  rewrite insertBy_perm. by rewrite IH.
Qed.

Lemma elem_of_sortBy {A : Type} (cmp : A -> A -> Q) (x : A) (l : list A) :
  x ∈ sortBy cmp l <-> x ∈ l.
Proof. by rewrite sortBy_perm. Qed.

Lemma elem_of_List_filter {A : Type} (f : A -> bool) (x : A) (l : list A) :
  x ∈ List.filter f l <-> x ∈ l /\ f x = true.
Proof. rewrite !list_elem_of_In. apply filter_In. Qed.

(** Insertion keeps a list ordered by a key. *)
Lemma insertBy_sorted {A : Type} (key : A -> Q) (x : A) (l : list A) :
  StronglySorted (fun a b => (key a <= key b)%Q) l ->
  StronglySorted (fun a b => (key a <= key b)%Q)
                 (insertBy (fun a b => (key a - key b)%Q) x l).
Proof.
  induction 1 as [|y r Hr IH Hy]; simpl.
  - repeat constructor.
  - destruct (Qle_bool (key x - key y) 0) eqn:E.
    + apply Qle_bool_iff in E.
      assert (key x <= key y)%Q as Hxy by lra.
      constructor; [by constructor|].
      constructor; [done|].
      eapply Forall_impl; [exact Hy|]. intros z Hz. simpl in Hz. lra.
    + assert (key y <= key x)%Q as Hyx.
      { destruct (Qlt_le_dec (key x) (key y)) as [Hlt|Hle]; [|done].
        assert (Qle_bool (key x - key y) 0 = true) as E'; [|congruence].
        apply Qle_bool_iff. lra. }
      constructor; [done|].
      assert (Forall (fun b => (key y <= key b)%Q) (x :: r)) as Hall
        by (by constructor).
      eapply Permutation_Forall; [|exact Hall]. symmetry. apply insertBy_perm.
Qed.

Lemma sortBy_sorted {A : Type} (key : A -> Q) (l : list A) :
  StronglySorted (fun a b => (key a <= key b)%Q)
                 (sortBy (fun a b => (key a - key b)%Q) l).
Proof.
  unfold sortBy. induction l as [|x r IH]; simpl; [constructor|].
  by apply insertBy_sorted.
Qed.

Lemma sortBy_ext {A : Type} (cmp cmp' : A -> A -> Q) (l : list A) :
  (forall a b, cmp a b = cmp' a b) -> sortBy cmp l = sortBy cmp' l.
Proof.
  intros H. unfold sortBy. induction l as [|x r IH]; simpl; [done|].
  rewrite IH. generalize (foldr (insertBy cmp') [] r). intros t.
  induction t as [|y t IHt]; simpl; [done|]. by rewrite H, IHt.
Qed.

Section SelectionTheorems.
Context `{RT : JSRuntime}.

(** X12. The filtered items are the items that pass every active filter
    and contain every search term: an entry whose key starts with
    filter_multi_ is matched against the item's pre-split values, one whose
    key starts with filter_slider_ against the item's raw value, and an
    entry with any other key excludes nothing; the search is applied only
    when the query is not empty, term by term, on the item's search index.
    Sorting neither adds nor removes an item. *)
Theorem selected_items_pass_all (m : list (string * value)) (q : string)
        (cfg : SortConfig) (its : list (list (string * value)))
        (item : list (string * value)) :
  item ∈ selectItems m q cfg its
  <-> item ∈ its
      /\ (forall k v, (k, v) ∈ m ->
            if startsWith "filter_multi_" k
            then checkMultiMatch v (getProp (stripKind k) (multiIndexOf item)) = true
            else if startsWith "filter_slider_" k
                 then exists r, asRange v = Some r
                                /\ checkSliderMatch r (getProp (stripKind k) item) = true
                 else True)
      /\ (nonEmpty q = true ->
          forall term, term ∈ splitOn " "%char (normalizeText q) ->
                       nonEmpty term = true ->
                       includes term (searchIndexOf item) = true).
Proof.
  unfold selectItems. cbv zeta. rewrite elem_of_sortBy, elem_of_List_filter.
  unfold itemPasses. rewrite andb_true_iff, forallb_forall.
  split.
  - intros (Hin & Hf & Hs). split; [done|]. split.
    + intros k v Hkv.
      specialize (Hf (mkFilter (k, v))). cbn [mkFilter isMulti isSlider layerName
        fValue fst snd] in Hf.
      assert (In (mkFilter (k, v)) (map mkFilter m)) as Hm
        by (apply in_map; by apply list_elem_of_In).
      specialize (Hf Hm). cbn [mkFilter isMulti isSlider layerName fValue fst snd] in Hf.
      destruct (startsWith "filter_multi_" k); [done|].
      destruct (startsWith "filter_slider_" k); [|done].
      destruct (asRange v) as [r|]; [by exists r | done].
    + intros Hq term Hterm Hne. rewrite Hq in Hs.
      rewrite forallb_forall in Hs. apply Hs.
      apply filter_In. split; [by apply list_elem_of_In | done].
  - intros (Hin & Hf & Hs). split; [done|]. split.
    + intros f Hfm. apply in_map_iff in Hfm as ([k v] & <- & Hkv).
      apply list_elem_of_In in Hkv. specialize (Hf k v Hkv).
      cbn [mkFilter isMulti isSlider layerName fValue fst snd].
      destruct (startsWith "filter_multi_" k); [done|].
      destruct (startsWith "filter_slider_" k); [|done].
      destruct Hf as (r & -> & Hr). done.
    + destruct (nonEmpty q) eqn:Hq; [|done].
      apply forallb_forall. intros term Hterm. apply filter_In in Hterm as [Ht Hne].
      apply Hs; [done | by apply list_elem_of_In | done].
Qed.

Lemma selectItems_index_sorted (m : list (string * value)) (q : string)
      (cfg : SortConfig) (its : list (list (string * value))) :
  field cfg = None \/ field cfg = Some "" ->
  StronglySorted (fun a b => (indexOf a <= indexOf b)%Q) (selectItems m q cfg its).
Proof.
  intros Hf. unfold selectItems. cbv zeta.
  rewrite (sortBy_ext _ (fun a b => (indexOf a - indexOf b)%Q)).
  - apply sortBy_sorted.
  - intros a b. unfold itemCompare. by destruct Hf as [-> | ->].
Qed.

Lemma selectItems_no_criteria (cfg : SortConfig) (its : list (list (string * value))) :
  selectItems [] "" cfg its ≡ₚ its.
Proof.
  unfold selectItems. cbv zeta. rewrite sortBy_perm. cbn.
  induction its as [|x r IH]; [done|]. cbn. by f_equiv.
Qed.

(** X13. Without a sort field (none, or the empty string) the filtered
    items come out in ascending order of their [_index], an item without
    one counting as 0; the direction and the type of the sort
    configuration are not looked at. *)
Theorem unsorted_items_follow_index (m : list (string * value)) (q : string)
        (cfg : SortConfig) (its : list (list (string * value))) :
  field cfg = None \/ field cfg = Some "" ->
  StronglySorted (fun a b => (indexOf a <= indexOf b)%Q) (selectItems m q cfg its)
  /\ selectItems m q cfg its = selectItems m q defaultSort its.
Proof.
  intros Hf. split; [by apply selectItems_index_sorted|].
  unfold selectItems. cbv zeta. apply sortBy_ext.
  intros a b. unfold itemCompare. by destruct Hf as [-> | ->].
Qed.

(** X14. After [resetFilters] every item is shown: the filtered items are
    the items of the store, reordered by [_index], and [totalItems] is the
    number of items. *)
Theorem resetFilters_shows_all (s : Store) :
  wf s = true ->
  filteredOf (resetFilters s) ≡ₚ itemsOf s
  /\ itemsOf (resetFilters s) = itemsOf s
  /\ StronglySorted (fun a b => (indexOf a <= indexOf b)%Q) (filteredOf (resetFilters s))
  /\ totalItems (pageOf (resetFilters s)) = Z.of_nat (length (itemsOf s)).
Proof.
  intros Hwf.
  destruct (view_resetFilters s Hwf) as (_ & _ & _ & Hi & Hr & Hp).
  pose proof (selectItems_no_criteria defaultSort (itemsOf s)) as Hperm.
  rewrite Hp, Hr. split; [exact Hperm|]. split; [exact Hi|]. split.
  - apply selectItems_index_sorted. by left.
  - cbn [totalItems setTotalItems]. by rewrite Hperm.
Qed.
End SelectionTheorems.

Lemma unsorted_items_follow_index_witness :
  StronglySorted (fun a b => (indexOf a <= indexOf b)%Q)
    (selectItems (RT := Ascii_runtime.runtime) [] ""
       {| field := Some ""; direction := Desc; type := TNumber |}
       [[("_index", VNum 2)]; [("_index", VNum 1)]]).
Proof.
  refine (proj1 (unsorted_items_follow_index (RT := Ascii_runtime.runtime) [] ""
                   {| field := Some ""; direction := Desc; type := TNumber |}
                   [[("_index", VNum 2)]; [("_index", VNum 1)]] _)).
  right. reflexivity.
Defined.

Lemma resetFilters_shows_all_witness :
  totalItems (pageOf (resetFilters (RT := Ascii_runtime.runtime) demoStore))
  = Z.of_nat (length (itemsOf demoStore)).
Proof.
  refine (proj2 (proj2 (proj2 (resetFilters_shows_all (RT := Ascii_runtime.runtime)
                                 demoStore _)))).
  vm_compute. reflexivity.
Defined.

(** ** The mutators, one by one *)

Lemma startsWith_refl (s : string) : startsWith s s = true.
Proof.
  induction s as [|c r IH]; simpl; [done|].
  unfold ascii_eqb. by rewrite Nat.eqb_refl, IH.
Qed.

Lemma includes_refl (s : string) : includes s s = true.
Proof. destruct s; cbn [includes]; by rewrite startsWith_refl. Qed.

Lemma startsWith_app (t b : string) : startsWith t (t ++ b) = true.
Proof.
  induction t as [|c t IH]; simpl; [done|].
  unfold ascii_eqb. by rewrite Nat.eqb_refl, IH.
Qed.

Lemma includes_app (t a s : string) : includes t s = true -> includes t (a ++ s) = true.
Proof.
  intros H. induction a as [|c a IH]; [done|].
  simpl. by rewrite IH, orb_true_r.
Qed.

Lemma includes_prefix (t b : string) : includes t (t ++ b) = true.
Proof.
  pose proof (startsWith_app t b) as H.
  destruct (String.append t b); cbn [includes]; by rewrite H.
Qed.

Lemma includes_joinWith (sep x : string) (l : list string) :
  x ∈ l -> includes x (joinWith sep l) = true.
Proof.
  induction l as [|y r IH]; [by intros ?%elem_of_nil|].
  intros [->|Hr]%elem_of_cons.
  - destruct r as [|z r]; cbn [joinWith].
    + apply includes_refl.
    + apply includes_prefix.
  - destruct r as [|z r]; [by apply elem_of_nil in Hr|].
    change (joinWith sep (y :: z :: r))
      with (String.append y (String.append sep (joinWith sep (z :: r)))).
    apply includes_app, includes_app, IH, Hr.
Qed.

Section ItemRecords.
Context `{RT : JSRuntime}.

Lemma processed_normalizeItem (item : list (string * value)) :
  getProp "_processed" (normalizeItem item) = VBool true.
Proof.
  unfold normalizeItem, getProp.
  rewrite !assocGet_set_ne by discriminate. by rewrite assocGet_set_eq.
Qed.

Lemma processed_processItem (item : list (string * value)) :
  truthy (getProp "_processed" (processItem item)) = true.
Proof.
  unfold processItem. destruct (truthy (getProp "_processed" item)) eqn:E; [done|].
  by rewrite processed_normalizeItem.
Qed.

Lemma searchableText_eq (item : list (string * value)) :
  searchableText item
  = joinWith " "
      (omap (fun e => match snd e with
                      | VStr v => if startsWith "_" (fst e) then None
                                  else Some (normalizeText v)
                      | _ => None
                      end) item).
Proof.
  unfold searchableText. f_equal.
  induction item as [|[k v] r IH]; [done|].
  cbn [List.filter omap list_omap]. unfold isPlainString at 1. cbn [fst snd].
  destruct v, (startsWith "_" k); cbn [negb andb map fst snd toStr]; by rewrite ?IH.
Qed.

Lemma multiIndex_lookup (item acc : list (string * value)) (k : string) :
  NoDup (map fst item) ->
  assocGet k
    (fold_left
       (fun acc e =>
          match snd e with
          | VStr v =>
              if negb (startsWith "_" (fst e))
              then assocSet (fst e)
                     (VArr (map VStr (List.filter nonEmpty
                                        (map trim (splitOn ","%char (toLowerCase v))))))
                     acc
              else acc
          | _ => acc
          end) item acc)
  = match assocGet k item with
    | Some (VStr v) =>
        if startsWith "_" k then assocGet k acc
        else Some (VArr (map VStr (List.filter nonEmpty
                                     (map trim (splitOn ","%char (toLowerCase v))))))
    | _ => assocGet k acc
    end.
Proof.
  revert acc. induction item as [|[k' v'] r IH]; intros acc Hnd; [done|].
  apply NoDup_cons in Hnd as [Hk' Hnd]. cbn [fold_left fst snd assocGet].
  rewrite IH by done.
  destruct (String.eqb k k') eqn:E.
  - apply String.eqb_eq in E. subst k'.
    assert (assocGet k r = None) as ->.
    { clear -Hk'. induction r as [|[k0 v0] r IH]; [done|].
      cbn [assocGet]. cbn [map fst] in Hk'. apply not_elem_of_cons in Hk' as [Hne Hr].
      destruct (String.eqb k k0) eqn:E; [by apply String.eqb_eq in E|]. by apply IH. }
    destruct v'; try done.
    destruct (startsWith "_" k); cbn [negb]; [done|]. by rewrite assocGet_set_eq.
  - assert (k <> k') as Hne by (intros ->; by rewrite String.eqb_refl in E).
    assert (forall w, assocGet k
              (match v' with
               | VStr v => if negb (startsWith "_" k')
                           then assocSet k' (w v) acc else acc
               | _ => acc
               end) = assocGet k acc) as Hacc.
    { intros w. destruct v'; try done. destruct (negb _); [|done].
      by apply assocGet_set_ne. }
    destruct (assocGet k r) as [[]|]; try apply Hacc.
    destruct (startsWith "_" k); [apply Hacc | done].
Qed.
(** X15. Normalising an item adds the three underscore fields and changes
    no other field.  The item is marked processed.  Its search index is
    the normalised texts of its string fields whose key does not start with
    an underscore, in order, joined by spaces, so each of these texts occurs
    in it.  Its multi index holds, for each such field, the value lower-cased,
    split at the commas, each piece trimmed, the empty pieces dropped, and
    nothing for any other key.  An item that is already marked is returned
    as it is, so processing twice is processing once. *)
Theorem processItem_adds_indexes (item : list (string * value)) :
  truthy (getProp "_processed" (processItem item)) = true
  /\ processItem (processItem item) = processItem item
  /\ (truthy (getProp "_processed" item) = true -> processItem item = item)
  /\ (truthy (getProp "_processed" item) = false ->
      (exists index,
          getProp "_searchIndex" (processItem item) = VStr index
          /\ index
             = joinWith " "
                 (omap (fun e => match snd e with
                                 | VStr v => if startsWith "_" (fst e) then None
                                             else Some (normalizeText v)
                                 | _ => None
                                 end) item)
          /\ forall k v, (k, VStr v) ∈ item -> startsWith "_" k = false ->
                         includes (normalizeText v) index = true)
      /\ (exists entries,
             getProp "_multiIndex" (processItem item) = VObj entries
             /\ (NoDup (map fst item) ->
                 forall k,
                   assocGet k entries
                   = match assocGet k item with
                     | Some (VStr v) =>
                         if startsWith "_" k then None
                         else Some (VArr (map VStr
                                (List.filter nonEmpty
                                   (map trim (splitOn ","%char (toLowerCase v))))))
                     | _ => None
                     end))
      /\ forall k, k <> "_processed" -> k <> "_searchIndex" -> k <> "_multiIndex" ->
                   getProp k (processItem item) = getProp k item).
Proof.
  split; [apply processed_processItem|]. split; [|split].
  - unfold processItem at 1. by rewrite processed_processItem.
  - intros H. unfold processItem. by rewrite H.
  - intros H. unfold processItem. rewrite H. unfold normalizeItem, getProp.
    split; [|split].
    + exists (searchableText item). split; [|split].
      * rewrite assocGet_set_ne by discriminate. by rewrite assocGet_set_eq.
      * apply searchableText_eq.
      * intros k v Hin Hk. rewrite searchableText_eq.
        apply includes_joinWith, list_elem_of_omap.
        exists (k, VStr v). split; [exact Hin|]. cbn [fst snd]. by rewrite Hk.
    + exists (multiIndex item). split; [by rewrite assocGet_set_eq|].
      intros Hnd k. unfold multiIndex. rewrite multiIndex_lookup by done.
      cbn [assocGet]. by destruct (assocGet k item) as [[]|].
    + intros k H1 H2 H3. by rewrite !assocGet_set_ne.
Qed.

Lemma processItems_processed (rawItems : list loc) (s : Store) :
  Forall (fun r => truthy (getProp "_processed" (getItem (heap s) r)) = true) rawItems ->
  processItems rawItems s = (rawItems, s).
Proof.
  induction 1 as [|r rest Hr _ IH]; [done|].
  simpl. by rewrite Hr, IH.
Qed.
End ItemRecords.

Section MutatorTheorems.
Context `{RT : JSRuntime}.

(** X16. [setFilter] stores the value under its key, or deletes the key
    when the value is null, undefined or an empty array, and touches no
    other key, nor the search, the sort or the items; it puts the current
    page back to 1 unless told not to; the filtered items are recomputed
    from the new filters and [totalItems] is their number. *)
Theorem setFilter_effect (key : string) (v : value) (flag : bool) (s : Store) :
  wf s = true ->
  assocGet key (filtersOf (setFilter key v flag s))
  = (if isNullish v || isEmptyArray v then None else Some v)
  /\ (forall k, k <> key ->
        assocGet k (filtersOf (setFilter key v flag s)) = assocGet k (filtersOf s))
  /\ searchQuery (state (setFilter key v flag s)) = searchQuery (state s)
  /\ sortOf (setFilter key v flag s) = sortOf s
  /\ itemsOf (setFilter key v flag s) = itemsOf s
  /\ filteredOf (setFilter key v flag s)
     = selectItems (filtersOf (setFilter key v flag s)) (searchQuery (state s))
                   (sortOf s) (itemsOf s)
  /\ pageOf (setFilter key v flag s)
     = setTotalItems (Z.of_nat (length (filteredOf (setFilter key v flag s))))
                     (if flag then pageOf s else setCurrentPage 1 (pageOf s)).
Proof.
  intros Hwf.
  destruct (view_setFilter key v flag s Hwf) as (Hf & Hq & Hc & Hi & Hr & Hp).
  cbv zeta in Hf, Hr, Hp. rewrite Hp, Hr, Hf.
  split; [|split; [|done]].
  - destruct (isNullish v || isEmptyArray v).
    + apply assocGet_delete_eq.
    + apply assocGet_set_eq.
  - intros k Hk. destruct (isNullish v || isEmptyArray v).
    + by apply assocGet_delete_ne.
    + by apply assocGet_set_ne.
Qed.

(** X17. [setSearch] replaces the search query and nothing else of the
    criteria; it puts the current page back to 1 unless told not to; the
    filtered items are recomputed with the new query. *)
Theorem setSearch_effect (query : string) (flag : bool) (s : Store) :
  wf s = true ->
  searchQuery (state (setSearch query flag s)) = query
  /\ filtersOf (setSearch query flag s) = filtersOf s
  /\ sortOf (setSearch query flag s) = sortOf s
  /\ itemsOf (setSearch query flag s) = itemsOf s
  /\ filteredOf (setSearch query flag s)
     = selectItems (filtersOf s) query (sortOf s) (itemsOf s)
  /\ pageOf (setSearch query flag s)
     = setTotalItems (Z.of_nat (length (filteredOf (setSearch query flag s))))
                     (if flag then pageOf s else setCurrentPage 1 (pageOf s)).
Proof.
  intros Hwf.
  destruct (view_setSearch query flag s Hwf) as (Hf & Hq & Hc & Hi & Hr & Hp).
  done.
Qed.

(** X18. [setSort] installs the sort configuration it is given, always
    puts the current page back to 1, and recomputes: the filtered items are
    the same items as before, in the order of the new configuration. *)
Theorem setSort_effect (f : option string) (d : Direction) (t : SortType) (s : Store) :
  wf s = true ->
  sortOf (setSort f d t s) = {| field := f; direction := d; type := t |}
  /\ filtersOf (setSort f d t s) = filtersOf s
  /\ searchQuery (state (setSort f d t s)) = searchQuery (state s)
  /\ itemsOf (setSort f d t s) = itemsOf s
  /\ filteredOf (setSort f d t s)
     = selectItems (filtersOf s) (searchQuery (state s))
                   {| field := f; direction := d; type := t |} (itemsOf s)
  /\ filteredOf (setSort f d t s)
     ≡ₚ selectItems (filtersOf s) (searchQuery (state s)) (sortOf s) (itemsOf s)
  /\ currentPage (pageOf (setSort f d t s)) = 1
  /\ totalItems (pageOf (setSort f d t s))
     = Z.of_nat (length (filteredOf (setSort f d t s))).
Proof.
  intros Hwf.
  destruct (view_setSort f d t s Hwf) as (Hf & Hq & Hc & Hi & Hr & Hp).
  cbv zeta in Hc, Hr, Hp. rewrite Hp, Hr.
  repeat split; try done.
  unfold selectItems. cbv zeta. by rewrite !sortBy_perm.
Qed.

(** X19. [setPage] and [setPagination] recompute nothing: the criteria,
    the items and the filtered items are what they were.  [setPage] writes
    the page it is given, whatever it is; [setPagination] replaces the
    pagination by the old one overridden with the fields given, so a given
    [totalItems] replaces the number the last recomputation wrote. *)
Theorem pagination_calls_do_not_recompute (page : Z) (config : PaginationPatch)
        (s : Store) :
  wf s = true ->
  pageOf (setPage page s) = setCurrentPage page (pageOf s)
  /\ pageOf (setPagination config s) = applyPatch config (pageOf s)
  /\ forall c, c = CSetPage page \/ c = CSetPagination config ->
       filtersOf (call c s) = filtersOf s
       /\ searchQuery (state (call c s)) = searchQuery (state s)
       /\ sortOf (call c s) = sortOf s
       /\ itemsOf (call c s) = itemsOf s
       /\ filteredOf (call c s) = filteredOf s.
Proof.
  intros Hwf.
  destruct (view_setPage page s Hwf) as (Hf & Hq & Hc & Hi & Hr & Hp).
  destruct (view_setPagination config s Hwf) as (Hf' & Hq' & Hc' & Hi' & Hr' & Hp').
  split; [exact Hp|]. split; [exact Hp'|].
  intros c [-> | ->]; cbn [call]; done.
Qed.

(** X20. After [setItems] the items of the store are the processed
    records of the items given, in their order, whether or not the call
    took its early return; the criteria are untouched.  When the call goes
    through, the filtered items are recomputed from the new items and
    [totalItems] is their number, while the current page is kept as it is;
    when it returns early, nothing is delivered. *)
Theorem setItems_effect (rawItems : list loc) (s : Store) :
  wf s = true -> validRefs (heap s) rawItems = true ->
  itemsOf (setItems rawItems s) = map processItem (map (getItem (heap s)) rawItems)
  /\ filtersOf (setItems rawItems s) = filtersOf s
  /\ searchQuery (state (setItems rawItems s)) = searchQuery (state s)
  /\ sortOf (setItems rawItems s) = sortOf s
  /\ currentPage (pageOf (setItems rawItems s)) = currentPage (pageOf s)
  /\ (if callNotifies (CSetItems rawItems) s
      then filteredOf (setItems rawItems s)
           = selectItems (filtersOf s) (searchQuery (state s)) (sortOf s)
                         (itemsOf (setItems rawItems s))
           /\ totalItems (pageOf (setItems rawItems s))
              = Z.of_nat (length (filteredOf (setItems rawItems s)))
      else filteredOf (setItems rawItems s) = filteredOf s
           /\ pageOf (setItems rawItems s) = pageOf s
           /\ trace (setItems rawItems s) = trace s).
Proof.
  intros Hwf Hraw.
  destruct (view_setItems rawItems s Hwf Hraw) as (Hf & Hq & Hc & Hi & Hrest).
  split; [exact Hi|]. split; [exact Hf|]. split; [exact Hq|]. split; [exact Hc|].
  destruct (callNotifies (CSetItems rawItems) s).
  - destruct Hrest as (Hr & Hp). rewrite Hp. by repeat split.
  - destruct Hrest as (Hr & Hp & Ht). rewrite Hp. by repeat split.
Qed.

(** X21. The early return of [setItems] is taken for items that are
    already marked processed: handing the store its own array of items, as
    any earlier [setItems] left it, changes nothing at all and delivers
    nothing. *)
Theorem setItems_own_items_is_noop (rawItems : list loc) (s : Store) :
  wf s = true -> validRefs (heap s) rawItems = true ->
  setItems (getArr (heap (setItems rawItems s)) (items (state (setItems rawItems s))))
           (setItems rawItems s)
  = setItems rawItems s.
Proof.
  intros Hwf Hraw.
  destruct (view_setItems rawItems s Hwf Hraw) as (_ & _ & _ & Hi & _).
  set (s' := setItems rawItems s) in *.
  rewrite setItems_eq. cbv zeta.
  assert (Forall (fun r => truthy (getProp "_processed" (getItem (heap s') r)) = true)
                 (getArr (heap s') (items (state s')))) as Hall.
  { apply (proj1 (Forall_map (getItem (heap s'))
                    (fun item => truthy (getProp "_processed" item) = true) _)).
    change (map (getItem (heap s')) (getArr (heap s') (items (state s'))))
      with (itemsOf s').
    rewrite Hi. apply Forall_map.
    apply Forall_forall. intros x _. apply processed_processItem. }
  rewrite (processItems_processed _ _ Hall). cbn [fst snd].
  assert (sameItems (getArr (heap s') (items (state s')))
                    (getArr (heap s') (items (state s'))) = true) as ->
    by (by apply sameItems_eq).
  done.
Qed.
End MutatorTheorems.

Lemma setFilter_effect_witness :
  assocGet "filter_multi_title"
    (filtersOf (setFilter (RT := Ascii_runtime.runtime) "filter_multi_title"
                  (VArr [VStr "Lamp"]) false demoStore))
  = Some (VArr [VStr "Lamp"]).
Proof.
  refine (proj1 (setFilter_effect (RT := Ascii_runtime.runtime) "filter_multi_title"
                   (VArr [VStr "Lamp"]) false demoStore _)).
  vm_compute. reflexivity.
Defined.

Lemma setSearch_effect_witness :
  searchQuery (state (setSearch (RT := Ascii_runtime.runtime) "desk" true demoStore))
  = "desk".
Proof.
  refine (proj1 (setSearch_effect (RT := Ascii_runtime.runtime) "desk" true demoStore _)).
  vm_compute. reflexivity.
Defined.

Lemma setSort_effect_witness :
  sortOf (setSort (RT := Ascii_runtime.runtime) (Some "price") Desc TNumber demoStore)
  = {| field := Some "price"; direction := Desc; type := TNumber |}.
Proof.
  refine (proj1 (setSort_effect (RT := Ascii_runtime.runtime) (Some "price") Desc TNumber
                   demoStore _)).
  vm_compute. reflexivity.
Defined.

Lemma pagination_calls_do_not_recompute_witness :
  pageOf (setPage (RT := Ascii_runtime.runtime) 7 demoStore)
  = setCurrentPage 7 (pageOf demoStore).
Proof.
  refine (proj1 (pagination_calls_do_not_recompute (RT := Ascii_runtime.runtime) 7
                   {| pCurrentPage := None; pItemsPerPage := Some 24;
                      pTotalItems := None; pIsEnabled := None; pMode := None;
                      pPersistPage := None |} demoStore _)).
  vm_compute. reflexivity.
Defined.

Lemma setItems_effect_witness :
  itemsOf (setItems (RT := Ascii_runtime.runtime) [5%nat; 6%nat] storeWithRawItems)
  = map (processItem (RT := Ascii_runtime.runtime))
        (map (getItem (heap storeWithRawItems)) [5%nat; 6%nat]).
Proof.
  refine (proj1 (setItems_effect (RT := Ascii_runtime.runtime) [5%nat; 6%nat]
                   storeWithRawItems _ _));
    vm_compute; reflexivity.
Defined.

Lemma setItems_own_items_is_noop_witness :
  setItems (RT := Ascii_runtime.runtime)
    (getArr (heap (setItems (RT := Ascii_runtime.runtime) [5%nat; 6%nat] storeWithRawItems))
       (items (state (setItems (RT := Ascii_runtime.runtime) [5%nat; 6%nat]
                        storeWithRawItems))))
    (setItems (RT := Ascii_runtime.runtime) [5%nat; 6%nat] storeWithRawItems)
  = setItems (RT := Ascii_runtime.runtime) [5%nat; 6%nat] storeWithRawItems.
Proof.
  refine (setItems_own_items_is_noop (RT := Ascii_runtime.runtime) [5%nat; 6%nat]
            storeWithRawItems _ _);
    vm_compute; reflexivity.
Defined.

(** ** The predicates *)

Lemma asStrings_strings (l : list string) : asStrings (VArr (map VStr l)) = l.
Proof. unfold asStrings. induction l as [|x r IH]; [done|]. cbn. by f_equal. Qed.

Section PredicateTheorems.
Context `{RT : JSRuntime}.

(** X22. A multi-select filter accepts an item when one of the selected
    options, lower-cased, occurs inside one of the item's values: the
    test for an equal value adds nothing to the substring test.  An empty
    or missing selection accepts every item, and a non-empty selection
    rejects an item that has no values for the field. *)
Theorem multi_match_is_substring_match (selected values : list string) :
  (checkMultiMatch (VArr (map VStr selected)) (VArr (map VStr values)) = true
   <-> selected = []
       \/ exists opt val, opt ∈ selected /\ val ∈ values
                          /\ includes (toLowerCase opt) val = true)
  /\ (forall itemValues, checkMultiMatch (VArr []) itemValues = true
                         /\ checkMultiMatch VNull itemValues = true
                         /\ checkMultiMatch VUndef itemValues = true)
  /\ (selected <> [] -> checkMultiMatch (VArr (map VStr selected)) VUndef = false).
Proof.
  split; [|split].
  - unfold checkMultiMatch. rewrite !asStrings_strings.
    destruct selected as [|o sel]; [split; [intros _; by left | done]|].
    cbn [truthy negb map isEmptyArray orb].
    rewrite existsb_exists. split.
    + intros (opt & Hin & Hm). right.
      apply orb_true_iff in Hm as [Hm|Hm]; apply existsb_exists in Hm as (val & Hv & Hm).
      * apply String.eqb_eq in Hm. subst val.
        exists opt, (toLowerCase opt). rewrite <- !list_elem_of_In in *.
        by rewrite includes_refl.
      * exists opt, val. by rewrite <- !list_elem_of_In in *.
    + intros [?|(opt & val & Ho & Hv & Hm)]; [done|].
      exists opt. split; [by apply list_elem_of_In|].
      apply orb_true_iff. right. apply existsb_exists.
      exists val. split; [by apply list_elem_of_In | done].
  - done.
  - intros Hne. unfold checkMultiMatch. by destruct selected.
Qed.

(** X23. A range filter accepts an item when the number read from its
    value, after everything but digits, dots and minus signs has been
    removed, lies between the two bounds, the bounds included; an item
    whose value yields no number is rejected, and so is every item when
    the lower bound is above the upper one. *)
Theorem range_match_is_inclusive (lo hi : Q) (itemValue : value) :
  (checkSliderMatch (lo, hi) itemValue = true
   <-> exists val, parseFloat (cleanNumeric (toStr itemValue)) = Some val
                   /\ (lo <= val)%Q /\ (val <= hi)%Q)
  /\ (parseFloat (cleanNumeric (toStr itemValue)) = None ->
      checkSliderMatch (lo, hi) itemValue = false)
  /\ ((hi < lo)%Q -> checkSliderMatch (lo, hi) itemValue = false).
Proof.
  split; [apply checkSliderMatch_inclusive|]. split.
  - intros H. unfold checkSliderMatch. by rewrite H.
  - intros Hlt. destruct (checkSliderMatch (lo, hi) itemValue) eqn:E; [|done].
    apply checkSliderMatch_inclusive in E as (val & _ & H1 & H2). lra.
Qed.
End PredicateTheorems.

(** ** Pages *)

Lemma window_split {A : Type} (l : list A) (a b : nat) :
  (a <= b)%nat -> window l 0 b = window l 0 a ++ window l a b.
Proof.
  intros Hab. unfold window. rewrite !drop_0, !Nat.sub_0_r.
  rewrite take_take_drop. f_equal. lia.
Qed.

(** X24. The pages of mode pagination tile the list, and the prefix shown
    by modes loadMore and autoScroll is made of them: what page [c] loads is
    what page [c - 1] had loaded followed by the window of page [c].  A
    window holds at most [itemsPerPage] items, and none when the page starts
    beyond the end of the list. *)
Theorem loaded_prefix_is_the_pages {A : Type} (l : list A) (page perPage : Z) :
  1 <= page -> 0 < perPage ->
  handleStoreUpdate l (pageState ModeLoadMore page perPage)
  = handleStoreUpdate l (pageState ModeLoadMore (page - 1) perPage)
      ++ handleStoreUpdate l (pageState ModePagination page perPage)
  /\ handleStoreUpdate l (pageState ModeAutoScroll page perPage)
     = handleStoreUpdate l (pageState ModeLoadMore page perPage)
  /\ Z.of_nat (length (handleStoreUpdate l (pageState ModePagination page perPage)))
     <= perPage
  /\ (Z.of_nat (length l) <= (page - 1) * perPage ->
      handleStoreUpdate l (pageState ModePagination page perPage) = []).
Proof.
  intros Hp Hn. unfold handleStoreUpdate, pageState.
  cbn [isEnabled mode currentPage itemsPerPage].
  rewrite !jsSlice_window by nia.
  split; [|split; [done|split]].
  - replace (Z.to_nat ((page - 1) * perPage + perPage)) with (Z.to_nat (page * perPage))
      by (f_equal; lia).
    apply window_split. nia.
  - unfold window. rewrite length_take. nia.
  - intros Hlen. unfold window. rewrite drop_ge by lia. apply take_nil.
Qed.

Lemma loaded_prefix_is_the_pages_witness :
  handleStoreUpdate (seq 0 30) (pageState ModeLoadMore 2 12)
  = handleStoreUpdate (seq 0 30) (pageState ModeLoadMore 1 12)
      ++ handleStoreUpdate (seq 0 30) (pageState ModePagination 2 12).
Proof.
  refine (proj1 (loaded_prefix_is_the_pages (seq 0 30) 2 12 _ _)); lia.
Defined.

(** ** Widgets *)

Section WidgetTheorems.
Context `{RT : JSRuntime}.

Lemma setFilter_view_range (key : string) (minVal maxVal : Q) (s : Store) :
  wf s = true ->
  assocGet key (filtersOf (setFilter key (VArr [VNum minVal; VNum maxVal]) false s))
  = Some (VArr [VNum minVal; VNum maxVal])
  /\ currentPage (pageOf (setFilter key (VArr [VNum minVal; VNum maxVal]) false s)) = 1.
Proof.
  intros Hwf.
  destruct (view_setFilter key (VArr [VNum minVal; VNum maxVal]) false s Hwf)
    as (Hf & _ & _ & _ & _ & Hp).
  cbv zeta in Hf, Hp. rewrite Hf, Hp. split; [|done].
  cbn [isNullish isEmptyArray orb]. apply assocGet_set_eq.
Qed.

(** X25. The range slider's apply handler with a range that is not the
    full range of the data stores the pair of bounds under the filter key
    and puts the current page back to 1.  The store is updated before the
    handler writes its own session entry: when that write throws, the
    handler throws, and the filter is active all the same. *)
Theorem handleApply_stores_range (key : string) (minVal maxVal dataMin dataMax : Q)
        (persistState : bool) (s : Store) :
  wf s = true ->
  Qeq_bool minVal dataMin && Qeq_bool maxVal dataMax = false ->
  assocGet key
    (filtersOf (handleApply key minVal maxVal dataMin dataMax persistState s).1)
  = Some (VArr [VNum minVal; VNum maxVal])
  /\ currentPage
       (pageOf (handleApply key minVal maxVal dataMin dataMax persistState s).1) = 1
  /\ (handleApply key minVal maxVal dataMin dataMax persistState s).2
     = (if persistState
           && setItemThrows key (jsonOfValue (VArr [VNum minVal; VNum maxVal]))
        then Thrown else Returned)
  /\ (persistState = true ->
      setItemThrows key (jsonOfValue (VArr [VNum minVal; VNum maxVal])) = false ->
      sessionStorage (handleApply key minVal maxVal dataMin dataMax persistState s).1
        !! key
      = Some (jsonOfValue (VArr [VNum minVal; VNum maxVal]))).
Proof.
  intros Hwf Hfull. unfold handleApply. rewrite Hfull. cbv zeta.
  destruct (setFilter_view_range key minVal maxVal s Hwf) as (Hf & Hp).
  destruct persistState; cbn [andb];
    [destruct (setItemThrows key (jsonOfValue (VArr [VNum minVal; VNum maxVal])))|];
    cbn [fst snd];
    rewrite ?filtersOf_withSession, ?pageOf_withSession, ?sessionStorage_withSession,
      Hf, Hp;
    repeat split; try done.
  intros _ _. apply lookup_insert_eq.
Qed.


(** X27. After a scan the Broadcaster hands the items to [setItems] and,
    when pagination is enabled and [totalItems] is 0 afterwards, sets
    [totalItems] to the number of scanned items with [setPagination]: the
    filtered items stay what [setItems] computed (none, if the criteria
    exclude every item), and the listeners are called a second time.  In
    every other case the scan is the call of [setItems] alone. *)
Theorem scanItems_total (itemsData : list loc) (s : Store) :
  wf s = true ->
  (isEnabled (pageOf (setItems itemsData s)) = true ->
   totalItems (pageOf (setItems itemsData s)) = 0 ->
   totalItems (pageOf (scanItems itemsData s)) = Z.of_nat (length itemsData)
   /\ filteredOf (scanItems itemsData s) = filteredOf (setItems itemsData s)
   /\ itemsOf (scanItems itemsData s) = itemsOf (setItems itemsData s)
   /\ (isBatching s = false ->
       length (notifications (trace (scanItems itemsData s)))
       = S (length (notifications (trace (setItems itemsData s))))))
  /\ (isEnabled (pageOf (setItems itemsData s)) = false
      \/ totalItems (pageOf (setItems itemsData s)) <> 0 ->
      scanItems itemsData s = setItems itemsData s).
Proof.
  intros Hwf. pose proof (wf_setItems itemsData s Hwf) as Hwf1.
  unfold scanItems. cbv zeta. split.
  - intros He Ht. rewrite He, Ht. cbn [andb Z.eqb].
    set (patch := {| pCurrentPage := None; pItemsPerPage := None;
                     pTotalItems := Some (Z.of_nat (length itemsData));
                     pIsEnabled := None; pMode := None; pPersistPage := None |}).
    destruct (view_setPagination patch _ Hwf1) as (_ & _ & _ & Hi & Hr & Hp).
    rewrite Hp, Hi, Hr. repeat split; try done.
    intros Hb.
    assert (isBatching (setItems itemsData s) = false) as Hb1.
    { rewrite setItems_eq. cbv zeta.
      destruct (processItems_grows itemsData s)
        as (e & Hh & Hs & Hb1 & _ & _ & _ & _ & _ & Hv).
      destruct (processItems itemsData s) as [ps s1]. cbn [fst snd] in *.
      destruct (sameItems ps _); [congruence|].
      pose proof (wf_grow s s1 e Hs Hh Hwf) as Hwf2. rewrite <- Hh in Hv.
      destruct (view_rebind_items s1 ps Hwf2 Hv) as (Hwf3 & _).
      by destruct (applyFilters_step _ Hwf3 (eq_trans Hb1 Hb)) as (_ & -> & _). }
    destruct (call_step (CSetPagination patch) _ Hwf1 Hb1 eq_refl) as (snap & Htr & _).
    cbn [call] in Htr. rewrite Htr, notifications_app, length_app. cbn. lia.
  - intros [He | Ht].
    + by rewrite He.
    + apply Z.eqb_neq in Ht. rewrite Ht. by rewrite andb_false_r.
Qed.
End WidgetTheorems.

Lemma handleApply_stores_range_witness :
  assocGet "filter_slider_price"
    (filtersOf (handleApply (RT := Full_storage.runtime) "filter_slider_price"
                  1 5 0 100 true demoStore).1)
  = Some (VArr [VNum 1; VNum 5]).
Proof.
  refine (proj1 (handleApply_stores_range (RT := Full_storage.runtime)
                   "filter_slider_price" 1 5 0 100 true demoStore _ _)).
  - vm_compute. reflexivity.
  - reflexivity.
Defined.


Lemma scanItems_total_witness :
  totalItems (pageOf (scanItems (RT := Ascii_runtime.runtime) [5%nat; 6%nat]
                        searchingStore)) = 2
  /\ filteredOf (scanItems (RT := Ascii_runtime.runtime) [5%nat; 6%nat] searchingStore)
     = filteredOf (setItems (RT := Ascii_runtime.runtime) [5%nat; 6%nat] searchingStore)
  /\ scanItems (RT := Ascii_runtime.runtime) [5%nat; 6%nat] storeWithRawItems
     = setItems (RT := Ascii_runtime.runtime) [5%nat; 6%nat] storeWithRawItems.
Proof.
  destruct (proj1 (scanItems_total (RT := Ascii_runtime.runtime) [5%nat; 6%nat]
                     searchingStore ltac:(vm_compute; reflexivity)))
    as (Ht & Hf & _); [vm_compute; reflexivity | vm_compute; reflexivity |].
  split; [exact Ht|]. split; [exact Hf|].
  refine (proj2 (scanItems_total (RT := Ascii_runtime.runtime) [5%nat; 6%nat]
                   storeWithRawItems _) _).
  - vm_compute. reflexivity.
  - right. vm_compute. discriminate.
Defined.

(** ** The page in the session *)

Section PageTheorems.
Context `{RT : JSRuntime}.

Lemma session_resetPage (s : Store) :
  (forall k v, setItemThrows k v = false) ->
  sessionStorage (resetPage false s) !! KEY_PAGE = Some (numberToString (inject_Z 1)).
Proof.
  intros Hok. unfold resetPage, updateStoragePage. cbv zeta.
  rewrite sessionStorage_withSession. cbn [tryWrites]. rewrite Hok.
  apply lookup_insert_eq.
Qed.

Lemma session_applyFilters (s : Store) :
  wf s = true -> (forall k v, setItemThrows k v = false) ->
  sessionStorage (applyFilters s) !! KEY_PAGE
  = if negb (isBatching s) && persistPage (pageOf s)
    then Some (numberToString (inject_Z (currentPage (pageOf s))))
    else sessionStorage s !! KEY_PAGE.
Proof.
  intros Hwf Hok. rewrite applyFilters_eq.
  destruct (control_recomputed s) as (_ & Hb & _).
  destruct (isBatching s) eqn:E.
  - rewrite notify_batching by (by rewrite Hb). done.
  - destruct (notify_session (recomputed s)) as (_ & _ & _ & Hp);
      [by apply wf_recomputed | by rewrite Hb | done |].
    rewrite Hp. cbn [negb andb].
    assert (pageOf (recomputed s)
            = setTotalItems (Z.of_nat (length (computeResult (heap s) (state s))))
                            (pageOf s)) as ->.
    { destruct (obs_applyFilters s Hwf) as (_ & _ & _ & Hp' & _).
      rewrite applyFilters_eq in Hp'.
      destruct (obs_notify (recomputed s) (wf_recomputed s Hwf)) as (_ & _ & Hp'' & _).
      by rewrite <- Hp'', Hp'. }
    done.
Qed.

Lemma session_recompute (s : Store) :
  wf s = true -> (forall k v, setItemThrows k v = false) ->
  sessionStorage (applyFilters (resetPage false s)) !! KEY_PAGE
  = Some (numberToString (inject_Z 1)).
Proof.
  intros Hwf Hok.
  rewrite session_applyFilters by (done || by apply wf_resetPage).
  destruct (obs_resetPage false s Hwf) as (_ & _ & -> & _).
  rewrite session_resetPage by done.
  by destruct (negb _ && _).
Qed.

(** X28. A criteria mutator that puts the current page back to 1 also
    writes page 1 into the session, whether or not [persistPage] is set and
    whether or not a batch is running, while [setPage] saves the page only
    when [persistPage] is set; this is for a session storage that accepts
    the writes. *)
Theorem page_reset_is_saved (key query : string) (v : value) (f : option string)
        (d : Direction) (t : SortType) (page : Z) (c : Call) (s : Store) :
  wf s = true -> (forall k w, setItemThrows k w = false) ->
  c ∈ [CSetFilter key v false; CRemoveFilter key false; CSetSearch query false;
       CSetSort f d t] ->
  sessionStorage (call c s) !! KEY_PAGE = Some (numberToString (inject_Z 1))
  /\ currentPage (pageOf (call c s)) = 1
  /\ (persistPage (pageOf s) = false ->
      sessionStorage (setPage page s) !! KEY_PAGE = sessionStorage s !! KEY_PAGE).
Proof.
  intros Hwf Hok Hc.
  assert (c = CSetFilter key v false \/ c = CRemoveFilter key false
          \/ c = CSetSearch query false \/ c = CSetSort f d t) as Hc'.
  { repeat (apply elem_of_cons in Hc as [Hc|Hc]; [tauto|]). by apply elem_of_nil in Hc. }
  clear Hc. split; [|split].
  - destruct Hc' as [-> | [-> | [-> | ->]]]; cbn [call].
    + unfold setFilter. cbv zeta.
      destruct (isNullish _ || isEmptyArray _);
        apply session_recompute; first [done | by apply wf_mutate_filters].
    + unfold removeFilter. cbv zeta.
      apply session_recompute; first [done | by apply wf_mutate_filters].
    + unfold setSearch. cbv zeta.
      apply session_recompute; first [done | by rewrite wf_setSearchQuery].
    + rewrite setSort_eq.
      apply session_recompute; first [done | by apply wf_rebind_sort].
  - destruct Hc' as [-> | [-> | [-> | ->]]]; cbn [call].
    + by destruct (view_setFilter key v false s Hwf) as (_ & _ & _ & _ & _ & ->).
    + by destruct (view_removeFilter key false s Hwf) as (_ & _ & _ & _ & _ & ->).
    + by destruct (view_setSearch query false s Hwf) as (_ & _ & _ & _ & _ & ->).
    + by destruct (view_setSort f d t s Hwf) as (_ & _ & _ & _ & _ & ->).
  - intros Hpp. rewrite setPage_eq by done.
    cbn [persistPage setCurrentPage]. rewrite Hpp.
    destruct (view_mutate_pagination s (setCurrentPage page (pageOf s)) Hwf)
      as (Hwf1 & _ & _ & _ & _ & _ & Hp1).
    destruct (isBatching s) eqn:Hb.
    + rewrite notify_batching by exact Hb. done.
    + destruct (notify_session _ Hwf1 Hb Hok) as (_ & _ & _ & Hp).
      rewrite Hp, Hp1. cbn [persistPage setCurrentPage]. by rewrite Hpp.
Qed.
End PageTheorems.

Lemma page_reset_is_saved_witness :
  sessionStorage (call (RT := Ascii_runtime.runtime) (CSetSearch "desk" false) demoStore)
    !! KEY_PAGE
  = Some (numberToString (JSRuntime := Ascii_runtime.runtime) (inject_Z 1)).
Proof.
  refine (proj1 (page_reset_is_saved (RT := Ascii_runtime.runtime)
                   "filter_multi_title" "desk" VNull None Asc TString 2
                   (CSetSearch "desk" false) demoStore _ _ _)).
  - vm_compute. reflexivity.
  - intros k w. reflexivity.
  - apply elem_of_cons. right. apply elem_of_cons. right. apply elem_of_cons. by left.
Defined.

(** ** The pagination widget *)

Lemma totalPages_bound (total perPage page : Z) :
  0 < perPage -> 0 < total -> 1 <= page -> page <= totalPages total perPage ->
  (page - 1) * perPage < total.
Proof.
  intros Hn Ht Hp. unfold totalPages. cbv zeta.
  assert (- ((- total) / perPage) * perPage < total + perPage) as Hceil.
  { pose proof (Z.mul_div_le (- total) perPage Hn).
    pose proof (Z.mul_succ_div_gt (- total) perPage Hn). nia. }
  destruct (Z.eqb_spec (- ((- total) / perPage)) 0) as [E|E]; intros Hle; nia.
Qed.

Section PaginationWidget.
Context `{RT : JSRuntime}.

(** X29. A click on a page number reaches the store only when the page
    differs from the current one and lies between 1 and the number of
    pages: a click on the current page, or on a page out of range, leaves
    the store exactly as it is (no call, no notification).  Any other click
    is [setPage]: the current page becomes the clicked one, the filtered
    items are untouched, and the page shows at least one item, provided the
    widget is in step with the store, [totalItems] is the number of
    filtered items and there is one at least. *)
Theorem clicked_page_is_not_empty (page : Z) (s : Store) :
  wf s = true -> 0 < itemsPerPage (pageOf s) ->
  isEnabled (pageOf s) = true -> mode (pageOf s) = ModePagination ->
  totalItems (pageOf s) = Z.of_nat (length (filteredOf s)) ->
  filteredOf s <> [] ->
  let pages := totalPages (totalItems (pageOf s)) (itemsPerPage (pageOf s)) in
  let s' := handlePageClick page (currentPage (pageOf s)) pages s in
  (page = currentPage (pageOf s) \/ page < 1 \/ pages < page -> s' = s)
  /\ (page <> currentPage (pageOf s) -> 1 <= page <= pages ->
      s' = setPage page s
      /\ currentPage (pageOf s') = page
      /\ filteredOf s' = filteredOf s
      /\ handleStoreUpdate (filteredOf s') (pageOf s') <> []).
Proof.
  intros Hwf Hn He Hm Ht Hne. cbv zeta. unfold handlePageClick. split.
  - intros [-> | [Hlt | Hgt]].
    + by rewrite Z.eqb_refl.
    + apply Z.leb_gt in Hlt. by rewrite Hlt, andb_false_r.
    + apply Z.leb_gt in Hgt. by rewrite Hgt, andb_false_r.
  - intros Hneq [H1 H2].
    apply Z.eqb_neq in Hneq. apply Z.leb_le in H1 as H1b. apply Z.leb_le in H2 as H2b.
    rewrite Hneq, H1b, H2b. cbn [negb andb].
    destruct (view_setPage page s Hwf) as (_ & _ & _ & _ & Hr & Hp).
    cbv zeta in Hr, Hp. rewrite Hp, Hr.
    split; [done|]. split; [done|]. split; [done|].
    assert (0 < totalItems (pageOf s)) as Hpos.
    { rewrite Ht. destruct (filteredOf s); [done | cbn; lia]. }
    pose proof (totalPages_bound _ _ _ Hn Hpos H1 H2) as Hb.
    unfold handleStoreUpdate.
    cbn [isEnabled mode currentPage itemsPerPage setCurrentPage].
    rewrite He, Hm. rewrite jsSlice_window by nia. unfold window.
    rewrite Ht in Hb.
    assert (0 <= (page - 1) * itemsPerPage (pageOf s)) as Hge by nia.
    destruct (drop (Z.to_nat ((page - 1) * itemsPerPage (pageOf s))) (filteredOf s))
      as [|x r] eqn:Hd.
    + apply (f_equal length) in Hd. rewrite length_drop in Hd. cbn in Hd. lia.
    + replace (Z.to_nat ((page - 1) * itemsPerPage (pageOf s) + itemsPerPage (pageOf s))
               - Z.to_nat ((page - 1) * itemsPerPage (pageOf s)))%nat
        with (S (Z.to_nat (itemsPerPage (pageOf s)) - 1)) by lia.
      done.
Qed.
End PaginationWidget.

Lemma clicked_page_is_not_empty_witness :
  handleStoreUpdate
    (filteredOf (handlePageClick (RT := Ascii_runtime.runtime) 2
                   (currentPage (pageOf pagedStore))
                   (totalPages (totalItems (pageOf pagedStore))
                               (itemsPerPage (pageOf pagedStore)))
                   pagedStore))
    (pageOf (handlePageClick (RT := Ascii_runtime.runtime) 2
               (currentPage (pageOf pagedStore))
               (totalPages (totalItems (pageOf pagedStore))
                           (itemsPerPage (pageOf pagedStore)))
               pagedStore))
  <> [].
Proof.
  refine (proj2 (proj2 (proj2 (proj2 (clicked_page_is_not_empty
            (RT := Ascii_runtime.runtime) 2 pagedStore _ _ _ _ _ _) _ _)))).
  - vm_compute. reflexivity.
  - vm_compute. reflexivity.
  - vm_compute. reflexivity.
  - vm_compute. reflexivity.
  - vm_compute. reflexivity.
  - vm_compute. discriminate.
  - vm_compute. discriminate.
  - vm_compute. split; discriminate.
Defined.

(** ** The state keeps its shape *)

Section Reachability.
Context `{RT : JSRuntime}.

Lemma wf_batch (fn : Store -> Store * Outcome) (s : Store) :
  (forall s0, wf s0 = true -> wf (fn s0).1 = true) ->
  wf s = true -> wf (batch fn s).1 = true.
Proof.
  intros Hfn Hwf. unfold batch.
  pose proof (Hfn (withIsBatching true s) Hwf) as Hwf1.
  destruct (fn (withIsBatching true s)) as [s1 r]. cbn [fst snd] in *.
  cbn [pendingNotify withIsBatching].
  destruct (pendingNotify s1); [|exact Hwf1].
  apply wf_notify. exact Hwf1.
Qed.

Lemma wf_run (p : Prog) (s : Store) : wf s = true -> wf (run p s).1 = true.
Proof.
  revert s. induction p as [| |c k IH|body IHb k IHk]; intros s Hwf; cbn [run].
  - done.
  - done.
  - apply IH. by apply wf_call.
  - pose proof (wf_batch (run body) s IHb Hwf) as Hwf1.
    destruct (batch (run body) s) as [s1 [|]]; cbn [fst] in *; [by apply IHk | done].
Qed.

(** X30. The state keeps its containers, with one exception.  From a
    store whose state holds a map of active filters, a sort configuration,
    a pagination object and two arrays of existing item records, every
    function made of store calls, nested batches and exceptions included,
    leaves such a store, whether it is run directly or under [batch]; so
    does the disposer; so does [subscribe] on an initialised store, or when
    the sort configuration saved in the session is one.  The restoration
    does not look at what it reads: when the saved text parses to a value
    that is not an object ([null], a number, a string, an array) and the
    saved filters do not stop the restoration first, [subscribe] leaves a
    state whose [sortConfig] is not a sort configuration. *)
Theorem store_keeps_its_shape (p : Prog) (l : listener) (s : Store) :
  wf s = true ->
  wf (run p s).1 = true
  /\ wf (batch (run p) s).1 = true
  /\ wf (unsubscribe l s) = true
  /\ (initialized s = true \/ savedSortIsConfig s = true ->
      wf (subscribe l s) = true)
  /\ (forall (savedSort : string) (v : value),
         initialized s = false ->
         sessionStorage s !! KEY_SORT = Some savedSort ->
         nonEmpty savedSort = true ->
         parseJSON savedSort = Some v -> isObject v = false ->
         (forall savedFilters,
             sessionStorage s !! KEY_FILTERS = Some savedFilters ->
             nonEmpty savedFilters = true -> parseFilters savedFilters <> None) ->
         wf (subscribe l s) = false).
Proof.
  intros Hwf. split; [by apply wf_run|]. split; [|split; [|split]].
  - apply wf_batch; [|done]. intros s0. apply wf_run.
  - exact Hwf.
  - intros Hok. rewrite subscribe_eq. exact (lazyInit_wf s Hwf Hok).
  - intros savedSort v Hi Hs Hn Hparse Hv Hfilters. rewrite subscribe_eq.
    apply (lazyInit_not_wf s Hwf Hi); [|exact Hfilters].
    unfold savedSortIsConfig. by rewrite Hs, Hn, Hparse, asSortConfig_object.
Qed.
End Reachability.

Lemma store_keeps_its_shape_witness :
  wf (batch (RT := Ascii_runtime.runtime) (run (RT := Ascii_runtime.runtime) nestedCalls)
        newStore).1 = true
  /\ wf (subscribe (RT := Ascii_runtime.runtime) 7%nat
           (storeWithSavedSort
              (Ascii_runtime.showSort
                 {| field := Some "price"; direction := Desc; type := TNumber |})))
     = true
  /\ wf (subscribe (RT := Ascii_runtime.runtime) 7%nat (storeWithSavedSort "null"))
     = false.
Proof.
  split; [|split].
  - refine (proj1 (proj2 (store_keeps_its_shape (RT := Ascii_runtime.runtime)
                            nestedCalls 7%nat newStore _))).
    reflexivity.
  - refine (proj1 (proj2 (proj2 (proj2
              (store_keeps_its_shape (RT := Ascii_runtime.runtime) PDone 7%nat
                 (storeWithSavedSort
                    (Ascii_runtime.showSort
                       {| field := Some "price"; direction := Desc; type := TNumber |}))
                 _)))) _).
    + reflexivity.
    + right. vm_compute. reflexivity.
  - refine (proj2 (proj2 (proj2 (proj2
              (store_keeps_its_shape (RT := Ascii_runtime.runtime) PDone 7%nat
                 (storeWithSavedSort "null") _)))) "null" VNull _ _ _ _ _ _).
    + reflexivity.
    + reflexivity.
    + vm_compute. reflexivity.
    + reflexivity.
    + vm_compute. reflexivity.
    + reflexivity.
    + intros savedFilters Hs. vm_compute in Hs. discriminate.
Defined.

Lemma processItem_adds_indexes_witness :
  getProp "_searchIndex"
    (processItem (RT := Ascii_runtime.runtime)
       [("title", VStr "Lamp"); ("price", VStr "1,5")])
  = VStr "lamp 1,5"
  /\ exists entries,
       getProp "_multiIndex"
         (processItem (RT := Ascii_runtime.runtime)
            [("title", VStr "Lamp"); ("price", VStr "1,5")])
       = VObj entries
       /\ assocGet "price" entries = Some (VArr [VStr "1"; VStr "5"]).
Proof.
  destruct (processItem_adds_indexes (RT := Ascii_runtime.runtime)
              [("title", VStr "Lamp"); ("price", VStr "1,5")]) as (_ & _ & _ & H).
  destruct H as ((index & Hi & -> & _) & (entries & He & Hm) & _); [reflexivity|].
  split; [exact Hi|]. exists entries. split; [exact He|].
  rewrite Hm; [reflexivity|].
  apply (bool_decide_unpack _). vm_compute. reflexivity.
Defined.

Lemma multi_match_is_substring_match_witness :
  checkMultiMatch (RT := Ascii_runtime.runtime) (VArr (map VStr ["Art"]))
                  (VArr (map VStr ["smart home"; "lamp"])) = true.
Proof.
  refine (proj2 (proj1 (multi_match_is_substring_match (RT := Ascii_runtime.runtime)
                          ["Art"] ["smart home"; "lamp"])) _).
  right. exists "Art", "smart home".
  split; [by apply list_elem_of_singleton|]. split; [by left | reflexivity].
Defined.

Lemma range_match_is_inclusive_witness :
  checkSliderMatch (RT := Ascii_runtime.runtime) (12, 20)%Q (VStr "12 EUR") = true.
Proof.
  refine (proj2 (proj1 (range_match_is_inclusive (RT := Ascii_runtime.runtime)
                          12 20 (VStr "12 EUR"))) _).
  exists 12%Q. split; [reflexivity|]. split; [by vm_compute | by vm_compute].
Defined.
